(** * KisanMitra AI: the Cloud Functions request pipeline

  A shallow embedding of the three callable handlers ([askGemini],
  [transcribeAudio], [synthesizeSpeech]) together with the validators
  (functions/src/utils/validators.js), the authentication middleware
  (functions/src/utils/auth.js) and the prompt builder
  (functions/src/prompts/agricultural.js); of the chat service of the web
  client ([askQuestion], [getChatById]) and some of its helpers
  ([truncateText], [formatPhoneNumber], [isValidPhoneNumber]); and of
  the seed script of the schemes collection ([seedSchemes]).

  - JavaScript strings are sequences of UTF-16 code units; values are a
    first-order datatype of what can cross the callable protocol or come
    out of [JSON.parse], which is modelled in full.
  - Numbers in JSON text are kept as the decimals they were written as.
    How the runtime prints a number is an interface ([Runtime]) on which
    no result depends. The confidence scores of the recognizer are
    Numbers in double precision ([Double]), with the arithmetic of IEEE
    754 binary64: every operation returns the double nearest to its
    exact result, ties to even.
  - Exceptions are an error monad ([Result]); the handlers are programs
    over a small free monad ([Prog]) whose actions are the calls to
    outside services, answered by a [World]. Logging is left out.
  - The client functions and the seed script make at most one kind of
    call each; it is passed to them as a function, and they return the
    calls made along with their outcome. *)

From Stdlib Require Import List String Ascii ZArith NArith QArith Qround Qabs Qpower Bool Lia DecimalString.
From Stdlib Require Qcanon.
From ExtLib Require Import Structures.Monad.
Import ListNotations.
Import MonadNotation.
Local Open Scope monad_scope.
Local Open Scope list_scope.

Set Warnings "-register-all".

(* ===================================================================== *)
(** * JavaScript strings *)
(* ===================================================================== *)

(** A JS string is a sequence of UTF-16 code units; [length] counts code
  units, exactly as [String.prototype.length] does. *)
Definition JsString := list N.

(** ASCII literals of the source. *)
Definition js (s : string) : JsString :=
List.map N_of_ascii (list_ascii_of_string s).

Definition dquote : JsString := [34%N].
Definition newline : JsString := [10%N].

Module Str.

Fixpoint eqb (a b : JsString) : bool :=
  match a, b with
  | [], [] => true
  | x :: a', y :: b' => N.eqb x y && eqb a' b'
  | _, _ => false
  end.

(** [s.startsWith(p)] *)
Fixpoint startsWith (s p : JsString) {struct p} : bool :=
  match p, s with
  | [], _ => true
  | x :: p', y :: s' => N.eqb x y && startsWith s' p'
  | _ :: _, [] => false
  end.

(** [s.includes(p)] *)
Fixpoint includes (s p : JsString) : bool :=
  startsWith s p ||
  match s with
  | [] => false
  | _ :: s' => includes s' p
  end.

(** WhiteSpace and LineTerminator code points, the characters removed by
    [String.prototype.trim] (ECMA-262, 22.1.3.32). *)
Definition isWhiteSpace (c : N) : bool :=
  ((9 <=? c) && (c <=? 13) || (c =? 32) || (c =? 160) || (c =? 5760)
   || (8192 <=? c) && (c <=? 8202) || (c =? 8232) || (c =? 8233)
   || (c =? 8239) || (c =? 8287) || (c =? 12288) || (c =? 65279))%N.

Fixpoint trimStart (s : JsString) : JsString :=
  match s with
  | [] => []
  | c :: s' => if isWhiteSpace c then trimStart s' else s
  end.

Definition trimEnd (s : JsString) : JsString := rev (trimStart (rev s)).

(** [s.trim()] *)
Definition trim (s : JsString) : JsString := trimEnd (trimStart s).

(** [parts.join(sep)] on strings *)
Fixpoint join (sep : JsString) (parts : list JsString) : JsString :=
  match parts with
  | [] => []
  | [p] => p
  | p :: rest => p ++ sep ++ join sep rest
  end.

(** Decimal rendering of a non-negative integer literal of the source. *)
Definition ofN (n : N) : JsString :=
  js (NilZero.string_of_uint (N.to_uint n)).

End Str.

(* ===================================================================== *)
(** * JavaScript values *)
(* ===================================================================== *)

(** A number is kept as the decimal it was written as,
  [(-1)^neg * mantissa * 10^exp10]; the Number it denotes is the
  binary64 value nearest to it. Every finite double is such a decimal. *)
Record JsNumber : Set := mkNum {
num_neg : bool;
num_mantissa : N;
num_exp10 : Z
}.

(** The values that the callable protocol and [JSON.parse] can produce,
  plus [undefined]. Objects are lists of own properties, the most
  recently defined binding of a key first. *)
Inductive JsValue : Type :=
| VUndefined
| VNull
| VBool (b : bool)
| VNum (n : JsNumber)
| VStr (s : JsString)
| VArr (elems : list JsValue)
| VObj (props : list (JsString * JsValue)).

(** Thrown [Error] objects; the handlers only ever read [.message]. *)
Record JsError := mkError { message : JsString }.

Inductive Result (A : Type) : Type :=
| Ok (a : A)
| Throw (e : JsError).
Arguments Ok {A} a.
Arguments Throw {A} e.

#[export] Instance Monad_Result : Monad Result := {
ret := fun _ a => Ok a;
bind := fun _ _ m k => match m with Ok a => k a | Throw e => Throw e end
}.

Definition throwError {A} (msg : JsString) : Result A := Throw (mkError msg).

Module Js.

(** Does the decimal round to [+0] or [-0]? Halfway to the least
    subnormal, [2^-1075], still rounds to zero (ties to even). *)
Definition isZero (n : JsNumber) : bool :=
  match num_exp10 n with
  | Zneg p => (Z.of_N (num_mantissa n) * 2 ^ 1075 <=? 10 ^ (Z.pos p))%Z
  | _ => (num_mantissa n =? 0)%N
  end.

(** ToBoolean *)
Definition truthy (v : JsValue) : bool :=
  match v with
  | VUndefined | VNull => false
  | VBool b => b
  | VNum n => negb (isZero n)
  | VStr s => match s with [] => false | _ => true end
  | VArr _ | VObj _ => true
  end.

Definition isArray (v : JsValue) : bool :=
  match v with VArr _ => true | _ => false end.

Definition isString (v : JsValue) : bool :=
  match v with VStr _ => true | _ => false end.

(** [typeof v === "object"] *)
Definition typeofObject (v : JsValue) : bool :=
  match v with VNull | VArr _ | VObj _ => true | _ => false end.

(** Own-property lookup. *)
Fixpoint lookup (props : list (JsString * JsValue)) (k : JsString) : option JsValue :=
  match props with
  | [] => None
  | (k', v) :: rest => if Str.eqb k' k then Some v else lookup rest k
  end.

(** [v?.k], and [v.k] on a value known to be neither [undefined] nor
    [null], for the property names this code reads: none of them is a
    built-in property of a string, array, number or boolean, nor of
    [Object.prototype], so only own properties of objects are found. *)
Definition prop (v : JsValue) (k : JsString) : JsValue :=
  match v with
  | VObj props => match lookup props k with Some x => x | None => VUndefined end
  | _ => VUndefined
  end.

(** [v.k] / [v[k]]: reading a property of [undefined] or [null] throws a
    TypeError. *)
Definition get (v : JsValue) (k : JsString) : Result JsValue :=
  match v with
  | VUndefined =>
      throwError (js "Cannot read properties of undefined (reading '" ++ k ++ js "')")
  | VNull =>
      throwError (js "Cannot read properties of null (reading '" ++ k ++ js "')")
  | _ => Ok (prop v k)
  end.

(** [o.k = x]. The code only assigns to values that are objects. *)
Definition set (o : JsValue) (k : JsString) (x : JsValue) : JsValue :=
  match o with
  | VObj props => VObj ((k, x) :: props)
  | _ => o
  end.

(** [a || b] *)
Definition or (a b : JsValue) : JsValue := if truthy a then a else b.

(** [arr.includes(v)] for an array of string literals (SameValueZero:
    only a string value can be equal to a string). *)
Definition strIncludes (arr : list JsString) (v : JsValue) : bool :=
  match v with
  | VStr s => existsb (Str.eqb s) arr
  | _ => false
  end.

End Js.

(* ===================================================================== *)
(** * JSON.parse *)
(* ===================================================================== *)

(** The runtime's [JSON.parse] (ECMA-404 grammar), as a lexer that is a
    state machine over code units followed by a stack automaton over
    tokens. [None] stands for the SyntaxError it throws. *)
Module Json.

Inductive Token :=
| TLBrace | TRBrace | TLBracket | TRBracket | TColon | TComma
| TString (s : JsString)
| TNumber (n : JsNumber)
| TTrue | TFalse | TNull.

(** Where the lexer stands inside a number literal: an optional minus, an
    integer part (a lone 0, or digits not starting with 0), an optional
    fraction (a dot and digits), an optional exponent (e or E, an optional
    sign, digits). *)
Inductive NumPhase :=
| NMinus | NZero | NInt | NDot | NFrac | NE | NESign | NExp.

Record NumState := mkNumState {
  ns_phase : NumPhase;
  ns_neg : bool;
  ns_mantissa : N;      (* integer and fraction digits read so far *)
  ns_frac : N;          (* how many of them are fraction digits *)
  ns_eneg : bool;
  ns_exp : N
}.

Inductive LexState :=
| LIdle
| LLit (expect : JsString) (tok : Token)
| LStr (acc : JsString)
| LEsc (acc : JsString)
| LHex (acc : JsString) (remaining : nat) (val : N)
| LNum (st : NumState).

Definition digit (c : N) : option N :=
  if ((48 <=? c) && (c <=? 57))%N then Some (c - 48)%N else None.

Definition hexDigit (c : N) : option N :=
  if ((48 <=? c) && (c <=? 57))%N then Some (c - 48)%N
  else if ((65 <=? c) && (c <=? 70))%N then Some (c - 55)%N
  else if ((97 <=? c) && (c <=? 102))%N then Some (c - 87)%N
  else None.

Definition isJsonSpace (c : N) : bool :=
  ((c =? 32) || (c =? 9) || (c =? 10) || (c =? 13))%N.

Definition numberOf (st : NumState) : JsNumber :=
  mkNum (ns_neg st) (ns_mantissa st)
        ((if ns_eneg st then - Z.of_N (ns_exp st) else Z.of_N (ns_exp st))
         - Z.of_N (ns_frac st))%Z.

Definition accepting (ph : NumPhase) : bool :=
  match ph with
  | NZero | NInt | NFrac | NExp => true
  | _ => false
  end.

(** One more code unit of a number literal; [None] when the unit does not
    continue the literal. *)
Definition numStep (st : NumState) (c : N) : option NumState :=
  let '(mkNumState ph neg m fr eneg ex) := st in
  let isE := ((c =? 101) || (c =? 69))%N in
  match ph, digit c with
  | NMinus, Some d =>
      Some (mkNumState (if (d =? 0)%N then NZero else NInt) neg d fr eneg ex)
  | NInt, Some d => Some (mkNumState NInt neg (10 * m + d) fr eneg ex)
  | (NDot | NFrac), Some d => Some (mkNumState NFrac neg (10 * m + d) (fr + 1) eneg ex)
  | (NE | NESign | NExp), Some d => Some (mkNumState NExp neg m fr eneg (10 * ex + d))
  | (NZero | NInt), None =>
      if (c =? 46)%N then Some (mkNumState NDot neg m fr eneg ex)
      else if isE then Some (mkNumState NE neg m fr eneg ex)
      else None
  | NFrac, None => if isE then Some (mkNumState NE neg m fr eneg ex) else None
  | NE, None =>
      if (c =? 43)%N then Some (mkNumState NESign neg m fr false ex)
      else if (c =? 45)%N then Some (mkNumState NESign neg m fr true ex)
      else None
  | _, _ => None
  end.

(** The lexer between tokens. *)
Definition lexIdle (c : N) : option (LexState * list Token) :=
  if isJsonSpace c then Some (LIdle, [])
  else match c with
       | 123 => Some (LIdle, [TLBrace])
       | 125 => Some (LIdle, [TRBrace])
       | 91 => Some (LIdle, [TLBracket])
       | 93 => Some (LIdle, [TRBracket])
       | 58 => Some (LIdle, [TColon])
       | 44 => Some (LIdle, [TComma])
       | 34 => Some (LStr [], [])
       | 116 => Some (LLit (js "rue") TTrue, [])
       | 102 => Some (LLit (js "alse") TFalse, [])
       | 110 => Some (LLit (js "ull") TNull, [])
       | 45 => Some (LNum (mkNumState NMinus true 0 0 false 0), [])
       | _ =>
           match digit c with
           | Some d =>
               Some (LNum (mkNumState (if (d =? 0)%N then NZero else NInt)
                                      false d 0 false 0), [])
           | None => None
           end
       end%N.

Definition lexStep (st : LexState) (c : N) : option (LexState * list Token) :=
  match st with
  | LIdle => lexIdle c
  | LLit [] _ => None
  | LLit (x :: rest) tok =>
      if (c =? x)%N then
        match rest with
        | [] => Some (LIdle, [tok])
        | _ => Some (LLit rest tok, [])
        end
      else None
  | LStr acc =>
      if (c =? 34)%N then Some (LIdle, [TString (rev acc)])
      else if (c =? 92)%N then Some (LEsc acc, [])
      else if (c <? 32)%N then None
      else Some (LStr (c :: acc), [])
  | LEsc acc =>
      match c with
      | 34 | 92 | 47 => Some (LStr (c :: acc), [])
      | 98 => Some (LStr (8 :: acc), [])
      | 102 => Some (LStr (12 :: acc), [])
      | 110 => Some (LStr (10 :: acc), [])
      | 114 => Some (LStr (13 :: acc), [])
      | 116 => Some (LStr (9 :: acc), [])
      | 117 => Some (LHex acc 4 0, [])
      | _ => None
      end%N
  | LHex acc remaining val =>
      match hexDigit c, remaining with
      | Some d, 1%nat => Some (LStr ((16 * val + d)%N :: acc), [])
      | Some d, S remaining' => Some (LHex acc remaining' (16 * val + d)%N, [])
      | _, _ => None
      end
  | LNum ns =>
      match numStep ns c with
      | Some ns' => Some (LNum ns', [])
      | None =>
          if accepting (ns_phase ns) then
            match lexIdle c with
            | Some (st', toks) => Some (st', TNumber (numberOf ns) :: toks)
            | None => None
            end
          else None
      end
  end.

Definition lexEnd (st : LexState) : option (list Token) :=
  match st with
  | LIdle => Some []
  | LNum ns => if accepting (ns_phase ns) then Some [TNumber (numberOf ns)] else None
  | _ => None
  end.

Fixpoint lexFrom (st : LexState) (text : JsString) : option (list Token) :=
  match text with
  | [] => lexEnd st
  | c :: rest =>
      match lexStep st c with
      | Some (st', toks) => option_map (app toks) (lexFrom st' rest)
      | None => None
      end
  end.

(** Containers under construction: an array with its elements so far
    (last first), an object with its properties so far and the key that
    awaits its value. *)
Inductive Frame :=
| FArr (elems : list JsValue)
| FObj (props : list (JsString * JsValue)) (key : option JsString).

Inductive Mode :=
| MValue       (* a value must follow *)
| MArrStart    (* just after [[]: a value or []] *)
| MObjStart    (* just after [{]: a key or [}] *)
| MKey         (* after a comma in an object: a key *)
| MColon       (* after a key *)
| MAfter       (* after a value inside a container *)
| MDone (v : JsValue).

Definition PState := (Mode * list Frame)%type.

(** A value is complete: it is the result, or goes into the container on
    top of the stack. *)
Definition complete (v : JsValue) (stack : list Frame) : option PState :=
  match stack with
  | [] => Some (MDone v, [])
  | FArr elems :: st => Some (MAfter, FArr (v :: elems) :: st)
  | FObj props (Some k) :: st => Some (MAfter, FObj ((k, v) :: props) None :: st)
  | FObj _ None :: _ => None
  end.

Definition startValue (tok : Token) (stack : list Frame) : option PState :=
  match tok with
  | TString s => complete (VStr s) stack
  | TNumber n => complete (VNum n) stack
  | TTrue => complete (VBool true) stack
  | TFalse => complete (VBool false) stack
  | TNull => complete VNull stack
  | TLBracket => Some (MArrStart, FArr [] :: stack)
  | TLBrace => Some (MObjStart, FObj [] None :: stack)
  | _ => None
  end.

Definition parseStep (st : PState) (tok : Token) : option PState :=
  let '(mode, stack) := st in
  match mode, tok, stack with
  | MValue, _, _ => startValue tok stack
  | MArrStart, TRBracket, FArr _ :: st' => complete (VArr []) st'
  | MArrStart, _, _ => startValue tok stack
  | MObjStart, TRBrace, FObj _ _ :: st' => complete (VObj []) st'
  | (MObjStart | MKey), TString k, FObj props _ :: st' =>
      Some (MColon, FObj props (Some k) :: st')
  | MColon, TColon, _ => Some (MValue, stack)
  | MAfter, TComma, FArr _ :: _ => Some (MValue, stack)
  | MAfter, TComma, FObj _ _ :: _ => Some (MKey, stack)
  | MAfter, TRBracket, FArr elems :: st' => complete (VArr (rev elems)) st'
  | MAfter, TRBrace, FObj props _ :: st' => complete (VObj props) st'
  | _, _, _ => None
  end.

Fixpoint parseFrom (st : PState) (toks : list Token) : option JsValue :=
  match toks with
  | [] => match st with (MDone v, []) => Some v | _ => None end
  | tok :: rest =>
      match parseStep st tok with
      | Some st' => parseFrom st' rest
      | None => None
      end
  end.

Definition parse (text : JsString) : option JsValue :=
  match lexFrom LIdle text with
  | Some toks => parseFrom (MValue, []) toks
  | None => None
  end.

End Json.

(** A printer of numbers for the sample runs: the digits of the mantissa,
    which is what [Number::toString] prints for an integer written
    without exponent. *)
Definition sampleNumberToString (n : JsNumber) : JsString :=
  (if num_neg n then js "-" else []) ++ Str.ofN (num_mantissa n).

(* ===================================================================== *)
(** * Conversion to string *)
(* ===================================================================== *)

(** [Number::toString] is the runtime's; the code below never depends on
    how a number is printed, so it is left to an interface. *)
Class Runtime := { Number_toString : JsNumber -> JsString }.

(** [Array.prototype.join]: [undefined] and [null] elements print as the
    empty string, the others through ToString, left to right. *)
Definition Array_join (toStr : JsValue -> Result JsString) (sep : JsString) :=
  fix go (elems : list JsValue) : Result JsString :=
    let elem x := match x with
                  | VUndefined | VNull => Ok []
                  | _ => toStr x
                  end in
    match elems with
    | [] => Ok []
    | [x] => elem x
    | x :: rest => a <- elem x ;; b <- go rest ;; ret (a ++ sep ++ b)
    end.

(** ToString, as applied by template literals. A plain object prints as
    [[object Object]] through [Object.prototype.toString]; one that carries
    an own [toString] property (never callable in protocol data) has no
    primitive value and the conversion throws a TypeError. *)
Fixpoint ToString {rt : Runtime} (v : JsValue) : Result JsString :=
  match v with
  | VUndefined => Ok (js "undefined")
  | VNull => Ok (js "null")
  | VBool true => Ok (js "true")
  | VBool false => Ok (js "false")
  | VNum n => Ok (Number_toString n)
  | VStr s => Ok s
  | VArr elems => Array_join ToString (js ",") elems
  | VObj props =>
      match Js.lookup props (js "toString") with
      | Some _ => throwError (js "Cannot convert object to primitive value")
      | None => Ok (js "[object Object]")
      end
  end.

(* ===================================================================== *)
(** * functions/src/utils/auth.js *)
(* ===================================================================== *)

(** [context.auth], with the [uid] the platform decoded from the token
    ([None] for an absent one). *)
Record AuthData := mkAuth { uid : option JsString }.
Record CallableContext := mkContext { auth : option AuthData }.

Definition validateAuth (context : CallableContext) : Result JsString :=
  match auth context with
  | None => throwError (js "Unauthenticated: No auth token provided")
  | Some a =>
      match uid a with
      | None | Some [] => throwError (js "Unauthenticated: Invalid auth token")
      | Some u => Ok u
      end
  end.

(* ===================================================================== *)
(** * functions/src/utils/validators.js *)
(* ===================================================================== *)

(** [data[field]] is [undefined], [null] or the empty string. *)
Definition isMissing (v : JsValue) : bool :=
  match v with
  | VUndefined | VNull | VStr [] => true
  | _ => false
  end.

(** The required fields for which [data[field]] is missing. [data[field]]
    is looked up among the own properties of [data]: the field names the
    handlers pass are question, farmProfile, language, audioPath and
    text, and none of them is a member that every object inherits. *)
Fixpoint missingFields (data : JsValue) (requiredFields : list JsString)
  : Result (list JsString) :=
  match requiredFields with
  | [] => Ok []
  | field :: rest =>
      v <- Js.get data field ;;
      more <- missingFields data rest ;;
      ret (if isMissing v then field :: more else more)
  end.

Definition validateRequiredFields (data : JsValue) (requiredFields : list JsString)
  : Result unit :=
  missing <- missingFields data requiredFields ;;
  match missing with
  | [] => Ok tt
  | _ => throwError (js "Missing required fields: " ++ Str.join (js ", ") missing)
  end.

Definition supportedLanguages : list JsString := [js "en"; js "hi"; js "ta"; js "te"].

Definition unsupportedLanguage {A} (shown : JsString) : Result A :=
  throwError (js "Unsupported language: " ++ shown ++ js ". Supported: "
              ++ Str.join (js ", ") supportedLanguages).

(** [if (!language || !supportedLanguages.includes(language)) throw ...;
    return language]. [includes] compares with SameValueZero, so a value
    that is not a string is never found and always takes the throwing
    branch, after the template literal has converted it to a string. *)
Definition validateLanguage {rt : Runtime} (language : JsValue) : Result JsString :=
  match language with
  | VStr s =>
      if negb (Js.truthy language) || negb (Js.strIncludes supportedLanguages language)
      then unsupportedLanguage s
      else Ok s
  | _ => shown <- ToString language ;; unsupportedLanguage shown
  end.

Definition validateAudioPath (audioPath : JsValue) : Result JsString :=
  match audioPath with
  | VStr ((_ :: _) as s) =>
      if negb (Str.startsWith s (js "audio/")) then
        throwError (js "Invalid audio path format. Must start with 'audio/'")
      else Ok s
  | _ => throwError (js "Invalid audio path")
  end.

Definition validateTextLength (text : JsValue) (maxLength : N) : Result JsString :=
  match text with
  | VStr ((_ :: _) as s) =>
      if (maxLength <? N.of_nat (List.length s))%N then
        throwError (js "Text too long. Maximum length: " ++ Str.ofN maxLength
                    ++ js " characters")
      else Ok (Str.trim s)
  | _ => throwError (js "Invalid text input")
  end.

(** Removes every [<] and [>] and trims, on strings; the identity
    otherwise. *)
Definition sanitizeInput (input : JsValue) : JsValue :=
  match input with
  | VStr s =>
      VStr (Str.trim (filter (fun c => negb ((c =? 60) || (c =? 62))%N) s))
  | _ => input
  end.

(* ===================================================================== *)
(** * functions/src/prompts/agricultural.js *)
(* ===================================================================== *)

Definition NotSpecified : JsString := js "Not specified".

Definition languageNames : list (JsString * JsString) :=
  [ (js "en", js "English"); (js "hi", js "Hindi");
    (js "ta", js "Tamil"); (js "te", js "Telugu") ].

(** [table[key]] on an object literal of the source, for a key that names
    no member of [Object.prototype]. *)
Fixpoint tableGet {A} (table : list (JsString * A)) (key : JsString) : option A :=
  match table with
  | [] => None
  | (k, v) :: rest => if Str.eqb k key then Some v else tableGet rest key
  end.

(** The eight display values computed from the farm profile (the [const]s
    of the source), already converted to strings. *)
Record FarmContext := mkFarmContext {
  ctx_crops : JsString;
  ctx_village : JsString;
  ctx_district : JsString;
  ctx_state : JsString;
  ctx_soilType : JsString;
  ctx_irrigationType : JsString;
  ctx_area : JsString;
  ctx_season : JsString
}.

Definition promptHeader : JsString :=
  js "You are KisanMitra AI, an expert agricultural advisor for Indian farmers with deep knowledge of:" ++ newline
  ++ js "- Indian agriculture practices and regional variations" ++ newline
  ++ js "- Crop diseases, pests, and their management" ++ newline
  ++ js "- Soil health and fertilizer recommendations" ++ newline
  ++ js "- Water management and irrigation techniques" ++ newline
  ++ js "- Government schemes and subsidies for farmers" ++ newline
  ++ js "- Weather patterns and seasonal advice" ++ newline
  ++ js "- Organic farming and sustainable practices" ++ newline
  ++ newline.

Definition promptContext (c : FarmContext) : JsString :=
  let '(mkFarmContext crops village district state soilType irrigationType area season) := c in
  js "FARMER'S CONTEXT:" ++ newline
  ++ js "- Crops: " ++ crops ++ newline
  ++ js "- Location: " ++ village ++ js ", " ++ district ++ js ", " ++ state ++ newline
  ++ js "- Soil Type: " ++ soilType ++ newline
  ++ js "- Irrigation: " ++ irrigationType ++ newline
  ++ js "- Farm Area: " ++ area ++ newline
  ++ js "- Current Season: " ++ season ++ newline
  ++ newline.

Definition promptInstructions (languageName state : JsString) : JsString :=
  js "INSTRUCTIONS:" ++ newline
  ++ js "1. Answer the farmer's question accurately and practically, considering their specific farm context." ++ newline
  ++ js "2. Provide actionable advice that the farmer can implement immediately." ++ newline
  ++ js "3. Answer in " ++ languageName ++ js " - the farmer's preferred language." ++ newline
  ++ js "4. Keep answers concise but comprehensive (2-4 paragraphs maximum)." ++ newline
  ++ js "5. Include specific product names, dosages, or techniques when relevant (with local market names)." ++ newline
  ++ js "6. Mention if the farmer should consult a local agricultural officer, Krishi Vigyan Kendra (KVK), or veterinarian for serious issues." ++ newline
  ++ js "7. Consider regional practices common to " ++ state ++ js "." ++ newline
  ++ js "8. If the question is about government schemes, mention eligibility and application process." ++ newline
  ++ js "9. Always prioritize safe, sustainable, and cost-effective solutions." ++ newline
  ++ newline.

Definition promptFormat (languageName : JsString) : JsString :=
  js "RESPONSE FORMAT (respond in valid JSON):" ++ newline
  ++ js "{" ++ newline
  ++ js "  " ++ dquote ++ js "answer" ++ dquote ++ js ": " ++ dquote ++ js "Your detailed answer here in " ++ languageName ++ dquote ++ js "," ++ newline
  ++ js "  " ++ dquote ++ js "confidence" ++ dquote ++ js ": " ++ dquote ++ js "High" ++ dquote ++ js " | " ++ dquote ++ js "Medium" ++ dquote ++ js " | " ++ dquote ++ js "Low" ++ dquote ++ js "," ++ newline
  ++ js "  " ++ dquote ++ js "sources" ++ dquote ++ js ": [" ++ dquote ++ js "Source 1" ++ dquote ++ js ", " ++ dquote ++ js "Source 2" ++ dquote ++ js ", " ++ dquote ++ js "Source 3" ++ dquote ++ js "]," ++ newline
  ++ js "  " ++ dquote ++ js "suggestions" ++ dquote ++ js ": [" ++ dquote ++ js "Follow-up suggestion 1" ++ dquote ++ js ", " ++ dquote ++ js "Follow-up suggestion 2" ++ dquote ++ js "]" ++ newline
  ++ js "}" ++ newline
  ++ newline.

Definition promptGuidelines : JsString :=
  js "Guidelines for confidence level:" ++ newline
  ++ js "- High: You're certain about the advice based on established agricultural science" ++ newline
  ++ js "- Medium: The advice is sound but may vary based on specific conditions" ++ newline
  ++ js "- Low: Limited information or the issue requires professional in-person diagnosis" ++ newline
  ++ newline.

Definition promptQuestion (question : JsString) : JsString :=
  js "FARMER'S QUESTION: " ++ question ++ newline
  ++ newline
  ++ js "Remember: Respond ONLY with valid JSON. No additional text before or after the JSON object.".

(** The template literal of the source, in its six consecutive parts. *)
Definition renderPrompt (languageName : JsString) (c : FarmContext) (question : JsString)
  : JsString :=
  promptHeader ++ promptContext c ++ promptInstructions languageName (ctx_state c)
  ++ promptFormat languageName ++ promptGuidelines ++ promptQuestion question.

(** [farmProfile.crops?.join(", ") || "Not specified"] *)
Definition cropsOf {rt : Runtime} (farmProfile : JsValue) : Result JsString :=
  match Js.prop farmProfile (js "crops") with
  | VUndefined | VNull => Ok NotSpecified
  | VArr elems =>
      joined <- Array_join ToString (js ", ") elems ;;
      ret (match joined with [] => NotSpecified | _ => joined end)
  | _ => throwError (js "farmProfile.crops?.join is not a function")
  end.

(** [farmProfile.area ? `${farmProfile.area.value} ${farmProfile.area.unit}`
    : "Not specified"] *)
Definition areaOf {rt : Runtime} (farmProfile : JsValue) : Result JsString :=
  let area := Js.prop farmProfile (js "area") in
  if Js.truthy area then
    value <- ToString (Js.prop area (js "value")) ;;
    unit <- ToString (Js.prop area (js "unit")) ;;
    ret (value ++ js " " ++ unit)
  else Ok NotSpecified.

(** [x || "Not specified"], as later printed by the template. *)
Definition orNotSpecified {rt : Runtime} (x : JsValue) : Result JsString :=
  ToString (Js.or x (VStr NotSpecified)).

(** [languageNames[language] || "English"] *)
Definition languageNameOf (language : JsString) : JsString :=
  match tableGet languageNames language with
  | Some name => name
  | None => js "English"
  end.

Definition buildAgriculturalPrompt {rt : Runtime} (farmProfile : JsValue) (language question : JsString)
  : Result JsString :=
  let languageName := languageNameOf language in
  _ <- Js.get farmProfile (js "crops") ;;
  crops <- cropsOf farmProfile ;;
  let location := Js.prop farmProfile (js "location") in
  let village := Js.prop location (js "village") in
  let district := Js.prop location (js "district") in
  let state := Js.prop location (js "state") in
  let soilType := Js.prop farmProfile (js "soilType") in
  let irrigationType := Js.prop farmProfile (js "irrigationType") in
  area <- areaOf farmProfile ;;
  let season := Js.prop farmProfile (js "season") in
  village <- orNotSpecified village ;;
  district <- orNotSpecified district ;;
  state <- orNotSpecified state ;;
  soilType <- orNotSpecified soilType ;;
  irrigationType <- orNotSpecified irrigationType ;;
  season <- orNotSpecified season ;;
  ret (renderPrompt languageName
         (mkFarmContext crops village district state soilType irrigationType area season)
         question).

(* ===================================================================== *)
(** * Reading the model's reply (askGemini.js, "Parse JSON response") *)
(* ===================================================================== *)

Definition validConfidenceLevels : list JsString := [js "High"; js "Medium"; js "Low"].
Definition providerName : JsString := js "Gemini AI".

(** The text from its first opening brace on. *)
Fixpoint fromFirstBrace (text : JsString) : option JsString :=
  match text with
  | [] => None
  | c :: rest => if (c =? 123)%N then Some text else fromFirstBrace rest
  end.

(** The longest prefix that ends in a closing brace. *)
Fixpoint uptoLastBrace (text : JsString) : option JsString :=
  match text with
  | [] => None
  | c :: rest =>
      match uptoLastBrace rest with
      | Some r => Some (c :: r)
      | None => if (c =? 125)%N then Some [c] else None
      end
  end.

(** [responseText.match(/\{[\s\S]*\}/)], element 0 of the match: the
    leftmost opening brace, then greedily up to the last closing brace. *)
Definition jsonMatch (responseText : JsString) : option JsString :=
  match fromFirstBrace responseText with
  | Some s => uptoLastBrace s
  | None => None
  end.

(** The object literal of the [catch (parseError)] branch. *)
Definition fallbackResponse (responseText : JsString) : JsValue :=
  VObj [ (js "answer", VStr responseText);
         (js "confidence", VStr (js "Medium"));
         (js "sources", VArr [VStr providerName]);
         (js "suggestions", VArr []) ].

(** The inner [try { ... } catch (parseError) { ... }]: both a missing
    match and a SyntaxError of [JSON.parse] end in the fallback. *)
Definition extractResponse (responseText : JsString) : JsValue :=
  match jsonMatch responseText with
  | None => fallbackResponse responseText
  | Some matched =>
      match Json.parse matched with
      | Some v => v
      | None => fallbackResponse responseText
      end
  end.

Definition invalidAIResponse : JsString := js "Invalid AI response: missing answer field".

(** "Validate response structure", "Ensure confidence is valid" and
    "Ensure arrays exist". *)
Definition normalizeResponse (aiResponse : JsValue) : Result JsValue :=
  answer <- Js.get aiResponse (js "answer") ;;
  if negb (Js.truthy answer) then throwError invalidAIResponse
  else
    let aiResponse :=
      if negb (Js.strIncludes validConfidenceLevels (Js.prop aiResponse (js "confidence")))
      then Js.set aiResponse (js "confidence") (VStr (js "Medium"))
      else aiResponse in
    let aiResponse :=
      if negb (Js.isArray (Js.prop aiResponse (js "sources")))
      then Js.set aiResponse (js "sources") (VArr [VStr providerName])
      else aiResponse in
    let aiResponse :=
      if negb (Js.isArray (Js.prop aiResponse (js "suggestions")))
      then Js.set aiResponse (js "suggestions") (VArr [])
      else aiResponse in
    Ok aiResponse.

(** The response parser: from the raw reply to the normalized object. *)
Definition parseAIResponse (responseText : JsString) : Result JsValue :=
  normalizeResponse (extractResponse responseText).

(** The four fields askGemini reads back from the normalized object. *)
Record AIResponse := mkAIResponse {
  answer : JsValue;
  confidence : JsValue;
  sources : JsValue;
  suggestions : JsValue
}.

Definition fieldsOf (aiResponse : JsValue) : AIResponse :=
  mkAIResponse (Js.prop aiResponse (js "answer"))
               (Js.prop aiResponse (js "confidence"))
               (Js.prop aiResponse (js "sources"))
               (Js.prop aiResponse (js "suggestions")).

(* ===================================================================== *)
(** * Numbers in double precision *)
(* ===================================================================== *)

(** A Number as the arithmetic of the runtime sees it (IEEE 754
    binary64): not-a-number, an infinity, a signed zero, or a finite
    value other than zero, kept as the rational number it is. *)
Inductive Double :=
| DNaN
| DInf (negative : bool)
| DZero (negative : bool)
| DNum (q : Q).

Module Double.

Definition isNegative (q : Q) : bool :=
  match Qcompare q 0 with Lt => true | _ => false end.

(** [floor (log2 a)], for [a > 0]. *)
Definition floorLog2 (a : Q) : Z :=
  let e0 := (Z.log2 (Qnum a) - Z.log2 (Zpos (Qden a)))%Z in
  if Qle_bool (Qpower 2 e0) a then e0 else (e0 - 1)%Z.

(** The nearest integer, the even one of two that are equally near. *)
Definition roundHalfEven (x : Q) : Z :=
  let f := Qfloor x in
  match Qcompare (x - inject_Z f) (1 # 2) with
  | Lt => f
  | Gt => (f + 1)%Z
  | Eq => if Z.even f then f else (f + 1)%Z
  end.

(** The spacing of the doubles around [a > 0]: 53 significant bits, and
    no exponent below -1022 (gradual underflow). *)
Definition ulp (a : Q) : Q := Qpower 2 (Z.max (floorLog2 a) (-1022) - 52).

(** The double nearest to a real number (round to nearest, ties to
    even); what every arithmetic operation returns for its exact
    result. A magnitude that rounds to [2^1024] or more overflows. *)
Definition ofQ (q : Q) : Double :=
  match Qcompare q 0 with
  | Eq => DZero false
  | _ =>
      let a := Qabs q in
      let n := roundHalfEven (a / ulp a) in
      if (n =? 0)%Z then DZero (isNegative q)
      else
        let v := inject_Z n * ulp a in
        if Qle_bool (Qpower 2 1024) v then DInf (isNegative q)
        else DNum (Qred (if isNegative q then - v else v))
  end.

Definition ofZ (n : Z) : Double := ofQ (inject_Z n).

(** [x + y] *)
Definition add (x y : Double) : Double :=
  match x, y with
  | DNaN, _ | _, DNaN => DNaN
  | DInf a, DInf b => if Bool.eqb a b then DInf a else DNaN
  | DInf a, _ => DInf a
  | _, DInf b => DInf b
  | DZero a, DZero b => DZero (a && b)
  | DZero _, DNum _ => y
  | DNum _, DZero _ => x
  | DNum p, DNum q => ofQ (p + q)
  end.

(** [x * y] *)
Definition mul (x y : Double) : Double :=
  match x, y with
  | DNaN, _ | _, DNaN => DNaN
  | DInf _, DZero _ | DZero _, DInf _ => DNaN
  | DInf a, DInf b => DInf (xorb a b)
  | DInf a, DNum q | DNum q, DInf a => DInf (xorb a (isNegative q))
  | DZero a, DZero b => DZero (xorb a b)
  | DZero a, DNum q | DNum q, DZero a => DZero (xorb a (isNegative q))
  | DNum p, DNum q => ofQ (p * q)
  end.

(** [x / y] *)
Definition div (x y : Double) : Double :=
  match x, y with
  | DNaN, _ | _, DNaN => DNaN
  | DInf _, DInf _ | DZero _, DZero _ => DNaN
  | DInf a, DZero b => DInf (xorb a b)
  | DInf a, DNum q => DInf (xorb a (isNegative q))
  | DZero a, DInf b => DZero (xorb a b)
  | DNum p, DInf b => DZero (xorb (isNegative p) b)
  | DZero a, DNum q => DZero (xorb a (isNegative q))
  | DNum p, DZero b => DInf (xorb (isNegative p) b)
  | DNum p, DNum q => ofQ (p / q)
  end.

(** The order of two Numbers; there is none when one is not-a-number. *)
Definition compare (x y : Double) : option comparison :=
  let value d := match d with DNum q => q | _ => 0 end in
  match x, y with
  | DNaN, _ | _, DNaN => None
  | DInf a, DInf b => Some (if a then (if b then Eq else Lt) else (if b then Gt else Eq))
  | DInf a, _ => Some (if a then Lt else Gt)
  | _, DInf b => Some (if b then Gt else Lt)
  | _, _ => Some (Qcompare (value x) (value y))
  end.

(** [x < y] *)
Definition ltb (x y : Double) : bool :=
  match compare x y with Some Lt => true | _ => false end.


(** ToBoolean *)
Definition truthy (x : Double) : bool :=
  match x with DNaN | DZero _ => false | _ => true end.

End Double.

(** [Math.round(x)]: the nearest integer, the greater one of two that are
    equally near; a result of zero keeps the sign of [x]. *)
Definition Math_round (x : Double) : Double :=
  match x with
  | DNum q =>
      let n := Qfloor (q + (1 # 2)) in
      if (n =? 0)%Z then DZero (Double.isNegative q) else DNum (inject_Z n)
  | _ => x
  end.

(* ===================================================================== *)
(** * Calls to outside services *)
(* ===================================================================== *)

(** [admin.firestore.FieldValue.serverTimestamp()] *)
Inductive FieldValue := serverTimestamp.

(** The document written by [chatRef.set]. *)
Record ChatRecord := mkChatRecord {
  chat_timestamp : FieldValue;
  chat_question : JsString;
  chat_answer : JsValue;
  chat_confidence : JsValue;
  chat_sources : JsValue;
  chat_suggestions : JsValue;
  chat_language : JsString;
  chat_crops : JsValue;
  chat_location : JsValue;
  chat_soilType : JsValue
}.

Record RecognitionConfig := mkRecognitionConfig {
  rc_encoding : JsString;
  rc_sampleRateHertz : Z;
  rc_languageCode : JsString;
  rc_enableAutomaticPunctuation : bool;
  rc_model : JsString;
  rc_useEnhanced : bool
}.

Record RecognizeRequest := mkRecognizeRequest {
  rq_uri : JsString;
  rq_config : RecognitionConfig
}.

(** A recognition alternative. *)
Record Alternative := mkAlternative {
  alt_transcript : JsString;
  alt_confidence : Double
}.

Record SpeechResult := mkSpeechResult { alternatives : list Alternative }.

(** [response.results] may be absent. *)
Record RecognizeResponse := mkRecognizeResponse {
  results : option (list SpeechResult)
}.

Record VoiceConfig := mkVoice {
  languageCode : JsString;
  voiceName : JsString;
  ssmlGender : JsString
}.

Record AudioConfig := mkAudioConfig {
  audioEncoding : JsString;
  speakingRate : Q;
  pitch : Z;
  volumeGainDb : Z
}.

Record SynthesisRequest := mkSynthesisRequest {
  sr_text : JsString;
  sr_voice : VoiceConfig;
  sr_audioConfig : AudioConfig
}.

(** [response.audioContent]: [None] when it is missing or empty. *)
Record SynthesisResponse := mkSynthesisResponse {
  audioContent : option (list N)
}.

Record FileMetadata := mkFileMetadata {
  fm_contentType : JsString;
  fm_userId : JsString;
  fm_language : JsString;
  fm_generatedAt : JsString
}.

(** Every call a handler makes that leaves the process (and the two
    sources of non-determinism inside it, the clock and the generated
    document id). *)
Inductive Effect :=
| GenerateContent (model prompt : JsString)
| NewChatRef (uid : JsString)
| ChatSet (uid chatId : JsString) (record : ChatRecord)
| FileExists (path : JsString)
| GetSignedUrl (path action : JsString) (expires : Z)
| Recognize (request : RecognizeRequest)
| SynthesizeSpeech (request : SynthesisRequest)
| FileSave (path : JsString) (content : list N) (metadata : FileMetadata)
| DateNow
| NowISOString.

Definition Reply (eff : Effect) : Type :=
  match eff with
  | GenerateContent _ _ => JsString
  | NewChatRef _ => JsString
  | ChatSet _ _ _ => unit
  | FileExists _ => bool
  | GetSignedUrl _ _ _ => JsString
  | Recognize _ => RecognizeResponse
  | SynthesizeSpeech _ => SynthesisResponse
  | FileSave _ _ _ => unit
  | DateNow => Z
  | NowISOString => JsString
  end.

(** Programs that may throw an [E] and that wait for the outside world;
    the continuation of a call receives its result or the error it was
    rejected with. *)
Inductive Prog (E A : Type) : Type :=
| Done (a : A)
| Fail (e : E)
| Call (eff : Effect) (k : Result (Reply eff) -> Prog E A).
Arguments Done {E A} a.
Arguments Fail {E A} e.
Arguments Call {E A} eff k.

Fixpoint Prog_bind {E A B} (p : Prog E A) (f : A -> Prog E B) : Prog E B :=
  match p with
  | Done a => f a
  | Fail e => Fail e
  | Call eff k => Call eff (fun r => Prog_bind (k r) f)
  end.

#[export] Instance Monad_Prog {E} : Monad (Prog E) := {
  ret := fun _ a => Done a;
  bind := fun _ _ p f => Prog_bind p f
}.

(** [await call]: a rejected promise is thrown at the [await]. *)
Definition await (eff : Effect) : Prog JsError (Reply eff) :=
  Call eff (fun r => match r with Ok x => Done x | Throw e => Fail e end).

(** A synchronous computation inside an [async] function. *)
Definition lift {A} (r : Result A) : Prog JsError A :=
  match r with Ok a => Done a | Throw e => Fail e end.

(** [try { p } catch (error) { throw h(error) }] *)
Fixpoint tryCatch {E E' A} (p : Prog E A) (h : E -> E') : Prog E' A :=
  match p with
  | Done a => Done a
  | Fail e => Fail (h e)
  | Call eff k => Call eff (fun r => tryCatch (k r) h)
  end.

(** The outside world answers a call, knowing the calls made before. *)
Definition World := list Effect -> forall eff : Effect, Result (Reply eff).

(** Runs a program against a world; returns the outcome and the calls
    made, in order. *)
Fixpoint runFrom {E A} (world : World) (done : list Effect) (p : Prog E A)
  : (E + A) * list Effect :=
  match p with
  | Done a => (inr a, done)
  | Fail e => (inl e, done)
  | Call eff k => runFrom world (done ++ [eff]) (k (world done eff))
  end.

Definition run {E A} (world : World) (p : Prog E A) : (E + A) * list Effect :=
  runFrom world [] p.

(* ===================================================================== *)
(** * The callable handlers *)
(* ===================================================================== *)

(** [functions.https.HttpsError(code, message)] *)
Record HttpsError := mkHttpsError {
  code : JsString;
  errorMessage : JsString
}.

(** What the process is configured with. *)
Record Env := mkEnv {
  GEMINI_API_KEY : option JsString;      (* process.env.GEMINI_API_KEY *)
  bucketName : JsString                  (* admin.storage().bucket().name *)
}.

(** ** askGemini *)

Record AskGeminiResult := mkAskGeminiResult {
  res_answer : JsValue;
  res_confidence : JsValue;
  res_sources : JsValue;
  res_suggestions : JsValue;
  res_chatId : JsString
}.

Definition apiKeyNotConfigured : JsString :=
  js "Gemini API key not configured. Please set GEMINI_API_KEY in functions/.env".

(** [!process.env.GEMINI_API_KEY || process.env.GEMINI_API_KEY ===
    "YOUR_GEMINI_API_KEY"] *)
Definition apiKeyMissing (env : Env) : bool :=
  match GEMINI_API_KEY env with
  | None | Some [] => true
  | Some key => Str.eqb key (js "YOUR_GEMINI_API_KEY")
  end.

Definition chatRecordOf (question language : JsString) (farmProfile : JsValue)
  (r : AIResponse) : ChatRecord :=
  mkChatRecord serverTimestamp question
    (answer r) (confidence r) (sources r) (suggestions r) language
    (Js.or (Js.prop farmProfile (js "crops")) (VArr []))
    (Js.or (Js.prop farmProfile (js "location")) (VObj []))
    (Js.or (Js.prop farmProfile (js "soilType")) (VStr [])).

(** The body of the [try] block. *)
Definition askGeminiBody {rt : Runtime} (env : Env) (data : JsValue) (context : CallableContext)
  : Prog JsError AskGeminiResult :=
  uid <- lift (validateAuth context) ;;
  _ <- lift (validateRequiredFields data [js "question"; js "farmProfile"; js "language"]) ;;
  rawQuestion <- lift (Js.get data (js "question")) ;;
  question <- lift (validateTextLength rawQuestion 1000) ;;
  rawLanguage <- lift (Js.get data (js "language")) ;;
  language <- lift (validateLanguage rawLanguage) ;;
  farmProfile <- lift (Js.get data (js "farmProfile")) ;;
  if negb (Js.truthy farmProfile) || negb (Js.typeofObject farmProfile) then
    Fail (mkError (js "Invalid farm profile"))
  else if apiKeyMissing env then
    Fail (mkError apiKeyNotConfigured)
  else
    systemPrompt <- lift (buildAgriculturalPrompt farmProfile language question) ;;
    responseText <- await (GenerateContent (js "gemini-1.5-flash") systemPrompt) ;;
    aiResponse <- lift (parseAIResponse responseText) ;;
    let r := fieldsOf aiResponse in
    chatId <- await (NewChatRef uid) ;;
    _ <- await (ChatSet uid chatId (chatRecordOf question language farmProfile r)) ;;
    ret (mkAskGeminiResult (answer r) (confidence r) (sources r) (suggestions r) chatId).

(** The [catch (error)] block. *)
Definition askGeminiError (error : JsError) : HttpsError :=
  if Str.includes (message error) (js "API key") then
    mkHttpsError (js "failed-precondition")
                 (js "Gemini API key not configured. Please contact support.")
  else
    mkHttpsError (js "internal") (js "Failed to get AI response: " ++ message error).

Definition askGemini {rt : Runtime} (env : Env) (data : JsValue) (context : CallableContext)
  : Prog HttpsError AskGeminiResult :=
  tryCatch (askGeminiBody env data context) askGeminiError.

(** ** transcribeAudio *)

Record TranscriptionResult := mkTranscriptionResult {
  tr_transcript : JsString;
  tr_confidence : Double;
  tr_message : option JsString
}.

Definition languageCodeMap : list (JsString * JsString) :=
  [ (js "en", js "en-IN"); (js "hi", js "hi-IN");
    (js "ta", js "ta-IN"); (js "te", js "te-IN") ].

(** [languageCodeMap[language] || "en-IN"] *)
Definition localeOf (language : JsString) : JsString :=
  match tableGet languageCodeMap language with
  | Some ((_ :: _) as locale) => locale
  | _ => js "en-IN"
  end.

(** [response.results.map(r => r.alternatives[0]).filter(a => a &&
    a.transcript).map(a => a.transcript).join(" ")] *)
Definition transcriptionOf (rs : list SpeechResult) : JsString :=
  Str.join (js " ")
    (List.map alt_transcript
       (List.filter (fun a => match alt_transcript a with [] => false | _ => true end)
          (List.flat_map (fun r => match alternatives r with
                                   | a :: _ => [a]
                                   | [] => []
                                   end) rs))).

(** [response.results.map(r => r.alternatives[0]?.confidence || 0)]: one
    score per segment, 0 where the recognizer gave none. *)
Definition segmentScores (rs : list SpeechResult) : list Double :=
  List.map (fun r => match alternatives r with
                     | a :: _ =>
                         if Double.truthy (alt_confidence a) then alt_confidence a
                         else DZero false
                     | [] => DZero false
                     end) rs.

(** [... .filter(score => score > 0)] *)
Definition confidenceScores (rs : list SpeechResult) : list Double :=
  List.filter (Double.ltb (DZero false)) (segmentScores rs).

(** [scores.length > 0 ? scores.reduce((sum, s) => sum + s, 0) /
    scores.length : 0] *)
Definition avgConfidence (scores : list Double) : Double :=
  match scores with
  | [] => DZero false
  | _ => Double.div (fold_left Double.add scores (DZero false))
                    (Double.ofZ (Z.of_nat (List.length scores)))
  end.

(** [Math.round(avgConfidence * 100) / 100] *)
Definition roundedConfidence (rs : list SpeechResult) : Double :=
  Double.div (Math_round (Double.mul (avgConfidence (confidenceScores rs)) (Double.ofZ 100)))
             (Double.ofZ 100).

Definition transcribeAudioBody {rt : Runtime} (env : Env) (data : JsValue) (context : CallableContext)
  : Prog JsError TranscriptionResult :=
  uid <- lift (validateAuth context) ;;
  _ <- lift (validateRequiredFields data [js "audioPath"; js "language"]) ;;
  rawPath <- lift (Js.get data (js "audioPath")) ;;
  audioPath <- lift (validateAudioPath rawPath) ;;
  rawLanguage <- lift (Js.get data (js "language")) ;;
  language <- lift (validateLanguage rawLanguage) ;;
  if negb (Str.includes audioPath (js "audio/" ++ uid ++ js "/")) then
    Fail (mkError (js "Unauthorized: Cannot access audio file"))
  else
    exists_ <- await (FileExists audioPath) ;;
    if negb exists_ then Fail (mkError (js "Audio file not found"))
    else
      now <- await DateNow ;;
      url <- await (GetSignedUrl audioPath (js "read") (now + 5 * 60 * 1000)%Z) ;;
      let request :=
        mkRecognizeRequest
          (js "gs://" ++ bucketName env ++ js "/" ++ audioPath)
          (mkRecognitionConfig (js "WEBM_OPUS") 48000 (localeOf language)
                               true (js "default") true) in
      response <- await (Recognize request) ;;
      match results response with
      | None | Some [] =>
          ret (mkTranscriptionResult [] (DZero false)
                                     (Some (js "No speech detected in audio")))
      | Some rs =>
          ret (mkTranscriptionResult (Str.trim (transcriptionOf rs))
                                     (roundedConfidence rs) None)
      end.

Definition transcribeAudioError (error : JsError) : HttpsError :=
  mkHttpsError (js "internal") (js "Failed to transcribe audio: " ++ message error).

Definition transcribeAudio {rt : Runtime} (env : Env) (data : JsValue) (context : CallableContext)
  : Prog HttpsError TranscriptionResult :=
  tryCatch (transcribeAudioBody env data context) transcribeAudioError.

(** ** synthesizeSpeech *)

Record SynthesisResult := mkSynthesisResult {
  audioUrl : JsString;
  storagePath : JsString
}.

Definition voiceConfig : list (JsString * VoiceConfig) :=
  [ (js "en", mkVoice (js "en-IN") (js "en-IN-Wavenet-D") (js "FEMALE"));
    (js "hi", mkVoice (js "hi-IN") (js "hi-IN-Wavenet-D") (js "FEMALE"));
    (js "ta", mkVoice (js "ta-IN") (js "ta-IN-Wavenet-A") (js "FEMALE"));
    (js "te", mkVoice (js "te-IN") (js "te-IN-Standard-A") (js "FEMALE")) ].

Definition voiceConfig_en : VoiceConfig :=
  mkVoice (js "en-IN") (js "en-IN-Wavenet-D") (js "FEMALE").

(** [voiceConfig[language] || voiceConfig.en] *)
Definition voiceOf (language : JsString) : VoiceConfig :=
  match tableGet voiceConfig language with
  | Some voice => voice
  | None => voiceConfig_en
  end.

(** Decimal digits of a timestamp. *)
Definition timestampString (t : Z) : JsString :=
  match t with
  | Zneg p => js "-" ++ Str.ofN (Npos p)
  | _ => Str.ofN (Z.to_N t)
  end.

Definition synthesizeSpeechBody {rt : Runtime} (env : Env) (data : JsValue) (context : CallableContext)
  : Prog JsError SynthesisResult :=
  uid <- lift (validateAuth context) ;;
  _ <- lift (validateRequiredFields data [js "text"; js "language"]) ;;
  rawText <- lift (Js.get data (js "text")) ;;
  text <- lift (validateTextLength rawText 5000) ;;
  rawLanguage <- lift (Js.get data (js "language")) ;;
  language <- lift (validateLanguage rawLanguage) ;;
  let voice := voiceOf language in
  let request :=
    mkSynthesisRequest text
      (mkVoice (languageCode voice) (voiceName voice) (ssmlGender voice))
      (mkAudioConfig (js "MP3") (95 # 100) 0 0) in
  response <- await (SynthesizeSpeech request) ;;
  match audioContent response with
  | None => Fail (mkError (js "No audio content generated"))
  | Some content =>
      timestamp <- await DateNow ;;
      let fileName := js "audio/" ++ uid ++ js "/response-" ++ timestampString timestamp
                      ++ js ".mp3" in
      generatedAt <- await NowISOString ;;
      _ <- await (FileSave fileName content
                    (mkFileMetadata (js "audio/mpeg") uid language generatedAt)) ;;
      now <- await DateNow ;;
      url <- await (GetSignedUrl fileName (js "read")
                      (now + 7 * 24 * 60 * 60 * 1000)%Z) ;;
      ret (mkSynthesisResult url fileName)
  end.

Definition synthesizeSpeechError (error : JsError) : HttpsError :=
  mkHttpsError (js "internal") (js "Failed to synthesize speech: " ++ message error).

Definition synthesizeSpeech {rt : Runtime} (env : Env) (data : JsValue) (context : CallableContext)
  : Prog HttpsError SynthesisResult :=
  tryCatch (synthesizeSpeechBody env data context) synthesizeSpeechError.

(* ===================================================================== *)
(** * The chat service of the web client *)
(* ===================================================================== *)

(** What a [catch] of the client receives: an [Error] thrown by the
    function itself carries no [code]; a rejection coming from the
    Firebase SDK carries one. *)
Record ClientError := mkClientError {
  err_code : option JsString;
  err_message : JsString
}.

(** [new Error(msg)] *)
Definition plainError (msg : JsString) : ClientError := mkClientError None msg.

(** [error.code === literal] *)
Definition hasCode (error : ClientError) (literal : JsString) : bool :=
  match err_code error with
  | Some c => Str.eqb c literal
  | None => false
  end.

(** [error.message || fallback] *)
Definition messageOr (error : ClientError) (fallback : JsString) : JsString :=
  match err_message error with
  | [] => fallback
  | m => m
  end.

(** A default parameter value stands in for [undefined]. *)
Definition orDefault (argument default : JsValue) : JsValue :=
  match argument with
  | VUndefined => default
  | _ => argument
  end.

(** ** askQuestion *)

(** [askGeminiFunction]: the callable resolves to a response, of which
    the code reads [response.data], or rejects. *)
Definition Callable := JsValue -> ClientError + JsValue.

Record AskQuestionResult := mkAskQuestionResult {
  aq_success : bool;
  aq_answer : JsValue;
  aq_chatId : JsValue;
  aq_timestamp : JsValue;
  aq_language : JsValue
}.

Definition questionRequired : JsString :=
  js "Question is required and must be a non-empty string".

(** [{ question: question.trim(), farmProfile, language }] *)
Definition askQuestionRequest (question : JsString) (farmProfile language : JsValue)
  : JsValue :=
  VObj [ (js "language", language);
         (js "farmProfile", farmProfile);
         (js "question", VStr (Str.trim question)) ].

(** The body of the [try] block, with the requests it has sent. *)
Definition askQuestionBody (callable : Callable) (question farmProfile language : JsValue)
  : (ClientError + AskQuestionResult) * list JsValue :=
  match question with
  | VStr ((_ :: _) as s) =>
      match Str.trim s with
      | [] => (inl (plainError questionRequired), [])
      | _ =>
          let request := askQuestionRequest s farmProfile language in
          match callable request with
          | inl error => (inl error, [request])
          | inr data =>
              if negb (Js.truthy data) then
                (inl (plainError (js "No data received from AI service")), [request])
              else
                (inr (mkAskQuestionResult true
                        (Js.prop data (js "answer"))
                        (Js.prop data (js "chatId"))
                        (Js.prop data (js "timestamp"))
                        (Js.prop data (js "language"))),
                 [request])
          end
      end
  | _ => (inl (plainError questionRequired), [])
  end.

(** The [catch (error)] block. *)
Definition askQuestionError (error : ClientError) : JsError :=
  if hasCode error (js "functions/unauthenticated") then
    mkError (js "You must be logged in to ask questions")
  else if hasCode error (js "functions/permission-denied") then
    mkError (js "You do not have permission to access this service")
  else if hasCode error (js "functions/unavailable") then
    mkError (js "AI service is temporarily unavailable. Please try again later.")
  else if hasCode error (js "functions/deadline-exceeded") then
    mkError (js "Request timed out. Please try again.")
  else
    mkError (messageOr error (js "Failed to get answer from AI assistant")).

(** [askQuestion(question, farmProfile = null, language = 'en')] *)
Definition askQuestion (callable : Callable) (question farmProfile language : JsValue)
  : (JsError + AskQuestionResult) * list JsValue :=
  match askQuestionBody callable question
          (orDefault farmProfile VNull) (orDefault language (VStr (js "en"))) with
  | (inl error, sent) => (inl (askQuestionError error), sent)
  | (inr result, sent) => (inr result, sent)
  end.

(** The object that askGemini returns, which is what the client finds in
    [response.data]. *)
Definition responseData (r : AskGeminiResult) : JsValue :=
  VObj [ (js "chatId", VStr (res_chatId r));
         (js "suggestions", res_suggestions r);
         (js "sources", res_sources r);
         (js "confidence", res_confidence r);
         (js "answer", res_answer r) ].

(** ** getChatById *)

(** A field of a chat document on the client: plain data, a Firestore
    [Timestamp], or the [Date] made of one. *)
Inductive ChatValue :=
| CPlain (v : JsValue)
| CTimestamp (millis : Z)
| CDate (millis : Z).

(** An object of such fields, the most recently defined binding of a key
    first. *)
Definition Fields := list (JsString * ChatValue).

Fixpoint fieldOf (fields : Fields) (k : JsString) : option ChatValue :=
  match fields with
  | [] => None
  | (k', v) :: rest => if Str.eqb k' k then Some v else fieldOf rest k
  end.

(** [chatSnap]: its [id], and its [data()] when [exists()]. *)
Record DocumentSnapshot := mkSnapshot {
  snap_id : JsString;
  snap_data : option Fields
}.

(** [getDoc(doc(db, 'users', userId, 'chats', chatId))]; a reference that
    cannot be formed is a rejection as well. *)
Definition GetDoc := JsString -> JsString -> ClientError + DocumentSnapshot.

(** [chatData.userId !== userId], for a [userId] that is a string. *)
Definition isOtherUser (chatData : Fields) (userId : JsString) : bool :=
  match fieldOf chatData (js "userId") with
  | Some (CPlain (VStr owner)) => negb (Str.eqb owner userId)
  | _ => true
  end.

(** [chatData.timestamp?.toDate()] *)
Definition toDateOf (chatData : Fields) : ClientError + ChatValue :=
  match fieldOf chatData (js "timestamp") with
  | None | Some (CPlain VUndefined) | Some (CPlain VNull) => inr (CPlain VUndefined)
  | Some (CTimestamp millis) => inr (CDate millis)
  | Some _ => inl (plainError (js "chatData.timestamp?.toDate is not a function"))
  end.

Record ChatByIdResult := mkChatByIdResult {
  cb_success : bool;
  cb_chat : Fields
}.

(** The body of the [try] block, with the documents it has read. *)
Definition getChatByIdBody (getDoc : GetDoc) (userId chatId : JsString)
  : (ClientError + ChatByIdResult) * list (JsString * JsString) :=
  match userId, chatId with
  | [], _ => (inl (plainError (js "User ID is required")), [])
  | _, [] => (inl (plainError (js "Chat ID is required")), [])
  | _, _ =>
      match getDoc userId chatId with
      | inl error => (inl error, [(userId, chatId)])
      | inr chatSnap =>
          (match snap_data chatSnap with
           | None => inl (plainError (js "Chat not found"))
           | Some chatData =>
               if isOtherUser chatData userId then
                 inl (plainError (js "You do not have permission to access this chat"))
               else
                 match toDateOf chatData with
                 | inl error => inl error
                 | inr timestamp =>
                     inr (mkChatByIdResult true
                            ((js "timestamp", timestamp) :: chatData
                             ++ [(js "id", CPlain (VStr (snap_id chatSnap)))]))
                 end
           end,
           [(userId, chatId)])
      end
  end.

(** The [catch (error)] block. *)
Definition getChatByIdError (error : ClientError) : JsError :=
  if hasCode error (js "permission-denied") then
    mkError (js "You do not have permission to access this chat")
  else
    mkError (messageOr error (js "Failed to retrieve chat")).

Definition getChatById (getDoc : GetDoc) (userId chatId : JsString)
  : (JsError + ChatByIdResult) * list (JsString * JsString) :=
  match getChatByIdBody getDoc userId chatId with
  | (inl error, reads) => (inl (getChatByIdError error), reads)
  | (inr result, reads) => (inr result, reads)
  end.

(** The document that [chatRef.set] of askGemini writes under
    [users/<uid>/chats], as a client reads it back: the server timestamp
    has been resolved to a [Timestamp]. *)
Definition chatDocument (record : ChatRecord) (written : Z) : Fields :=
  [ (js "farmProfile",
     CPlain (VObj [ (js "soilType", chat_soilType record);
                    (js "location", chat_location record);
                    (js "crops", chat_crops record) ]));
    (js "language", CPlain (VStr (chat_language record)));
    (js "suggestions", CPlain (chat_suggestions record));
    (js "sources", CPlain (chat_sources record));
    (js "confidence", CPlain (chat_confidence record));
    (js "answer", CPlain (chat_answer record));
    (js "question", CPlain (VStr (chat_question record)));
    (js "timestamp", CTimestamp written) ].

(* ===================================================================== *)
(** * Constants and helper functions of the web client *)
(* ===================================================================== *)

(** [STORAGE_PATHS.AUDIO(userId)], for a [userId] that is a string. *)
Definition STORAGE_PATHS_AUDIO (userId : JsString) : JsString := js "audio/" ++ userId.

(** [truncateText(text, maxLength)], for a string and an integer. *)
Definition truncateText (text : JsString) (maxLength : Z) : JsString :=
  match text with
  | [] => text
  | _ =>
      if (Z.of_nat (List.length text) <=? maxLength)%Z then text
      else firstn (Z.to_nat maxLength) text ++ js "..."
  end.

Definition isDigit (c : N) : bool := ((48 <=? c) && (c <=? 57))%N.

(** [s.replace(/\D/g, '')] *)
Definition digitsOf (s : JsString) : JsString := filter isDigit s.

(** [s.slice(from, to)] for [0 <= from <= to]. *)
Definition slice (s : JsString) (from to : nat) : JsString :=
  firstn (to - from) (skipn from s).

Definition formatPhoneNumber (phoneNumber : JsString) : JsString :=
  match phoneNumber with
  | [] => []
  | _ =>
      let cleaned := digitsOf phoneNumber in
      if (List.length cleaned =? 12)%nat && Str.startsWith cleaned (js "91") then
        js "+91-" ++ slice cleaned 2 7 ++ js "-" ++ skipn 7 cleaned
      else if (List.length cleaned =? 10)%nat then
        js "+91-" ++ slice cleaned 0 5 ++ js "-" ++ skipn 5 cleaned
      else phoneNumber
  end.

Definition isValidPhoneNumber (phoneNumber : JsString) : bool :=
  match phoneNumber with
  | [] => false
  | _ =>
      let cleaned := digitsOf phoneNumber in
      (List.length cleaned =? 10)%nat
      || (List.length cleaned =? 12)%nat && Str.startsWith cleaned (js "91")
  end.

(* ===================================================================== *)
(** * The seed script of the schemes collection *)
(* ===================================================================== *)

Record Scheme := mkScheme {
  scheme_name : JsString;
  scheme_description : JsString;
  scheme_eligibility_criteria : JsString;
  scheme_benefits : JsString;
  scheme_applicationUrl : JsString;
  scheme_category : JsString;
  scheme_state : JsString;
  scheme_active : bool
}.

(** The rupee sign, U+20B9. *)
Definition rupee : JsString := [8377%N].

(** The twelve schemes of the table, in its order. *)
Definition schemes : list Scheme := [
  mkScheme
    (js "PM-KISAN")
    (js "Pradhan Mantri Kisan Samman Nidhi - Direct income support of " ++ rupee ++ js "6,000 per year to all farmer families with cultivable land holdings")
    (js "All land-holding farmer families irrespective of the size of their land holdings")
    (rupee ++ js "6,000 per year in three equal installments of " ++ rupee ++ js "2,000 each every four months")
    (js "https://pmkisan.gov.in")
    (js "income_support") (js "all") true;
  mkScheme
    (js "PM Fasal Bima Yojana")
    (js "Pradhan Mantri Fasal Bima Yojana - Crop insurance scheme providing financial support to farmers suffering crop loss/damage")
    (js "All farmers growing notified crops in notified areas who have insurable interest in the crop")
    (js "Insurance coverage for pre-sowing to post-harvest losses. Premium: 2% for Kharif, 1.5% for Rabi, 5% for commercial/horticultural crops")
    (js "https://pmfby.gov.in")
    (js "insurance") (js "all") true;
  mkScheme
    (js "Kisan Credit Card (KCC)")
    (js "Credit facility for farmers to meet short-term credit requirements for cultivation and other needs")
    (js "All farmers - individual/joint borrowers, tenant farmers, oral lessees, and sharecroppers")
    (js "Timely access to adequate credit at concessional rate of interest. 2% interest subvention, additional 3% for prompt repayment")
    (js "https://www.india.gov.in/spotlight/kisan-credit-card-kcc")
    (js "credit") (js "all") true;
  mkScheme
    (js "Soil Health Card Scheme")
    (js "Promotes soil test based nutrient management for improving soil health and crop productivity")
    (js "All farmers across the country")
    (js "Free soil testing and issuance of soil health cards with recommendations for appropriate dosage of nutrients")
    (js "https://soilhealth.dac.gov.in")
    (js "soil_health") (js "all") true;
  mkScheme
    (js "Pradhan Mantri Krishi Sinchai Yojana (PMKSY)")
    (js "Per Drop More Crop - Aims to improve water use efficiency through micro-irrigation")
    (js "Individual farmers, Self Help Groups, Farmer Producer Organizations, societies, trusts")
    (js "Subsidy for drip and sprinkler irrigation systems. 55% for small/marginal farmers, 45% for others")
    (js "https://pmksy.gov.in")
    (js "irrigation") (js "all") true;
  mkScheme
    (js "Paramparagat Krishi Vikas Yojana (PKVY)")
    (js "Promotes organic farming through cluster approach and certification")
    (js "Groups of farmers organized in clusters of 50 acres (20 hectares)")
    (rupee ++ js "50,000 per hectare over 3 years for organic inputs, certification, and marketing support")
    (js "https://pgsindia-ncof.gov.in")
    (js "organic_farming") (js "all") true;
  mkScheme
    (js "National Agriculture Market (e-NAM)")
    (js "Pan-India electronic trading portal for agricultural commodities")
    (js "Farmers and traders registered on the e-NAM platform")
    (js "Better price discovery, transparent auction process, online payment, and access to nationwide markets")
    (js "https://www.enam.gov.in")
    (js "market_linkage") (js "all") true;
  mkScheme
    (js "Rashtriya Krishi Vikas Yojana (RKVY)")
    (js "State Plan Scheme for incentivizing states to increase public investment in agriculture")
    (js "Varies by state and component")
    (js "Support for agriculture infrastructure, mechanization, seed production, extension services")
    (js "https://rkvy.nic.in")
    (js "infrastructure") (js "all") true;
  mkScheme
    (js "Kisan Call Centre (KCC)")
    (js "Toll-free helpline providing immediate agricultural information to farmers")
    (js "All farmers across India")
    (js "Free expert advice on agriculture, horticulture, animal husbandry, fisheries in 22 local languages. Dial 1800-180-1551")
    (js "https://mkisan.gov.in/Home/KCCDashboard")
    (js "advisory") (js "all") true;
  mkScheme
    (js "National Mission on Sustainable Agriculture (NMSA)")
    (js "Promotes sustainable agriculture practices through location specific interventions")
    (js "Farmers in mission mode districts")
    (js "Support for water conservation, soil health, resource management, and climate adaptation")
    (js "https://agricoop.nic.in/en/nmsa")
    (js "sustainability") (js "all") true;
  mkScheme
    (js "Sub-Mission on Agricultural Mechanization (SMAM)")
    (js "Increases reach of farm mechanization to small and marginal farmers")
    (js "Individual farmers, Custom Hiring Centers, Farm Machinery Banks")
    (js "40-50% subsidy on agricultural equipment and machinery")
    (js "https://agrimachinery.nic.in")
    (js "mechanization") (js "all") true;
  mkScheme
    (js "National Horticulture Mission")
    (js "Holistic growth of horticulture sector through area expansion and productivity enhancement")
    (js "Individual farmers, groups, Self Help Groups, FPOs")
    (js "Subsidies for planting material, protected cultivation, post-harvest management, organic farming")
    (js "https://midh.gov.in")
    (js "horticulture") (js "all") true
].

Definition isAscii (s : JsString) : bool := forallb (fun c => c <? 128)%N s.

Definition asciiLower (c : N) : N :=
  if ((65 <=? c) && (c <=? 90))%N then (c + 32)%N else c.

(** [String.prototype.toLowerCase] is the runtime's; on a string of ASCII
    code units it maps [A-Z] to [a-z] and leaves the rest. *)
Class Casing := {
  String_toLowerCase : JsString -> JsString;
  toLowerCase_ascii :
    forall s, isAscii s = true -> String_toLowerCase s = List.map asciiLower s
}.

(** The class [[a-z0-9-]] of the regular expression. *)
Definition isIdChar (c : N) : bool :=
  ((97 <=? c) && (c <=? 122) || (48 <=? c) && (c <=? 57) || (c =? 45))%N.

(** [name.toLowerCase().replace(/[^a-z0-9-]/g, "-")] *)
Definition docIdOf {cs : Casing} (name : JsString) : JsString :=
  List.map (fun c => if isIdChar c then c else 45%N) (String_toLowerCase name).

(** [{ ...scheme, createdAt: serverTimestamp(), updatedAt: serverTimestamp() }] *)
Record SchemeDocument := mkSchemeDocument {
  doc_scheme : Scheme;
  doc_createdAt : FieldValue;
  doc_updatedAt : FieldValue
}.

(** [schemesCollection.doc(docId).set(document)], answered knowing the
    writes attempted before. *)
Definition SchemeStore :=
  list (JsString * SchemeDocument) -> JsString -> SchemeDocument -> Result unit.

Record SeedResult := mkSeedResult {
  seed_success : bool;
  seed_added : nat;
  seed_errors : nat
}.

(** The [for] loop: the counters and the writes attempted so far. *)
Fixpoint seedLoop {cs : Casing} (store : SchemeStore) (todo : list Scheme)
  (successCount errorCount : nat) (attempted : list (JsString * SchemeDocument))
  : nat * nat * list (JsString * SchemeDocument) :=
  match todo with
  | [] => (successCount, errorCount, attempted)
  | scheme :: rest =>
      let docId := docIdOf (scheme_name scheme) in
      let document := mkSchemeDocument scheme serverTimestamp serverTimestamp in
      match store attempted docId document with
      | Ok _ =>
          seedLoop store rest (S successCount) errorCount
                   (attempted ++ [(docId, document)])
      | Throw _ =>
          seedLoop store rest successCount (S errorCount)
                   (attempted ++ [(docId, document)])
      end
  end.

(** [seedSchemes()]; [firestore] is the outcome of [admin.firestore()],
    whose error the outer [catch] rethrows. *)
Definition seedSchemes {cs : Casing} (firestore : Result unit) (store : SchemeStore)
  : Result SeedResult * list (JsString * SchemeDocument) :=
  match firestore with
  | Throw e => (Throw e, [])
  | Ok _ =>
      let '(successCount, errorCount, attempted) := seedLoop store schemes 0 0 [] in
      (Ok (mkSeedResult true successCount errorCount), attempted)
  end.

(* ===================================================================== *)
(** * Definitions of the proofs: views of the handlers, sample runs *)
(* ===================================================================== *)

(** The views ([askGeminiOutcome] and the like) spell out, case by case,
    what a handler returns and which calls it makes; they are proved equal
    to running the handler itself ([run_askGemini], [run_transcribeAudio],
    [run_synthesizeSpeech]). *)

(** The runtime of the sample runs. *)
Definition sampleRuntime : Runtime := {| Number_toString := sampleNumberToString |}.

(** No white space at either end. *)
Definition isTrimmed (s : JsString) : Prop :=
  (forall c rest, s = c :: rest -> Str.isWhiteSpace c = false) /\
  (forall init c, s = init ++ [c] -> Str.isWhiteSpace c = false).

Fixpoint bottomIsObject (stack : list Json.Frame) : bool :=
  match stack with
  | [] => false
  | [Json.FObj _ _] => true
  | [Json.FArr _] => false
  | _ :: below => bottomIsObject below
  end.

(** The automaton is building an object at the bottom of its stack, or
    has finished with one. *)
Definition buildsObject (st : Json.PState) : Prop :=
  bottomIsObject (snd st) = true \/
  (snd st = [] /\ exists props, fst st = Json.MDone (VObj props)).

(** ** askGemini: the checks before the first call, and the calls *)

(** Everything askGemini computes before it first calls out. *)
Definition askGeminiChecks {rt : Runtime} (env : Env) (data : JsValue) (context : CallableContext)
  : Result (JsString * JsString * JsString * JsValue * JsString) :=
  uid <- validateAuth context ;;
  _ <- validateRequiredFields data [js "question"; js "farmProfile"; js "language"] ;;
  rawQuestion <- Js.get data (js "question") ;;
  question <- validateTextLength rawQuestion 1000 ;;
  rawLanguage <- Js.get data (js "language") ;;
  language <- validateLanguage rawLanguage ;;
  farmProfile <- Js.get data (js "farmProfile") ;;
  if negb (Js.truthy farmProfile) || negb (Js.typeofObject farmProfile) then
    throwError (js "Invalid farm profile")
  else if apiKeyMissing env then
    throwError apiKeyNotConfigured
  else
    systemPrompt <- buildAgriculturalPrompt farmProfile language question ;;
    ret (uid, question, language, farmProfile, systemPrompt).

(** The rest of askGemini, from the model call on. *)
Definition askGeminiCalls
  (checked : JsString * JsString * JsString * JsValue * JsString)
  : Prog JsError AskGeminiResult :=
  let '(uid, question, language, farmProfile, systemPrompt) := checked in
  responseText <- await (GenerateContent (js "gemini-1.5-flash") systemPrompt) ;;
  aiResponse <- lift (parseAIResponse responseText) ;;
  let r := fieldsOf aiResponse in
  chatId <- await (NewChatRef uid) ;;
  _ <- await (ChatSet uid chatId (chatRecordOf question language farmProfile r)) ;;
  ret (mkAskGeminiResult (answer r) (confidence r) (sources r) (suggestions r) chatId).

(** The outcome and the calls of askGemini, case by case. *)
Definition askGeminiOutcome {rt : Runtime} (world : World) (env : Env) (data : JsValue)
  (context : CallableContext) : (HttpsError + AskGeminiResult) * list Effect :=
  match askGeminiChecks env data context with
  | Throw e => (inl (askGeminiError e), [])
  | Ok (uid, question, language, farmProfile, systemPrompt) =>
      let generate := GenerateContent (js "gemini-1.5-flash") systemPrompt in
      match world [] generate with
      | Throw e => (inl (askGeminiError e), [generate])
      | Ok responseText =>
          match parseAIResponse responseText with
          | Throw e => (inl (askGeminiError e), [generate])
          | Ok aiResponse =>
              let r := fieldsOf aiResponse in
              let newRef := NewChatRef uid in
              match world [generate] newRef with
              | Throw e => (inl (askGeminiError e), [generate; newRef])
              | Ok chatId =>
                  let write :=
                    ChatSet uid chatId (chatRecordOf question language farmProfile r) in
                  match world [generate; newRef] write with
                  | Throw e => (inl (askGeminiError e), [generate; newRef; write])
                  | Ok _ =>
                      (inr (mkAskGeminiResult (answer r) (confidence r) (sources r)
                                              (suggestions r) chatId),
                       [generate; newRef; write])
                  end
              end
          end
      end
  end.

(** ** transcribeAudio *)

Definition transcribeAudioChecks {rt : Runtime} (data : JsValue) (context : CallableContext)
  : Result (JsString * JsString * JsString) :=
  uid <- validateAuth context ;;
  _ <- validateRequiredFields data [js "audioPath"; js "language"] ;;
  rawPath <- Js.get data (js "audioPath") ;;
  audioPath <- validateAudioPath rawPath ;;
  rawLanguage <- Js.get data (js "language") ;;
  language <- validateLanguage rawLanguage ;;
  if negb (Str.includes audioPath (js "audio/" ++ uid ++ js "/")) then
    throwError (js "Unauthorized: Cannot access audio file")
  else ret (uid, audioPath, language).

Definition recognizeRequestOf (env : Env) (audioPath language : JsString)
  : RecognizeRequest :=
  mkRecognizeRequest
    (js "gs://" ++ bucketName env ++ js "/" ++ audioPath)
    (mkRecognitionConfig (js "WEBM_OPUS") 48000 (localeOf language)
                         true (js "default") true).

Definition transcriptionResultOf (response : RecognizeResponse) : TranscriptionResult :=
  match results response with
  | None | Some [] =>
      mkTranscriptionResult [] (DZero false) (Some (js "No speech detected in audio"))
  | Some rs =>
      mkTranscriptionResult (Str.trim (transcriptionOf rs)) (roundedConfidence rs) None
  end.

Definition transcribeAudioOutcome {rt : Runtime} (world : World) (env : Env) (data : JsValue)
  (context : CallableContext) : (HttpsError + TranscriptionResult) * list Effect :=
  match transcribeAudioChecks data context with
  | Throw e => (inl (transcribeAudioError e), [])
  | Ok (uid, audioPath, language) =>
      let exist := FileExists audioPath in
      match world [] exist with
      | Throw e => (inl (transcribeAudioError e), [exist])
      | Ok false =>
          (inl (transcribeAudioError (mkError (js "Audio file not found"))), [exist])
      | Ok true =>
          match world [exist] DateNow with
          | Throw e => (inl (transcribeAudioError e), [exist; DateNow])
          | Ok now =>
              let sign := GetSignedUrl audioPath (js "read") (now + 5 * 60 * 1000)%Z in
              match world [exist; DateNow] sign with
              | Throw e => (inl (transcribeAudioError e), [exist; DateNow; sign])
              | Ok _ =>
                  let recognize := Recognize (recognizeRequestOf env audioPath language) in
                  match world [exist; DateNow; sign] recognize with
                  | Throw e =>
                      (inl (transcribeAudioError e), [exist; DateNow; sign; recognize])
                  | Ok response =>
                      (inr (transcriptionResultOf response),
                       [exist; DateNow; sign; recognize])
                  end
              end
          end
      end
  end.

(** ** synthesizeSpeech *)

Definition synthesizeSpeechChecks {rt : Runtime} (data : JsValue) (context : CallableContext)
  : Result (JsString * JsString * JsString) :=
  uid <- validateAuth context ;;
  _ <- validateRequiredFields data [js "text"; js "language"] ;;
  rawText <- Js.get data (js "text") ;;
  text <- validateTextLength rawText 5000 ;;
  rawLanguage <- Js.get data (js "language") ;;
  language <- validateLanguage rawLanguage ;;
  ret (uid, text, language).

Definition synthesisRequestOf (text language : JsString) : SynthesisRequest :=
  let voice := voiceOf language in
  mkSynthesisRequest text
    (mkVoice (languageCode voice) (voiceName voice) (ssmlGender voice))
    (mkAudioConfig (js "MP3") (95 # 100) 0 0).

Definition synthesizeSpeechOutcome {rt : Runtime} (world : World) (data : JsValue)
  (context : CallableContext) : (HttpsError + SynthesisResult) * list Effect :=
  match synthesizeSpeechChecks data context with
  | Throw e => (inl (synthesizeSpeechError e), [])
  | Ok (uid, text, language) =>
      let synth := SynthesizeSpeech (synthesisRequestOf text language) in
      match world [] synth with
      | Throw e => (inl (synthesizeSpeechError e), [synth])
      | Ok response =>
          match audioContent response with
          | None =>
              (inl (synthesizeSpeechError (mkError (js "No audio content generated"))),
               [synth])
          | Some content =>
              match world [synth] DateNow with
              | Throw e => (inl (synthesizeSpeechError e), [synth; DateNow])
              | Ok timestamp =>
                  let fileName := js "audio/" ++ uid ++ js "/response-"
                                  ++ timestampString timestamp ++ js ".mp3" in
                  match world [synth; DateNow] NowISOString with
                  | Throw e =>
                      (inl (synthesizeSpeechError e), [synth; DateNow; NowISOString])
                  | Ok generatedAt =>
                      let save :=
                        FileSave fileName content
                          (mkFileMetadata (js "audio/mpeg") uid language generatedAt) in
                      match world [synth; DateNow; NowISOString] save with
                      | Throw e =>
                          (inl (synthesizeSpeechError e),
                           [synth; DateNow; NowISOString; save])
                      | Ok _ =>
                          match world [synth; DateNow; NowISOString; save] DateNow with
                          | Throw e =>
                              (inl (synthesizeSpeechError e),
                               [synth; DateNow; NowISOString; save; DateNow])
                          | Ok now =>
                              let sign :=
                                GetSignedUrl fileName (js "read")
                                  (now + 7 * 24 * 60 * 60 * 1000)%Z in
                              match world [synth; DateNow; NowISOString; save; DateNow]
                                          sign with
                              | Throw e =>
                                  (inl (synthesizeSpeechError e),
                                   [synth; DateNow; NowISOString; save; DateNow; sign])
                              | Ok url =>
                                  (inr (mkSynthesisResult url fileName),
                                   [synth; DateNow; NowISOString; save; DateNow; sign])
                              end
                          end
                      end
                  end
              end
          end
      end
  end.

Definition sampleContext : CallableContext :=
  mkContext (Some (mkAuth (Some (js "u123")))).

Definition anonymousContext : CallableContext := mkContext None.

Definition sampleEnv : Env :=
  mkEnv (Some (js "test-key")) (js "kisanmitra.appspot.com").

Definition askData (question : JsString) : JsValue :=
  VObj [ (js "question", VStr question);
         (js "farmProfile", VObj [(js "soilType", VStr (js "Loamy"))]);
         (js "language", VStr (js "en")) ].

(** A world in which every call fails. *)
Definition offlineWorld : World :=
  fun _ _ => Throw (mkError (js "offline")).

(** A world in which every service works: the model replies [reply], the
    recognizer returns [response], and so on. *)
Definition workingWorld (reply : JsString) (response : RecognizeResponse) : World :=
  fun _ eff =>
    match eff return Result (Reply eff) with
    | GenerateContent _ _ => Ok reply
    | NewChatRef _ => Ok (js "chat-1")
    | ChatSet _ _ _ => Ok tt
    | FileExists _ => Ok true
    | GetSignedUrl _ _ _ => Ok (js "https://signed.example/url")
    | Recognize _ => Ok response
    | SynthesizeSpeech _ => Ok (mkSynthesisResponse (Some [1%N; 2%N; 3%N]))
    | FileSave _ _ _ => Ok tt
    | DateNow => Ok 1700000000000%Z
    | NowISOString => Ok (js "2023-11-14T22:13:20.000Z")
    end.

(** The same world, except that the write of the chat record is rejected
    with [reason]. *)
Definition failingWriteWorld (reply reason : JsString) : World :=
  fun done eff =>
    match eff as eff0 return Result (Reply eff0) -> Result (Reply eff0) with
    | ChatSet _ _ _ => fun _ => Throw (mkError reason)
    | _ => fun otherwise => otherwise
    end (workingWorld reply (mkRecognizeResponse None) done eff).

(** A segment with one alternative, its score the double nearest to
    [score]. *)
Definition segment (transcript : JsString) (score : Q) : SpeechResult :=
  mkSpeechResult [mkAlternative transcript (Double.ofQ score)].



Definition quoted (s : string) : JsString := dquote ++ js s ++ dquote.

(** [{"answer":"ok","confidence":"VeryHigh"}] *)
Definition replyVeryHigh : JsString :=
  js "{" ++ quoted "answer" ++ js ":" ++ quoted "ok" ++ js ","
  ++ quoted "confidence" ++ js ":" ++ quoted "VeryHigh" ++ js "}".

(** [{"confidence":"High"}] *)
Definition replyNoAnswer : JsString :=
  js "{" ++ quoted "confidence" ++ js ":" ++ quoted "High" ++ js "}".

(** [{"answer":42,"sources":[7]}] *)
Definition replyNumbers : JsString :=
  js "{" ++ quoted "answer" ++ js ":42," ++ quoted "sources" ++ js ":[7]}".

Definition noSpeech : RecognizeResponse := mkRecognizeResponse None.

(** The sample question, as sent and as validated. *)
Definition sampleQuestion : JsString := js "  How do I treat leaf curl?  ".
Definition sampleQuestionTrimmed : JsString := js "How do I treat leaf curl?".

Definition sampleFarmProfile : JsValue := VObj [(js "soilType", VStr (js "Loamy"))].

Definition samplePrompt : JsString :=
  Eval vm_compute in
    match @buildAgriculturalPrompt sampleRuntime sampleFarmProfile (js "en")
                                  sampleQuestionTrimmed with
    | Ok prompt => prompt
    | Throw _ => []
    end.

Definition sampleGenerate : Effect := GenerateContent (js "gemini-1.5-flash") samplePrompt.

Definition sampleRecord (r : AIResponse) : ChatRecord :=
  chatRecordOf sampleQuestionTrimmed (js "en") sampleFarmProfile r.

(** Two segments with scores 0.8 and 0.6, two with 0.8 and 0, and one
    with 0.015. *)
Definition twoScored : list SpeechResult :=
  [segment (js "namaste") (8 # 10); segment (js "kisan") (6 # 10)].

Definition transcribeData (path : JsString) : JsValue :=
  VObj [(js "audioPath", VStr path); (js "language", VStr (js "en"))].

Definition synthData : JsValue :=
  VObj [(js "text", VStr (js " Namaste ")); (js "language", VStr (js "hi"))].

Definition envWithoutKey : Env := mkEnv None (js "kisanmitra.appspot.com").

(** [Sure! {"answer":"Use urea 46-0-0.","confidence":"High",
    "sources":["ICAR"],"suggestions":["Test soil first"]}] *)
Definition replyConforming : JsString :=
  js "Sure! {" ++ quoted "answer" ++ js ":" ++ quoted "Use urea 46-0-0." ++ js ","
  ++ quoted "confidence" ++ js ":" ++ quoted "High" ++ js ","
  ++ quoted "sources" ++ js ":[" ++ quoted "ICAR" ++ js "],"
  ++ quoted "suggestions" ++ js ":[" ++ quoted "Test soil first" ++ js "]}".

(** What [JSON.parse] makes of the object in [replyConforming]. *)
Definition conformingProps : list (JsString * JsValue) :=
  [ (js "suggestions", VArr [VStr (js "Test soil first")]);
    (js "sources", VArr [VStr (js "ICAR")]);
    (js "confidence", VStr (js "High"));
    (js "answer", VStr (js "Use urea 46-0-0.")) ].

Definition sampleSynthesis : SynthesisResult :=
  mkSynthesisResult (js "https://signed.example/url")
                    (js "audio/u123/response-1700000000000.mp3").

(** ** The web client and the seed script *)

(** ASCII lower-casing as the runtime of the sample runs. *)
Definition asciiCasing : Casing :=
  {| String_toLowerCase := List.map asciiLower;
     toLowerCase_ascii := fun s _ => eq_refl |}.

(** The write that the seed loop attempts for a scheme. *)
Definition attemptOf {cs : Casing} (scheme : Scheme) : JsString * SchemeDocument :=
  (docIdOf (scheme_name scheme), mkSchemeDocument scheme serverTimestamp serverTimestamp).

(** A world whose bucket holds no file. *)
Definition emptyBucketWorld : World :=
  fun done eff =>
    match eff as eff0 return Result (Reply eff0) -> Result (Reply eff0) with
    | FileExists _ => fun _ => Ok false
    | _ => fun otherwise => otherwise
    end (workingWorld [] noSpeech done eff).

(** A world whose speech synthesis returns no audio. *)
Definition silentWorld : World :=
  fun done eff =>
    match eff as eff0 return Result (Reply eff0) -> Result (Reply eff0) with
    | SynthesizeSpeech _ => fun _ => Ok (mkSynthesisResponse None)
    | _ => fun otherwise => otherwise
    end (workingWorld [] noSpeech done eff).

Definition ownPath : JsString := js "audio/u123/rec.webm".

(** A request whose farm profile gives the crops as a string. *)
Definition askDataCropsAsString : JsValue :=
  VObj [ (js "question", VStr sampleQuestion);
         (js "farmProfile", VObj [(js "crops", VStr (js "rice"))]);
         (js "language", VStr (js "en")) ].

(** A request whose language is the text [no API key]. *)
Definition askDataOddLanguage : JsValue :=
  VObj [ (js "question", VStr sampleQuestion);
         (js "farmProfile", sampleFarmProfile);
         (js "language", VStr (js "no API key")) ].

Definition sampleResult : AskGeminiResult :=
  mkAskGeminiResult (VStr (js "Use neem oil.")) (VStr (js "High"))
                    (VArr [VStr (js "ICAR")]) (VArr []) (js "chat-1").

(** A callable that answers as askGemini does on success. *)
Definition answeringCallable : Callable := fun _ => inr (responseData sampleResult).

(** What a client receives when askGemini rejects an unauthenticated
    call. *)
Definition unauthenticatedRejection : ClientError :=
  mkClientError (Some (js "functions/internal"))
    (js "Failed to get AI response: Unauthenticated: No auth token provided").

Definition rejectingCallable : Callable := fun _ => inl unauthenticatedRejection.

Definition sampleChatRecord : ChatRecord :=
  chatRecordOf sampleQuestionTrimmed (js "en") sampleFarmProfile
    (mkAIResponse (VStr (js "Use neem oil.")) (VStr (js "High"))
                  (VArr [VStr (js "ICAR")]) (VArr [])).

(** A store that holds, for every id, the chat that askGemini wrote. *)
Definition writtenByAskGemini : GetDoc :=
  fun _ chatId =>
    inr (mkSnapshot chatId (Some (chatDocument sampleChatRecord 1700000000000))).

(** A store whose documents name their owner. *)
Definition ownedDocument : Fields :=
  (js "userId", CPlain (VStr (js "u123"))) :: chatDocument sampleChatRecord 1700000000000.

Definition withOwner : GetDoc :=
  fun _ chatId => inr (mkSnapshot chatId (Some ownedDocument)).

(* ===================================================================== *)
(** * Proofs *)
(* ===================================================================== *)

Section Proofs.

Context {rt : Runtime}.

(* ===================================================================== *)
(** * Strings: basic facts *)
(* ===================================================================== *)

Lemma Str_eqb_eq (a b : JsString) : Str.eqb a b = true <-> a = b.
Proof.
  revert b; induction a as [|x a IH]; intros [|y b]; simpl; split;
    try congruence; try reflexivity.
  - intros H. apply andb_true_iff in H as [Hx Hab].
    apply N.eqb_eq in Hx. apply IH in Hab. congruence.
  - intros H. injection H as -> ->.
    rewrite N.eqb_refl. simpl. apply IH. reflexivity.
Qed.

Lemma Str_eqb_refl (a : JsString) : Str.eqb a a = true.
Proof. apply Str_eqb_eq. reflexivity. Qed.

Lemma strIncludes_In (arr : list JsString) (v : JsValue) :
  Js.strIncludes arr v = true <-> exists s, v = VStr s /\ In s arr.
Proof.
  destruct v; simpl; split; try discriminate;
    try (intros (s0 & Hs & _); discriminate).
  - intros H. apply existsb_exists in H as (x & Hin & Heq).
    apply Str_eqb_eq in Heq. subst. eauto.
  - intros (s0 & Hs & Hin). injection Hs as <-.
    apply existsb_exists. exists s. split; [assumption | apply Str_eqb_refl].
Qed.

Lemma startsWith_app (p rest : JsString) : Str.startsWith (p ++ rest) p = true.
Proof.
  induction p as [|x p IH]; simpl; [reflexivity|].
  rewrite N.eqb_refl. exact IH.
Qed.

Lemma startsWith_prefix (s p : JsString) :
  Str.startsWith s p = true <-> exists rest, s = p ++ rest.
Proof.
  split.
  - revert s; induction p as [|x p IH]; intros s H; simpl in *.
    + exists s. reflexivity.
    + destruct s as [|y s]; [discriminate|].
      apply andb_true_iff in H as [Hx Hs]. apply N.eqb_eq in Hx. subst.
      destruct (IH _ Hs) as [rest ->]. exists rest. reflexivity.
  - intros [rest ->]. apply startsWith_app.
Qed.

Lemma trimStart_suffix (s : JsString) :
  exists pre, s = pre ++ Str.trimStart s.
Proof.
  induction s as [|c s [pre IH]]; simpl.
  - exists []. reflexivity.
  - destruct (Str.isWhiteSpace c).
    + exists (c :: pre). simpl. congruence.
    + exists []. reflexivity.
Qed.

Lemma trimStart_head (s : JsString) (c : N) (rest : JsString) :
  Str.trimStart s = c :: rest -> Str.isWhiteSpace c = false.
Proof.
  induction s as [|x s IH]; simpl; [discriminate|].
  destruct (Str.isWhiteSpace x) eqn:E; [exact IH|].
  intros H. injection H as -> _. exact E.
Qed.

Lemma trimStart_length (s : JsString) :
  (List.length (Str.trimStart s) <= List.length s)%nat.
Proof.
  destruct (trimStart_suffix s) as [pre H].
  rewrite H at 2. rewrite length_app. lia.
Qed.

Lemma trimEnd_prefix (s : JsString) :
  exists post, s = Str.trimEnd s ++ post.
Proof.
  unfold Str.trimEnd. destruct (trimStart_suffix (rev s)) as [pre H].
  exists (rev pre). rewrite <- rev_app_distr, <- H, rev_involutive. reflexivity.
Qed.

Lemma trimEnd_last (s init : JsString) (c : N) :
  Str.trimEnd s = init ++ [c] -> Str.isWhiteSpace c = false.
Proof.
  unfold Str.trimEnd. intros H.
  apply (f_equal (@rev N)) in H.
  rewrite rev_involutive, rev_app_distr in H. simpl in H.
  exact (trimStart_head _ _ _ H).
Qed.

Lemma trim_length (s : JsString) :
  (List.length (Str.trim s) <= List.length s)%nat.
Proof.
  unfold Str.trim.
  destruct (trimEnd_prefix (Str.trimStart s)) as [post H].
  pose proof (trimStart_length s) as Hs.
  rewrite H in Hs. rewrite length_app in Hs. lia.
Qed.

Lemma trim_isTrimmed (s : JsString) : isTrimmed (Str.trim s).
Proof.
  unfold Str.trim. split.
  - intros c rest H.
    destruct (trimEnd_prefix (Str.trimStart s)) as [post Hp].
    rewrite H in Hp. simpl in Hp.
    exact (trimStart_head _ _ _ Hp).
  - intros init c H. exact (trimEnd_last _ _ _ H).
Qed.

(** White space only: nothing is left after trimming. *)
Lemma trim_all_space (s : JsString) :
  forallb Str.isWhiteSpace s = true -> Str.trim s = [].
Proof.
  intros H. unfold Str.trim.
  assert (Hs : Str.trimStart s = []).
  { induction s as [|c s IH]; simpl in *; [reflexivity|].
    apply andb_true_iff in H as [Hc Hr]. rewrite Hc. exact (IH Hr). }
  rewrite Hs. reflexivity.
Qed.

Lemma trim_nil_all_space (s : JsString) :
  Str.trim s = [] -> forallb Str.isWhiteSpace s = true.
Proof.
  unfold Str.trim, Str.trimEnd. intros H.
  apply (f_equal (@rev N)) in H. rewrite rev_involutive in H. simpl in H.
  assert (Hall : forall t, Str.trimStart t = [] -> forallb Str.isWhiteSpace t = true).
  { induction t as [|c t IH]; simpl; [reflexivity|].
    destruct (Str.isWhiteSpace c); [exact IH | discriminate]. }
  apply Hall in H.
  destruct (trimStart_suffix s) as [pre Hp].
  assert (Hpre : forallb Str.isWhiteSpace pre = true).
  { clear H. revert pre Hp. induction s as [|c s IH]; intros pre Hp; simpl in *.
    - destruct pre; [reflexivity | discriminate].
    - destruct (Str.isWhiteSpace c) eqn:E.
      + destruct pre as [|x pre].
        * simpl in Hp. pose proof (trimStart_length s) as Hl.
          rewrite <- Hp in Hl. simpl in Hl. lia.
        * simpl in Hp. injection Hp as <- Hp. simpl. rewrite E. exact (IH _ Hp).
      + destruct pre as [|x pre]; [reflexivity|].
        apply (f_equal (@List.length N)) in Hp.
        simpl in Hp. rewrite length_app in Hp. simpl in Hp. lia. }
  rewrite Hp, forallb_app, Hpre. simpl.
  rewrite forallb_forall in *. intros x Hx. apply H. apply in_rev.
  rewrite rev_involutive. exact Hx.
Qed.

(* ===================================================================== *)
(** * JSON.parse: a text that opens with a brace parses to an object *)
(* ===================================================================== *)

Lemma complete_buildsObject v stack st' :
  Json.complete v stack = Some st' ->
  bottomIsObject stack = true -> buildsObject st'.
Proof.
  destruct stack as [|f1 [|f2 below]]; simpl; [discriminate| |].
  - destruct f1 as [elems|props [k|]]; try discriminate.
    intros H _. injection H as <-. left. reflexivity.
  - destruct f1 as [elems|props [k|]]; intros H Hb; try discriminate;
      injection H as <-; left; simpl; exact Hb.
Qed.

Lemma pop_buildsObject v props key below st' :
  Json.complete (VObj v) below = Some st' ->
  bottomIsObject (Json.FObj props key :: below) = true -> buildsObject st'.
Proof.
  destruct below as [|f below].
  - simpl. intros H _. injection H as <-. right. simpl. eauto.
  - intros H Hb. eapply complete_buildsObject; [exact H | exact Hb].
Qed.

Lemma pop_arr_buildsObject v elems below st' :
  Json.complete v below = Some st' ->
  bottomIsObject (Json.FArr elems :: below) = true -> buildsObject st'.
Proof.
  destruct below as [|f below]; [simpl; discriminate|].
  intros H Hb. eapply complete_buildsObject; [exact H | exact Hb].
Qed.

Lemma push_bottom f stack :
  bottomIsObject stack = true -> bottomIsObject (f :: stack) = true.
Proof. destruct stack; [discriminate|]. intros H. destruct f; exact H. Qed.

Lemma retop_bottom props key props' key' below :
  bottomIsObject (Json.FObj props key :: below) = true ->
  bottomIsObject (Json.FObj props' key' :: below) = true.
Proof. destruct below; [reflexivity|]. intros H. exact H. Qed.

Lemma startValue_buildsObject tok stack st' :
  Json.startValue tok stack = Some st' ->
  bottomIsObject stack = true -> buildsObject st'.
Proof.
  destruct tok; simpl; try discriminate;
    try (intros H Hb; eapply complete_buildsObject; eassumption);
    intros H Hb; injection H as <-; left; simpl snd; apply push_bottom; exact Hb.
Qed.

Lemma parseStep_buildsObject st tok st' :
  Json.parseStep st tok = Some st' -> buildsObject st -> buildsObject st'.
Proof.
  destruct st as [mode stack]. intros H [Hb | [Hs [props Hm]]]; simpl in *.
  - destruct mode; simpl in H;
      try (eapply startValue_buildsObject; eassumption);
      try discriminate.
    + (* MArrStart *)
      destruct tok; try (eapply startValue_buildsObject; eassumption).
      destruct stack as [|[elems|props key] below];
        try (eapply startValue_buildsObject; eassumption).
      eapply pop_arr_buildsObject; eassumption.
    + (* MObjStart *)
      destruct tok; try discriminate;
        destruct stack as [|[elems|props key] below]; try discriminate.
      * eapply pop_buildsObject; eassumption.
      * injection H as <-. left. simpl snd. eapply retop_bottom; exact Hb.
    + (* MKey *)
      destruct tok; try discriminate;
        destruct stack as [|[elems|props key] below]; try discriminate.
      injection H as <-. left. simpl snd. eapply retop_bottom; exact Hb.
    + (* MColon *)
      destruct tok; try discriminate. injection H as <-. left. exact Hb.
    + (* MAfter *)
      destruct tok; try discriminate;
        destruct stack as [|[elems|props key] below]; try discriminate.
      * eapply pop_buildsObject; eassumption.
      * eapply pop_arr_buildsObject; eassumption.
      * injection H as <-. left. exact Hb.
      * injection H as <-. left. exact Hb.
  - subst. destruct tok; discriminate.
Qed.

Lemma parseFrom_buildsObject toks : forall st v,
  Json.parseFrom st toks = Some v -> buildsObject st -> exists props, v = VObj props.
Proof.
  induction toks as [|tok toks IH]; intros st v H Hinv; simpl in H.
  - destruct st as [mode stack]. destruct mode; try discriminate.
    destruct stack; [|discriminate]. injection H as <-.
    destruct Hinv as [Hb | [_ [props Hm]]]; [discriminate|].
    simpl in Hm. injection Hm as ->. eauto.
  - destruct (Json.parseStep st tok) as [st'|] eqn:E; [|discriminate].
    eapply IH; [exact H|]. eapply parseStep_buildsObject; eassumption.
Qed.

Lemma parse_brace_object (rest : JsString) (v : JsValue) :
  Json.parse (123%N :: rest) = Some v -> exists props, v = VObj props.
Proof.
  unfold Json.parse. simpl Json.lexFrom.
  destruct (Json.lexFrom Json.LIdle rest) as [toks|]; simpl; [|discriminate].
  intros H. eapply parseFrom_buildsObject; [exact H|].
  left. reflexivity.
Qed.

Lemma fromFirstBrace_head (text s : JsString) :
  fromFirstBrace text = Some s -> exists rest, s = 123%N :: rest.
Proof.
  induction text as [|c text IH]; simpl; [discriminate|].
  destruct (N.eqb_spec c 123).
  - intros H. injection H as <-. subst. eauto.
  - exact IH.
Qed.

Lemma uptoLastBrace_head (c : N) (s m : JsString) :
  uptoLastBrace (c :: s) = Some m -> exists rest, m = c :: rest.
Proof.
  simpl. destruct (uptoLastBrace s).
  - intros H. injection H as <-. eauto.
  - destruct (c =? 125)%N; [|discriminate]. intros H. injection H as <-. eauto.
Qed.

Lemma jsonMatch_head (text m : JsString) :
  jsonMatch text = Some m -> exists rest, m = 123%N :: rest.
Proof.
  unfold jsonMatch. destruct (fromFirstBrace text) as [s|] eqn:E; [|discriminate].
  destruct (fromFirstBrace_head _ _ E) as [rest ->].
  apply uptoLastBrace_head.
Qed.

(* ===================================================================== *)
(** * The response parser: normalization *)
(* ===================================================================== *)

Lemma normalizeResponse_object (aiResponse normalized : JsValue) :
  normalizeResponse aiResponse = Ok normalized ->
  exists props, aiResponse = VObj props.
Proof.
  destruct aiResponse; simpl; try discriminate. eauto.
Qed.

(** What normalization does to each of the four fields. *)
Lemma normalizeResponse_fields (aiResponse normalized : JsValue) :
  normalizeResponse aiResponse = Ok normalized ->
  let p := fieldsOf aiResponse in
  let r := fieldsOf normalized in
  answer r = answer p /\
  Js.truthy (answer r) = true /\
  confidence r = (if Js.strIncludes validConfidenceLevels (confidence p)
                  then confidence p else VStr (js "Medium")) /\
  sources r = (if Js.isArray (sources p)
               then sources p else VArr [VStr providerName]) /\
  suggestions r = (if Js.isArray (suggestions p)
                   then suggestions p else VArr []).
Proof.
  intros H. destruct (normalizeResponse_object _ _ H) as [props ->].
  unfold normalizeResponse in H. simpl in H.
  destruct (Js.truthy match Js.lookup props (js "answer") with
                      | Some x => x | None => VUndefined end) eqn:Ht;
    simpl in H; [|discriminate].
  unfold fieldsOf. simpl.
  destruct (Js.strIncludes validConfidenceLevels
              match Js.lookup props (js "confidence") with
              | Some x => x | None => VUndefined end) eqn:Hc;
    simpl in H;
    destruct (Js.isArray match Js.lookup props (js "sources") with
                         | Some x => x | None => VUndefined end) eqn:Hs;
    simpl in H;
    destruct (Js.isArray match Js.lookup props (js "suggestions") with
                         | Some x => x | None => VUndefined end) eqn:Hg;
    simpl in H; injection H as <-; simpl;
    rewrite ?Hc, ?Hs, ?Hg, ?Ht; repeat split; reflexivity.
Qed.

Lemma normalizeResponse_truthy (props : list (JsString * JsValue)) :
  Js.truthy (Js.prop (VObj props) (js "answer")) = true ->
  exists normalized, normalizeResponse (VObj props) = Ok normalized.
Proof.
  unfold normalizeResponse. simpl. intros ->. simpl. eauto.
Qed.

Lemma normalizeResponse_falsy (props : list (JsString * JsValue)) :
  Js.truthy (Js.prop (VObj props) (js "answer")) = false ->
  normalizeResponse (VObj props) = throwError invalidAIResponse.
Proof.
  unfold normalizeResponse. simpl. intros ->. reflexivity.
Qed.

(** What comes out of the inner try/catch is always an object. *)
Lemma extractResponse_object (responseText : JsString) :
  exists props, extractResponse responseText = VObj props.
Proof.
  unfold extractResponse.
  destruct (jsonMatch responseText) as [m|] eqn:Em; [|unfold fallbackResponse; eauto].
  destruct (Json.parse m) as [v|] eqn:Ep; [|unfold fallbackResponse; eauto].
  destruct (jsonMatch_head _ _ Em) as [rest ->].
  exact (parse_brace_object _ _ Ep).
Qed.

Lemma normalizeResponse_fallback (responseText : JsString) :
  normalizeResponse (fallbackResponse responseText) =
  match responseText with
  | [] => throwError invalidAIResponse
  | _ => Ok (fallbackResponse responseText)
  end.
Proof. destruct responseText; reflexivity. Qed.

(* ===================================================================== *)
(** * Running the handlers *)
(* ===================================================================== *)

Lemma askGeminiBody_split env data context :
  askGeminiBody env data context =
  Prog_bind (lift (askGeminiChecks env data context)) askGeminiCalls.
Proof.
  unfold askGeminiBody, askGeminiChecks. simpl.
  destruct (validateAuth context) as [uid|e]; simpl; [|reflexivity].
  destruct (validateRequiredFields data _) as [[]|e]; simpl; [|reflexivity].
  destruct (Js.get data (js "question")) as [rawQuestion|e]; simpl; [|reflexivity].
  destruct (validateTextLength rawQuestion 1000) as [question|e]; simpl; [|reflexivity].
  destruct (Js.get data (js "language")) as [rawLanguage|e]; simpl; [|reflexivity].
  destruct (validateLanguage rawLanguage) as [language|e]; simpl; [|reflexivity].
  destruct (Js.get data (js "farmProfile")) as [farmProfile|e]; simpl; [|reflexivity].
  destruct (negb (Js.truthy farmProfile) || negb (Js.typeofObject farmProfile));
    simpl; [reflexivity|].
  destruct (apiKeyMissing env); simpl; [reflexivity|].
  destruct (buildAgriculturalPrompt farmProfile language question) as [prompt|e];
    simpl; reflexivity.
Qed.

Lemma run_askGemini world env data context :
  run world (askGemini env data context) = askGeminiOutcome world env data context.
Proof.
  unfold run, askGemini, askGeminiOutcome.
  rewrite askGeminiBody_split.
  destruct (askGeminiChecks env data context) as [[[[[uid question] language] farmProfile] prompt]|e];
    simpl; [|reflexivity].
  destruct (world [] (GenerateContent (js "gemini-1.5-flash") prompt)) as [text|e];
    simpl; [|reflexivity].
  destruct (parseAIResponse text) as [ai|e]; simpl; [|reflexivity].
  destruct (world _ (NewChatRef uid)) as [chatId|e]; simpl; [|reflexivity].
  destruct (world _ (ChatSet uid chatId _)) as [[]|e]; simpl; reflexivity.
Qed.

Lemma run_transcribeAudio world env data context :
  run world (transcribeAudio env data context) =
  transcribeAudioOutcome world env data context.
Proof.
  unfold run, transcribeAudio, transcribeAudioOutcome, transcribeAudioBody,
    transcribeAudioChecks.
  simpl.
  destruct (validateAuth context) as [uid|e]; simpl; [|reflexivity].
  destruct (validateRequiredFields data _) as [[]|e]; simpl; [|reflexivity].
  destruct (Js.get data (js "audioPath")) as [rawPath|e]; simpl; [|reflexivity].
  destruct (validateAudioPath rawPath) as [audioPath|e]; simpl; [|reflexivity].
  destruct (Js.get data (js "language")) as [rawLanguage|e]; simpl; [|reflexivity].
  destruct (validateLanguage rawLanguage) as [language|e]; simpl; [|reflexivity].
  destruct (negb (Str.includes audioPath _)); simpl; [reflexivity|].
  destruct (world [] (FileExists audioPath)) as [[|]|e]; simpl; try reflexivity.
  destruct (world _ DateNow) as [now|e]; simpl; [|reflexivity].
  destruct (world _ (GetSignedUrl audioPath _ _)) as [url|e]; simpl; [|reflexivity].
  destruct (world _ (Recognize _)) as [response|e]; simpl; [|reflexivity].
  unfold transcriptionResultOf.
  destruct (results response) as [[|r rs]|]; reflexivity.
Qed.

Lemma run_synthesizeSpeech world env data context :
  run world (synthesizeSpeech env data context) =
  synthesizeSpeechOutcome world data context.
Proof.
  unfold run, synthesizeSpeech, synthesizeSpeechOutcome, synthesizeSpeechBody,
    synthesizeSpeechChecks.
  simpl.
  destruct (validateAuth context) as [uid|e]; simpl; [|reflexivity].
  destruct (validateRequiredFields data _) as [[]|e]; simpl; [|reflexivity].
  destruct (Js.get data (js "text")) as [rawText|e]; simpl; [|reflexivity].
  destruct (validateTextLength rawText 5000) as [text|e]; simpl; [|reflexivity].
  destruct (Js.get data (js "language")) as [rawLanguage|e]; simpl; [|reflexivity].
  destruct (validateLanguage rawLanguage) as [language|e]; simpl; [|reflexivity].
  destruct (world [] (SynthesizeSpeech _)) as [response|e]; simpl; [|reflexivity].
  destruct (audioContent response) as [content|]; simpl; [|reflexivity].
  destruct (world _ DateNow) as [timestamp|e]; simpl; [|reflexivity].
  destruct (world _ NowISOString) as [generatedAt|e]; simpl; [|reflexivity].
  destruct (world _ (FileSave _ _ _)) as [[]|e]; simpl; [|reflexivity].
  destruct (world _ DateNow) as [now|e]; simpl; [|reflexivity].
  destruct (world _ (GetSignedUrl _ _ _)) as [url|e]; simpl; reflexivity.
Qed.

(* ===================================================================== *)
(** * Authentication comes first *)
(* ===================================================================== *)

(** X8: validateAuth returns the uid of the context exactly when the
    context carries authentication data with a non-empty uid. *)
Theorem X8_validateAuth_accepts_exactly_a_nonempty_uid (context : CallableContext) (u : JsString) :
  validateAuth context = Ok u <->
  exists a, auth context = Some a /\ uid a = Some u /\ u <> [].
Proof.
  unfold validateAuth. destruct context as [[[[[|c u']|]]|]]; simpl; split;
    try discriminate;
    try (intros (a & Ha & Hu & Hne); try discriminate;
         injection Ha as <-; simpl in Hu; try discriminate).
  - injection Hu as <-. congruence.
  - intros H. injection H as <-. exists (mkAuth (Some (c :: u'))).
    repeat split. discriminate.
  - injection Hu as <-. reflexivity.
Qed.

Lemma validateAuth_Throw (context : CallableContext) (e : JsError) :
  validateAuth context = Throw e ->
  e = mkError (js "Unauthenticated: No auth token provided") \/
  e = mkError (js "Unauthenticated: Invalid auth token").
Proof.
  unfold validateAuth. destruct context as [[[[[|c u']|]]|]]; simpl; intros H;
    try discriminate; injection H as <-; auto.
Qed.

(** C2 (as the code has it): a call without a valid identity fails in
    each of the three handlers before anything else happens: whatever the
    data, the configuration and the outside world, no call is made and the
    outcome is one fixed error. That error is an HttpsError of kind
    [internal] whose message embeds the "Unauthenticated: ..." text; no
    handler has an error kind of its own for authentication. *)
Theorem C2_unauthenticated_fails_first_as_internal :
  forall (world : World) (env : Env) (data : JsValue) (context : CallableContext)
         (e : JsError),
    validateAuth context = Throw e ->
    (message e = js "Unauthenticated: No auth token provided" \/
     message e = js "Unauthenticated: Invalid auth token") /\
    run world (askGemini env data context) =
      (inl (mkHttpsError (js "internal")
                         (js "Failed to get AI response: " ++ message e)), []) /\
    run world (transcribeAudio env data context) =
      (inl (mkHttpsError (js "internal")
                         (js "Failed to transcribe audio: " ++ message e)), []) /\
    run world (synthesizeSpeech env data context) =
      (inl (mkHttpsError (js "internal")
                         (js "Failed to synthesize speech: " ++ message e)), []).
Proof.
  intros world env data context e H.
  rewrite run_askGemini, run_transcribeAudio, run_synthesizeSpeech.
  unfold askGeminiOutcome, askGeminiChecks, transcribeAudioOutcome,
    transcribeAudioChecks, synthesizeSpeechOutcome, synthesizeSpeechChecks.
  simpl. rewrite H.
  destruct (validateAuth_Throw _ _ H) as [-> | ->]; simpl;
    (split; [auto | repeat split; reflexivity]).
Qed.

(* ===================================================================== *)
(** * The response parser: theorems *)
(* ===================================================================== *)

Lemma fieldsOf_fallback (responseText : JsString) :
  fieldsOf (fallbackResponse responseText) =
  mkAIResponse (VStr responseText) (VStr (js "Medium"))
               (VArr [VStr (js "Gemini AI")]) (VArr []).
Proof. reflexivity. Qed.

(** X9: whatever the reply, the only error the response parser raises is
    the missing-answer error. *)
Theorem X9_response_parser_raises_one_error_only (responseText : JsString) (e : JsError) :
  parseAIResponse responseText = Throw e -> e = mkError invalidAIResponse.
Proof.
  unfold parseAIResponse.
  destruct (extractResponse_object responseText) as [props ->].
  unfold normalizeResponse. simpl.
  destruct (Js.truthy _); simpl; [discriminate|].
  intros H. injection H as <-. reflexivity.
Qed.

(** C4 (as the code has it): when the reply has no brace-delimited part,
    or that part is not JSON, the parser works on the degraded response
    (the whole reply as answer, "Medium", ["Gemini AI"], no suggestions)
    and returns it unchanged; it does so for every reply but the empty
    one, on which the check of the answer field raises the missing-answer
    error. *)
Theorem C4_fallback_returned_unless_reply_empty :
  forall responseText : JsString,
    (jsonMatch responseText = None \/
     exists m, jsonMatch responseText = Some m /\ Json.parse m = None) ->
    extractResponse responseText = fallbackResponse responseText /\
    fieldsOf (fallbackResponse responseText) =
      mkAIResponse (VStr responseText) (VStr (js "Medium"))
                   (VArr [VStr (js "Gemini AI")]) (VArr []) /\
    parseAIResponse responseText =
      match responseText with
      | [] => throwError invalidAIResponse
      | _ => Ok (fallbackResponse responseText)
      end.
Proof.
  intros responseText H.
  assert (He : extractResponse responseText = fallbackResponse responseText).
  { unfold extractResponse. destruct H as [-> | (m & -> & ->)]; reflexivity. }
  split; [exact He|]. split; [apply fieldsOf_fallback|].
  unfold parseAIResponse. rewrite He. apply normalizeResponse_fallback.
Qed.

(** What the parser returns when the brace-delimited part of the reply
    parses as JSON: it fails, with the missing-answer error, exactly when
    the answer field is missing or falsy; otherwise it returns the answer
    as parsed, and each of the other three fields as parsed when it has
    the shape looked for, and as its default when it has not. *)
Lemma parseAIResponse_of_parsed_reply (responseText m : JsString) (v : JsValue) :
  jsonMatch responseText = Some m ->
  Json.parse m = Some v ->
  let parsed := fieldsOf v in
  if Js.truthy (answer parsed)
  then exists aiResponse : JsValue,
      parseAIResponse responseText = Ok aiResponse /\
      fieldsOf aiResponse =
        mkAIResponse
          (answer parsed)
          (if Js.strIncludes validConfidenceLevels (confidence parsed)
           then confidence parsed else VStr (js "Medium"))
          (if Js.isArray (sources parsed)
           then sources parsed else VArr [VStr (js "Gemini AI")])
          (if Js.isArray (suggestions parsed)
           then suggestions parsed else VArr [])
  else parseAIResponse responseText = Throw (mkError invalidAIResponse).
Proof.
  intros Hm Hp parsed.
  destruct (jsonMatch_head _ _ Hm) as [rest ->].
  destruct (parse_brace_object _ _ Hp) as [props ->].
  assert (He : parseAIResponse responseText = normalizeResponse (VObj props)).
  { unfold parseAIResponse, extractResponse. rewrite Hm, Hp. reflexivity. }
  rewrite He.
  destruct (Js.truthy (answer parsed)) eqn:Ht.
  - destruct (normalizeResponse_truthy _ Ht) as [n Hn].
    exists n. split; [exact Hn|].
    destruct (normalizeResponse_fields _ _ Hn) as (Ha & _ & Hc & Hs & Hg).
    destruct (fieldsOf n) as [a c so su]. simpl in Ha, Hc, Hs, Hg.
    subst a c so su. reflexivity.
  - exact (normalizeResponse_falsy _ Ht).
Qed.

(** C5 (what the parser does, and the code at the failing input). When
    the brace-delimited part of the reply parses as JSON, the parser
    fails, with the missing-answer error, exactly when the answer field
    is missing or falsy; otherwise it returns the answer as parsed,
    whatever its type, and each of confidence, sources and suggestions as
    parsed or as its default. So at the reply
    [{"answer":42,"sources":[7]}] the number 42 as answer and the number
    7 among the sources are shapes that are neither rejected nor replaced
    by a default, while the missing confidence and suggestions get their
    defaults. *)
Theorem C5_parser_fails_on_falsy_answer_and_passes_a_number_answer :
  (forall (responseText m : JsString) (v : JsValue),
      jsonMatch responseText = Some m ->
      Json.parse m = Some v ->
      let parsed := fieldsOf v in
      if Js.truthy (answer parsed)
      then exists aiResponse : JsValue,
          parseAIResponse responseText = Ok aiResponse /\
          fieldsOf aiResponse =
            mkAIResponse
              (answer parsed)
              (if Js.strIncludes validConfidenceLevels (confidence parsed)
               then confidence parsed else VStr (js "Medium"))
              (if Js.isArray (sources parsed)
               then sources parsed else VArr [VStr (js "Gemini AI")])
              (if Js.isArray (suggestions parsed)
               then suggestions parsed else VArr [])
      else parseAIResponse responseText = Throw (mkError invalidAIResponse)) /\
  jsonMatch replyNumbers = Some replyNumbers /\
  (exists v : JsValue,
      Json.parse replyNumbers = Some v /\
      fieldsOf v = mkAIResponse (VNum (mkNum false 42 0)) VUndefined
                                (VArr [VNum (mkNum false 7 0)]) VUndefined) /\
  Js.isString (VNum (mkNum false 42 0)) = false /\
  (exists aiResponse : JsValue,
      parseAIResponse replyNumbers = Ok aiResponse /\
      fieldsOf aiResponse =
        mkAIResponse (VNum (mkNum false 42 0)) (VStr (js "Medium"))
                     (VArr [VNum (mkNum false 7 0)]) (VArr [])).
Proof.
  split; [exact parseAIResponse_of_parsed_reply|].
  split; [reflexivity|].
  split; [eexists; split; [vm_compute; reflexivity | reflexivity]|].
  split; [reflexivity|].
  eexists. split; [vm_compute; reflexivity | reflexivity].
Qed.

Lemma isArray_or_default (parsed default : JsValue) :
  Js.isArray default = true ->
  Js.isArray (if Js.isArray parsed then parsed else default) = true.
Proof. intros H. destruct (Js.isArray parsed) eqn:E; [exact E | exact H]. Qed.

(** Whenever askGemini returns, the four fields of its result come from
    the reply of the model as follows. The answer is the parsed (or
    fallback) answer and is truthy; confidence is the parsed value when
    that is exactly "High", "Medium" or "Low" and "Medium" otherwise;
    sources is the parsed value when that is an array and ["Gemini AI"]
    otherwise; suggestions is the parsed value when that is an array and
    the empty array otherwise. *)
Lemma askGemini_returned_fields_are_normalized :
  forall (world : World) (env : Env) (data : JsValue) (context : CallableContext)
         (res : AskGeminiResult) (calls : list Effect),
    run world (askGemini env data context) = (inr res, calls) ->
    exists prompt responseText,
      world [] (GenerateContent (js "gemini-1.5-flash") prompt) = Ok responseText /\
      let p := fieldsOf (extractResponse responseText) in
      res_answer res = answer p /\
      Js.truthy (res_answer res) = true /\
      res_confidence res =
        (if Js.strIncludes validConfidenceLevels (confidence p)
         then confidence p else VStr (js "Medium")) /\
      In (res_confidence res) [VStr (js "High"); VStr (js "Medium"); VStr (js "Low")] /\
      res_sources res =
        (if Js.isArray (sources p) then sources p else VArr [VStr (js "Gemini AI")]) /\
      Js.isArray (res_sources res) = true /\
      res_suggestions res =
        (if Js.isArray (suggestions p) then suggestions p else VArr []) /\
      Js.isArray (res_suggestions res) = true.
Proof.
  intros world env data context res calls H.
  rewrite run_askGemini in H. unfold askGeminiOutcome in H.
  destruct (askGeminiChecks env data context)
    as [[[[[u question] language] farmProfile] prompt]|e]; [|discriminate].
  destruct (world [] (GenerateContent (js "gemini-1.5-flash") prompt))
    as [responseText|e] eqn:Hw; [|discriminate].
  destruct (parseAIResponse responseText) as [ai|e] eqn:Hp; [|discriminate].
  destruct (world _ (NewChatRef u)) as [chatId|e]; [|discriminate].
  destruct (world _ (ChatSet u chatId _)) as [[]|e]; [|discriminate].
  injection H as <- _.
  exists prompt, responseText. split; [exact Hw|].
  destruct (normalizeResponse_fields _ _ Hp) as (Ha & Ht & Hc & Hs & Hg).
  cbv zeta. simpl res_answer. simpl res_confidence. simpl res_sources.
  simpl res_suggestions.
  rewrite Ha in Ht.
  repeat split; try assumption.
  - change (Js.truthy (answer (fieldsOf ai)) = true). rewrite Ha. exact Ht.
  - change (In (confidence (fieldsOf ai))
               [VStr (js "High"); VStr (js "Medium"); VStr (js "Low")]).
    rewrite Hc.
    destruct (Js.strIncludes validConfidenceLevels _) eqn:Hi.
    + apply strIncludes_In in Hi as (s & -> & Hin).
      simpl in Hin. destruct Hin as [<- | [<- | [<- | []]]]; simpl; auto.
    + simpl. auto.
  - change (Js.isArray (sources (fieldsOf ai)) = true).
    rewrite Hs. apply isArray_or_default. reflexivity.
  - change (Js.isArray (suggestions (fieldsOf ai)) = true).
    rewrite Hg. apply isArray_or_default. reflexivity.
Qed.

(** C1 (what askGemini returns, and the code at the failing input).
    Whenever askGemini returns, confidence is the parsed value when that
    is exactly "High", "Medium" or "Low" and "Medium" otherwise; sources
    is the parsed value when that is an array and ["Gemini AI"]
    otherwise; suggestions is the parsed value when that is an array and
    the empty array otherwise; the answer is the parsed (or fallback)
    answer, of which only truthiness is checked. So when the model
    replies [{"answer":42,"sources":[7]}] to the sample question,
    askGemini returns, and writes to the chat record, the number 42 as
    the answer, which is not a string, and an array holding the number 7
    as the sources. *)
Theorem C1_fields_are_normalized_but_a_number_answer_is_returned :
  (forall (world : World) (env : Env) (data : JsValue) (context : CallableContext)
          (res : AskGeminiResult) (calls : list Effect),
      run world (askGemini env data context) = (inr res, calls) ->
      exists prompt responseText,
        world [] (GenerateContent (js "gemini-1.5-flash") prompt) = Ok responseText /\
        let p := fieldsOf (extractResponse responseText) in
        res_answer res = answer p /\
        Js.truthy (res_answer res) = true /\
        res_confidence res =
          (if Js.strIncludes validConfidenceLevels (confidence p)
           then confidence p else VStr (js "Medium")) /\
        In (res_confidence res) [VStr (js "High"); VStr (js "Medium"); VStr (js "Low")] /\
        res_sources res =
          (if Js.isArray (sources p) then sources p else VArr [VStr (js "Gemini AI")]) /\
        Js.isArray (res_sources res) = true /\
        res_suggestions res =
          (if Js.isArray (suggestions p) then suggestions p else VArr []) /\
        Js.isArray (res_suggestions res) = true) /\
  (let returned :=
     mkAIResponse (VNum (mkNum false 42 0)) (VStr (js "Medium"))
                  (VArr [VNum (mkNum false 7 0)]) (VArr []) in
   run (workingWorld replyNumbers noSpeech)
       (askGemini sampleEnv (askData sampleQuestion) sampleContext)
   = (inr (mkAskGeminiResult (answer returned) (confidence returned)
                             (sources returned) (suggestions returned) (js "chat-1")),
      [ GenerateContent (js "gemini-1.5-flash")
          match buildAgriculturalPrompt sampleFarmProfile (js "en")
                                        sampleQuestionTrimmed with
          | Ok prompt => prompt
          | Throw _ => []
          end;
        NewChatRef (js "u123");
        ChatSet (js "u123") (js "chat-1") (sampleRecord returned) ]) /\
   Js.isString (answer returned) = false /\
   sources returned = VArr [VNum (mkNum false 7 0)]).
Proof.
  split; [exact askGemini_returned_fields_are_normalized|].
  intros returned. split; [vm_compute; reflexivity|].
  split; reflexivity.
Qed.

(* ===================================================================== *)
(** * Languages and the provider tables *)
(* ===================================================================== *)

Lemma validateLanguage_Ok (rawLanguage : JsValue) (language : JsString) :
  validateLanguage rawLanguage = Ok language <->
  rawLanguage = VStr language /\ In language supportedLanguages.
Proof.
  split.
  - unfold validateLanguage, unsupportedLanguage, throwError.
    destruct rawLanguage;
      try (destruct (ToString _); simpl; discriminate).
    destruct (negb (Js.truthy (VStr s))
              || negb (Js.strIncludes supportedLanguages (VStr s))) eqn:E;
      [discriminate|].
    intros H. injection H as <-. split; [reflexivity|].
    apply orb_false_iff in E as [_ E]. apply negb_false_iff in E.
    apply strIncludes_In in E as (s' & Heq & Hin).
    injection Heq as <-. exact Hin.
  - intros [-> Hin]. simpl in Hin.
    destruct Hin as [<- | [<- | [<- | [<- | []]]]]; reflexivity.
Qed.

Lemma supported_tables (language : JsString) :
  In language supportedLanguages ->
  tableGet voiceConfig language = Some (voiceOf language) /\
  languageCode (voiceOf language) = language ++ js "-IN" /\
  tableGet languageCodeMap language = Some (localeOf language) /\
  localeOf language = language ++ js "-IN" /\
  tableGet languageNames language <> None.
Proof.
  simpl. intros [<- | [<- | [<- | [<- | []]]]];
    repeat split; try reflexivity; intros Hnone; vm_compute in Hnone; discriminate Hnone.
Qed.

Lemma transcribeAudioChecks_language data context u path language :
  transcribeAudioChecks data context = Ok (u, path, language) ->
  Js.get data (js "language") = Ok (VStr language) /\
  In language supportedLanguages.
Proof.
  unfold transcribeAudioChecks. simpl.
  destruct (validateAuth context) as [uid0|e]; simpl; [|discriminate].
  destruct (validateRequiredFields data _) as [[]|e]; simpl; [|discriminate].
  destruct (Js.get data (js "audioPath")) as [rawPath|e]; simpl; [|discriminate].
  destruct (validateAudioPath rawPath) as [audioPath|e]; simpl; [|discriminate].
  destruct (Js.get data (js "language")) as [rawLanguage|e]; simpl; [|discriminate].
  destruct (validateLanguage rawLanguage) as [l|e] eqn:El; simpl; [|discriminate].
  destruct (negb (Str.includes audioPath _)); simpl; [discriminate|].
  intros H. injection H as <- <- <-.
  apply validateLanguage_Ok in El as [-> Hin]. auto.
Qed.

Lemma synthesizeSpeechChecks_language data context u text language :
  synthesizeSpeechChecks data context = Ok (u, text, language) ->
  Js.get data (js "language") = Ok (VStr language) /\
  In language supportedLanguages.
Proof.
  unfold synthesizeSpeechChecks. simpl.
  destruct (validateAuth context) as [uid0|e]; simpl; [|discriminate].
  destruct (validateRequiredFields data _) as [[]|e]; simpl; [|discriminate].
  destruct (Js.get data (js "text")) as [rawText|e]; simpl; [|discriminate].
  destruct (validateTextLength rawText 5000) as [t|e]; simpl; [|discriminate].
  destruct (Js.get data (js "language")) as [rawLanguage|e]; simpl; [|discriminate].
  destruct (validateLanguage rawLanguage) as [l|e] eqn:El; simpl; [|discriminate].
  intros H. injection H as <- <- <-.
  apply validateLanguage_Ok in El as [-> Hin]. auto.
Qed.

Lemma voice_eta (v : VoiceConfig) :
  mkVoice (languageCode v) (voiceName v) (ssmlGender v) = v.
Proof. destruct v; reflexivity. Qed.

(** C10: validateLanguage accepts exactly the four codes, returning the
    code unchanged; for each of them both provider tables have an entry,
    so the fall-back to English is not taken and the voice and the locale
    are those of the requested language ("<code>-IN"); every request that
    synthesizeSpeech or transcribeAudio sends to its provider carries the
    table entry of the language of the request data. *)
Theorem C10_provider_tables_total_on_validated_languages :
  forall (rawLanguage : JsValue) (language : JsString),
    validateLanguage rawLanguage = Ok language ->
    (rawLanguage = VStr language /\ In language [js "en"; js "hi"; js "ta"; js "te"]) /\
    (forall s, In s [js "en"; js "hi"; js "ta"; js "te"] ->
               validateLanguage (VStr s) = Ok s) /\
    tableGet voiceConfig language = Some (voiceOf language) /\
    languageCode (voiceOf language) = language ++ js "-IN" /\
    tableGet languageCodeMap language = Some (localeOf language) /\
    localeOf language = language ++ js "-IN" /\
    (forall world env data context request,
        Js.get data (js "language") = Ok rawLanguage ->
        In (SynthesizeSpeech request) (snd (run world (synthesizeSpeech env data context))) ->
        tableGet voiceConfig language = Some (sr_voice request)) /\
    (forall world env data context request,
        Js.get data (js "language") = Ok rawLanguage ->
        In (Recognize request) (snd (run world (transcribeAudio env data context))) ->
        tableGet languageCodeMap language = Some (rc_languageCode (rq_config request))).
Proof.
  intros rawLanguage language H.
  apply validateLanguage_Ok in H as [-> Hin].
  destruct (supported_tables _ Hin) as (Hv & Hc & Hl & Hl' & _).
  split; [split; [reflexivity | exact Hin]|].
  split; [intros s Hs; apply validateLanguage_Ok; auto|].
  repeat (split; [assumption|]).
  split.
  - intros world env data context request Hd Hcall.
    rewrite run_synthesizeSpeech in Hcall. unfold synthesizeSpeechOutcome in Hcall.
    destruct (synthesizeSpeechChecks data context) as [[[u text] l]|e] eqn:Ec;
      [|contradiction].
    destruct (synthesizeSpeechChecks_language _ _ _ _ _ Ec) as [Hd' Hin'].
    rewrite Hd in Hd'. injection Hd' as <-.
    assert (Hreq : sr_voice (synthesisRequestOf text language) = voiceOf language)
      by apply voice_eta.
    assert (Hfirst : forall calls,
               In (SynthesizeSpeech request)
                  (SynthesizeSpeech (synthesisRequestOf text language) :: calls) ->
               (forall c, In c calls -> c <> SynthesizeSpeech request) ->
               tableGet voiceConfig language = Some (sr_voice request)).
    { intros calls [Heq | Hc'] Hno.
      - injection Heq as <-. rewrite Hreq. exact Hv.
      - exfalso. exact (Hno _ Hc' eq_refl). }
    repeat match type of Hcall with
           | context [match ?x with _ => _ end] => destruct x
           end;
      simpl snd in Hcall;
      (eapply Hfirst; [exact Hcall|]);
      intros c Hc'; simpl in Hc';
      repeat (destruct Hc' as [<- | Hc']; [discriminate|]); contradiction.
  - intros world env data context request Hd Hcall.
    rewrite run_transcribeAudio in Hcall. unfold transcribeAudioOutcome in Hcall.
    destruct (transcribeAudioChecks data context) as [[[u path] l]|e] eqn:Ec;
      [|contradiction].
    destruct (transcribeAudioChecks_language _ _ _ _ _ Ec) as [Hd' Hin'].
    rewrite Hd in Hd'. injection Hd' as <-.
    repeat match type of Hcall with
           | context [match ?x with _ => _ end] => destruct x
           end;
      simpl snd in Hcall; simpl in Hcall;
      repeat (destruct Hcall as [Hcall | Hcall]; [try discriminate|]);
      try contradiction;
      injection Hcall as <-; exact Hl.
Qed.

(* ===================================================================== *)
(** * Ownership of the audio path *)
(* ===================================================================== *)

(** C3 (the code at the failing input): for the caller "u123" and the
    path "audio/otherUser/audio/u123/rec.webm", which does not lie under
    "audio/u123/", transcribeAudio passes its ownership check; its first
    call is the existence check of that file in the blob store, and where
    the store and the recognizer answer, the caller receives the
    transcription of the other user's recording. *)
Theorem C3_foreign_path_reaches_blob_store :
  forall (world : World) (env : Env),
    let path := js "audio/otherUser/audio/u123/rec.webm" in
    let data := VObj [(js "audioPath", VStr path); (js "language", VStr (js "en"))] in
    let context := mkContext (Some (mkAuth (Some (js "u123")))) in
    Str.startsWith path (js "audio/u123/") = false /\
    transcribeAudioChecks data context = Ok (js "u123", path, js "en") /\
    (exists more,
        snd (run world (transcribeAudio env data context)) = FileExists path :: more) /\
    fst (run (workingWorld [] (mkRecognizeResponse (Some twoScored)))
             (transcribeAudio env data context))
    = inr (transcriptionResultOf (mkRecognizeResponse (Some twoScored))).
Proof.
  intros world env path data context.
  split; [reflexivity|].
  assert (Hc : transcribeAudioChecks data context = Ok (js "u123", path, js "en"))
    by reflexivity.
  split; [exact Hc|].
  rewrite !run_transcribeAudio. unfold transcribeAudioOutcome. rewrite Hc.
  split; [|reflexivity].
  repeat match goal with
         | |- context [match world ?d ?eff with _ => _ end] =>
             destruct (world d eff)
         | |- context [match ?b with true => _ | false => _ end] => destruct b
         end;
    eexists; reflexivity.
Qed.

(* ===================================================================== *)
(** * askGemini: persistence *)
(* ===================================================================== *)

(** C6 (as the code has it): when the write of the chat record is
    rejected, the request fails; the error is [internal] and carries the
    underlying message, except that a message containing "API key" is
    reported as [failed-precondition] with a fixed text. When askGemini
    succeeds, it has made exactly three calls, the last of which is the
    one write of the chat record, accepted by the store, under the
    generated id that is returned as chatId and with the returned
    fields. *)
Theorem C6_write_failure_fails_request_and_success_wrote_once :
  forall (world : World) (env : Env) (data : JsValue) (context : CallableContext),
    (forall before uid chatId record e,
        snd (run world (askGemini env data context)) =
          before ++ [ChatSet uid chatId record] ->
        world before (ChatSet uid chatId record) = Throw e ->
        fst (run world (askGemini env data context)) = inl (askGeminiError e) /\
        askGeminiError e =
          (if Str.includes (message e) (js "API key")
           then mkHttpsError (js "failed-precondition")
                  (js "Gemini API key not configured. Please contact support.")
           else mkHttpsError (js "internal")
                  (js "Failed to get AI response: " ++ message e))) /\
    (forall res,
        fst (run world (askGemini env data context)) = inr res ->
        exists prompt uid record,
          validateAuth context = Ok uid /\
          snd (run world (askGemini env data context)) =
            [ GenerateContent (js "gemini-1.5-flash") prompt;
              NewChatRef uid;
              ChatSet uid (res_chatId res) record ] /\
          world [GenerateContent (js "gemini-1.5-flash") prompt] (NewChatRef uid)
            = Ok (res_chatId res) /\
          world [GenerateContent (js "gemini-1.5-flash") prompt; NewChatRef uid]
                (ChatSet uid (res_chatId res) record) = Ok tt /\
          chat_answer record = res_answer res /\
          chat_confidence record = res_confidence res /\
          chat_sources record = res_sources res /\
          chat_suggestions record = res_suggestions res).
Proof.
  intros world env data context.
  rewrite run_askGemini. unfold askGeminiOutcome.
  destruct (askGeminiChecks env data context)
    as [[[[[u question] language] farmProfile] prompt]|e0] eqn:Ec.
  2:{ split.
      - intros before uid0 chatId record e H. simpl in H.
        destruct before; discriminate.
      - intros res H. discriminate. }
  assert (Hu : validateAuth context = Ok u).
  { unfold askGeminiChecks in Ec. simpl in Ec.
    destruct (validateAuth context) as [u0|e0]; simpl in Ec; [|discriminate].
    repeat match type of Ec with
           | match ?x with _ => _ end = _ => destruct x; simpl in Ec; try discriminate
           | (if ?b then _ else _) = _ => destruct b; simpl in Ec; try discriminate
           end.
    injection Ec as -> _ _ _ _. reflexivity. }
  set (generate := GenerateContent (js "gemini-1.5-flash") prompt).
  destruct (world [] generate) as [text|e1].
  2:{ split.
      - intros before uid0 chatId record e H. simpl in H.
        destruct before as [|x [|y before]]; discriminate.
      - intros res H. discriminate. }
  destruct (parseAIResponse text) as [ai|e1].
  2:{ split.
      - intros before uid0 chatId record e H. simpl in H.
        destruct before as [|x [|y before]]; discriminate.
      - intros res H. discriminate. }
  cbv zeta.
  destruct (world [generate] (NewChatRef u)) as [chatId|e1] eqn:En.
  2:{ split.
      - intros before uid0 chatId record e H. simpl in H.
        destruct before as [|x [|y [|z before]]]; discriminate.
      - intros res H. discriminate. }
  destruct (world [generate; NewChatRef u] (ChatSet u chatId _)) as [[]|e1] eqn:Ew.
  - split.
    + intros before uid0 chatId0 record e H Hthrow. simpl in H.
      destruct before as [|x [|y [|z before]]]; try discriminate.
      * injection H as Hx Hy Hu0 Hid Hrec. subst x y uid0 chatId0 record.
        rewrite Ew in Hthrow. discriminate.
      * injection H as _ _ _ H. destruct before; discriminate.
    + intros res H. injection H as <-.
      exists prompt, u. eexists. split; [exact Hu|].
      split; [reflexivity|]. split; [exact En|]. split; [exact Ew|].
      repeat split; reflexivity.
  - split.
    + intros before uid0 chatId0 record e H Hthrow. simpl in H.
      destruct before as [|x [|y [|z before]]]; try discriminate.
      * injection H as Hx Hy Hu0 Hid Hrec. subst x y uid0 chatId0 record.
        rewrite Ew in Hthrow. injection Hthrow as <-.
        split; reflexivity.
      * injection H as _ _ _ H. destruct before; discriminate.
    + intros res H. discriminate.
Qed.

(* ===================================================================== *)
(** * The question *)
(* ===================================================================== *)

Lemma validateTextLength_Ok (text : JsValue) (maxLength : N) (validated : JsString) :
  validateTextLength text maxLength = Ok validated <->
  exists s, text = VStr s /\ s <> [] /\
            (N.of_nat (List.length s) <= maxLength)%N /\
            validated = Str.trim s.
Proof.
  unfold validateTextLength. split.
  - destruct text as [| | | |[|c s]| |]; try discriminate.
    destruct (N.ltb_spec maxLength (N.of_nat (List.length (c :: s))));
      [discriminate|].
    intros H0. injection H0 as <-.
    exists (c :: s). repeat split; [discriminate | assumption].
  - intros (s & -> & Hne & Hlen & ->).
    destruct s as [|c s]; [congruence|].
    destruct (N.ltb_spec maxLength (N.of_nat (List.length (c :: s))));
      [lia | reflexivity].
Qed.

Lemma askGeminiChecks_question env data context u question language farmProfile prompt :
  askGeminiChecks env data context = Ok (u, question, language, farmProfile, prompt) ->
  exists rawQuestion,
    Js.get data (js "question") = Ok rawQuestion /\
    validateTextLength rawQuestion 1000 = Ok question /\
    buildAgriculturalPrompt farmProfile language question = Ok prompt.
Proof.
  unfold askGeminiChecks. simpl.
  destruct (validateAuth context) as [u0|e]; simpl; [|discriminate].
  destruct (validateRequiredFields data _) as [[]|e]; simpl; [|discriminate].
  destruct (Js.get data (js "question")) as [rawQuestion|e] eqn:Eg; simpl;
    [|discriminate].
  destruct (validateTextLength rawQuestion 1000) as [q|e] eqn:Ev; simpl;
    [|discriminate].
  destruct (Js.get data (js "language")) as [rawLanguage|e]; simpl; [|discriminate].
  destruct (validateLanguage rawLanguage) as [l|e]; simpl; [|discriminate].
  destruct (Js.get data (js "farmProfile")) as [fp|e]; simpl; [|discriminate].
  destruct (negb (Js.truthy fp) || negb (Js.typeofObject fp)); simpl; [discriminate|].
  destruct (apiKeyMissing env); simpl; [discriminate|].
  destruct (buildAgriculturalPrompt fp l q) as [p|e] eqn:Eb; simpl; [|discriminate].
  intros H. injection H as <- <- <- <- <-.
  exists rawQuestion. repeat split; assumption.
Qed.

(** A question accepted by validateTextLength with the cap 1000 was a
    non-empty string of at most 1000 code units, and the value used from
    then on is that string trimmed: it has no white space at either end
    and at most 1000 code units, and it is empty exactly when the input
    was white space only. A string of 1001 code units is rejected with
    the too-long error, one of 1000 is accepted and returned trimmed. The
    prompt askGemini sends and the chat record it writes are built from
    the validated question. *)
Lemma question_is_trimmed_and_capped :
  (forall (rawQuestion : JsValue) (question : JsString),
      validateTextLength rawQuestion 1000 = Ok question ->
      exists s,
        rawQuestion = VStr s /\ s <> [] /\ (List.length s <= 1000)%nat /\
        question = Str.trim s /\
        isTrimmed question /\
        (List.length question <= 1000)%nat /\
        (question = [] <-> forallb Str.isWhiteSpace s = true)) /\
  (forall s : JsString,
      List.length s = 1001%nat ->
      validateTextLength (VStr s) 1000 =
      throwError (js "Text too long. Maximum length: 1000 characters")) /\
  (forall s : JsString,
      List.length s = 1000%nat ->
      validateTextLength (VStr s) 1000 = Ok (Str.trim s)) /\
  (forall (world : World) (env : Env) (data : JsValue) (context : CallableContext)
          (eff : Effect),
      In eff (snd (run world (askGemini env data context))) ->
      match eff with
      | GenerateContent _ prompt =>
          exists rawQuestion question language farmProfile,
            Js.get data (js "question") = Ok rawQuestion /\
            validateTextLength rawQuestion 1000 = Ok question /\
            buildAgriculturalPrompt farmProfile language question = Ok prompt
      | ChatSet _ _ record =>
          exists rawQuestion,
            Js.get data (js "question") = Ok rawQuestion /\
            validateTextLength rawQuestion 1000 = Ok (chat_question record)
      | _ => True
      end).
Proof.
  split; [|split; [|split]].
  - intros rawQuestion question H.
    apply validateTextLength_Ok in H as (s & -> & Hne & Hlen & ->).
    exists s. assert (Hl : (List.length s <= 1000)%nat) by lia.
    repeat split; try assumption.
    + apply trim_isTrimmed.
    + apply trim_isTrimmed.
    + pose proof (trim_length s). lia.
    + apply trim_nil_all_space.
    + apply trim_all_space.
  - intros s Hs. destruct s as [|c s]; [discriminate|].
    unfold validateTextLength. rewrite Hs. reflexivity.
  - intros s Hs. destruct s as [|c s]; [discriminate|].
    unfold validateTextLength. rewrite Hs. reflexivity.
  - intros world env data context eff Hin.
    rewrite run_askGemini in Hin. unfold askGeminiOutcome in Hin.
    destruct (askGeminiChecks env data context)
      as [[[[[u question] language] farmProfile] prompt]|e] eqn:Ec;
      [|contradiction].
    destruct (askGeminiChecks_question _ _ _ _ _ _ _ _ Ec) as (raw & Hg & Hv & Hb).
    assert (Hcases :
      In eff [ GenerateContent (js "gemini-1.5-flash") prompt; NewChatRef u ] \/
      exists chatId r,
        eff = ChatSet u chatId (chatRecordOf question language farmProfile r)).
    { repeat match type of Hin with
             | context [match ?x with _ => _ end] => destruct x
             end;
        simpl in Hin;
        repeat (destruct Hin as [<- | Hin];
                [first [ left; simpl; tauto
                       | right; eexists; eexists; reflexivity ] |]);
        contradiction. }
    destruct Hcases as [[<- | [<- | []]] | (chatId & r & ->)].
    + exists raw, question, language, farmProfile. repeat split; assumption.
    + exact I.
    + exists raw. split; assumption.
Qed.

(** C7 (what the validation does, and the code at the failing input). A
    question accepted by validateTextLength with the cap 1000 was a
    non-empty string of at most 1000 code units, and the value used from
    then on is that string trimmed, of at most 1000 code units, empty
    exactly when the input was white space only; 1001 code units are
    rejected with the too-long error, 1000 are accepted and returned
    trimmed; the prompt askGemini sends and the chat record it writes are
    built from the validated question. The empty question is refused by
    both validators, but the question " " passes them, because they look
    for the empty string before the text is trimmed; trimmed, it is the
    empty string that askGemini puts into the prompt it sends to the
    model and into the chat record it writes. *)
Theorem C7_question_is_trimmed_and_capped_but_may_be_blank :
  (forall (rawQuestion : JsValue) (question : JsString),
      validateTextLength rawQuestion 1000 = Ok question ->
      exists s,
        rawQuestion = VStr s /\ s <> [] /\ (List.length s <= 1000)%nat /\
        question = Str.trim s /\
        isTrimmed question /\
        (List.length question <= 1000)%nat /\
        (question = [] <-> forallb Str.isWhiteSpace s = true)) /\
  (forall s : JsString,
      List.length s = 1001%nat ->
      validateTextLength (VStr s) 1000 =
      throwError (js "Text too long. Maximum length: 1000 characters")) /\
  (forall s : JsString,
      List.length s = 1000%nat ->
      validateTextLength (VStr s) 1000 = Ok (Str.trim s)) /\
  (forall (world : World) (env : Env) (data : JsValue) (context : CallableContext)
          (eff : Effect),
      In eff (snd (run world (askGemini env data context))) ->
      match eff with
      | GenerateContent _ prompt =>
          exists rawQuestion question language farmProfile,
            Js.get data (js "question") = Ok rawQuestion /\
            validateTextLength rawQuestion 1000 = Ok question /\
            buildAgriculturalPrompt farmProfile language question = Ok prompt
      | ChatSet _ _ record =>
          exists rawQuestion,
            Js.get data (js "question") = Ok rawQuestion /\
            validateTextLength rawQuestion 1000 = Ok (chat_question record)
      | _ => True
      end) /\
  validateRequiredFields (askData []) [js "question"; js "farmProfile"; js "language"]
    = throwError (js "Missing required fields: question") /\
  validateTextLength (VStr []) 1000 = throwError (js "Invalid text input") /\
  validateRequiredFields (askData (js " ")) [js "question"; js "farmProfile"; js "language"]
    = Ok tt /\
  validateTextLength (VStr (js " ")) 1000 = Ok [] /\
  exists res prompt record,
    run (workingWorld replyVeryHigh noSpeech)
        (askGemini sampleEnv (askData (js " ")) sampleContext)
    = (inr res, [ GenerateContent (js "gemini-1.5-flash") prompt;
                  NewChatRef (js "u123");
                  ChatSet (js "u123") (js "chat-1") record ]) /\
    buildAgriculturalPrompt sampleFarmProfile (js "en") [] = Ok prompt /\
    chat_question record = [].
Proof.
  destruct question_is_trimmed_and_capped as (Hv & Hlong & Hmax & Hrun).
  split; [exact Hv|]. split; [exact Hlong|]. split; [exact Hmax|].
  split; [exact Hrun|].
  split; [reflexivity|]. split; [reflexivity|].
  split; [reflexivity|]. split; [reflexivity|].
  do 3 eexists.
  split; [vm_compute; reflexivity|].
  split; [vm_compute|]; reflexivity.
Qed.

(* ===================================================================== *)
(** * Double precision: rounding does not cross an integer *)
(* ===================================================================== *)














(* ===================================================================== *)
(** * The confidence of a transcription *)
(* ===================================================================== *)









(* ===================================================================== *)
(** * The prompt *)
(* ===================================================================== *)

Lemma orNotSpecified_falsy (x : JsValue) :
  Js.truthy x = false -> orNotSpecified x = Ok NotSpecified.
Proof. unfold orNotSpecified, Js.or. intros ->. reflexivity. Qed.

Lemma cropsOf_absent (farmProfile : JsValue) :
  Js.prop farmProfile (js "crops") = VUndefined \/
  Js.prop farmProfile (js "crops") = VNull ->
  cropsOf farmProfile = Ok NotSpecified.
Proof. unfold cropsOf. intros [-> | ->]; reflexivity. Qed.

Lemma areaOf_falsy (farmProfile : JsValue) :
  Js.truthy (Js.prop farmProfile (js "area")) = false ->
  areaOf farmProfile = Ok NotSpecified.
Proof. unfold areaOf. intros ->. reflexivity. Qed.

(** What the prompt shows for each field of the farm profile. *)
Lemma buildAgriculturalPrompt_fields
  (farmProfile : JsValue) (language question prompt : JsString) :
  buildAgriculturalPrompt farmProfile language question = Ok prompt ->
  exists c : FarmContext,
    prompt = renderPrompt (languageNameOf language) c question /\
    cropsOf farmProfile = Ok (ctx_crops c) /\
    areaOf farmProfile = Ok (ctx_area c) /\
    let location := Js.prop farmProfile (js "location") in
    orNotSpecified (Js.prop location (js "village")) = Ok (ctx_village c) /\
    orNotSpecified (Js.prop location (js "district")) = Ok (ctx_district c) /\
    orNotSpecified (Js.prop location (js "state")) = Ok (ctx_state c) /\
    orNotSpecified (Js.prop farmProfile (js "soilType")) = Ok (ctx_soilType c) /\
    orNotSpecified (Js.prop farmProfile (js "irrigationType"))
      = Ok (ctx_irrigationType c) /\
    orNotSpecified (Js.prop farmProfile (js "season")) = Ok (ctx_season c).
Proof.
  unfold buildAgriculturalPrompt. cbv zeta.
  destruct (Js.get farmProfile (js "crops")) as [x|e]; [|discriminate].
  change (bind (Ok x) ?f) with (f x). cbv beta.
  destruct (cropsOf farmProfile) as [crops|e]; [|discriminate].
  destruct (areaOf farmProfile) as [area|e]; [|discriminate].
  destruct (orNotSpecified (Js.prop (Js.prop farmProfile (js "location")) (js "village")))
    as [village|e]; [|discriminate].
  destruct (orNotSpecified (Js.prop (Js.prop farmProfile (js "location")) (js "district")))
    as [district|e]; [|discriminate].
  destruct (orNotSpecified (Js.prop (Js.prop farmProfile (js "location")) (js "state")))
    as [state|e]; [|discriminate].
  destruct (orNotSpecified (Js.prop farmProfile (js "soilType")))
    as [soilType|e]; [|discriminate].
  destruct (orNotSpecified (Js.prop farmProfile (js "irrigationType")))
    as [irrigationType|e]; [|discriminate].
  destruct (orNotSpecified (Js.prop farmProfile (js "season")))
    as [season|e]; [|discriminate].
  intros H. injection H as <-.
  exists (mkFarmContext crops village district state soilType irrigationType area season).
  repeat split; reflexivity.
Qed.

(** C9 (the code at the failing input): for a farm profile whose area is
    present with a value but without a unit, the prompt is built with
    every absent top-level and location field shown as "Not specified",
    but the area line reads "<value> undefined". *)
Theorem C9_area_without_unit_prints_undefined :
  forall (language question : JsString),
    let five := mkNum false 5 0 in
    let farmProfile := VObj [(js "area", VObj [(js "value", VNum five)])] in
    Js.prop (Js.prop farmProfile (js "area")) (js "unit") = VUndefined /\
    buildAgriculturalPrompt farmProfile language question =
    Ok (renderPrompt (languageNameOf language)
          (mkFarmContext NotSpecified NotSpecified NotSpecified NotSpecified
                         NotSpecified NotSpecified
                         (Number_toString five ++ js " undefined")
                         NotSpecified)
          question).
Proof.
  intros language question five farmProfile. split; reflexivity.
Qed.

(* ===================================================================== *)
(** * Further properties of the validators and handlers *)
(* ===================================================================== *)

Lemma missingFields_object (props : list (JsString * JsValue)) (fields : list JsString) :
  missingFields (VObj props) fields =
  Ok (filter (fun f => isMissing (Js.prop (VObj props) f)) fields).
Proof.
  induction fields as [|f fields IH]; [reflexivity|].
  simpl missingFields. rewrite IH. simpl.
  destruct (isMissing match Js.lookup props f with
                      | Some x => x | None => VUndefined end); reflexivity.
Qed.

(** X1: on a request object, for required fields among those the
    handlers pass (question, farmProfile, language, audioPath, text),
    validateRequiredFields succeeds exactly when no required field is
    undefined, null or the empty string, and otherwise its error lists
    every such field, in the order required. *)
Theorem X1_validateRequiredFields_lists_every_missing_field :
  forall (props : list (JsString * JsValue)) (fields : list JsString),
    (forall f, In f fields ->
               In f [js "question"; js "farmProfile"; js "language";
                     js "audioPath"; js "text"]) ->
    validateRequiredFields (VObj props) fields =
    match filter (fun f => isMissing (Js.prop (VObj props) f)) fields with
    | [] => Ok tt
    | missing =>
        throwError (js "Missing required fields: " ++ Str.join (js ", ") missing)
    end.
Proof.
  intros props fields _. unfold validateRequiredFields.
  rewrite missingFields_object. simpl bind.
  destruct (filter _ fields); reflexivity.
Qed.

(** X2: validateAudioPath accepts exactly the strings that start with
    "audio/", and returns them unchanged. *)
Theorem X2_validateAudioPath_accepts_exactly_the_audio_prefix :
  forall (audioPath : JsValue) (path : JsString),
    validateAudioPath audioPath = Ok path <->
    audioPath = VStr path /\ Str.startsWith path (js "audio/") = true.
Proof.
  intros audioPath path. unfold validateAudioPath. split.
  - destruct audioPath as [| | | |[|c s]| |]; try discriminate.
    destruct (Str.startsWith (c :: s) (js "audio/")) eqn:E; [|discriminate].
    intros H. injection H as <-. auto.
  - intros [-> H]. destruct path as [|c s]; [discriminate|].
    rewrite H. reflexivity.
Qed.

(** X3: in the prompt that buildAgriculturalPrompt returns, a top-level
    field or a location field of the farm profile that is missing (or
    falsy) is shown as "Not specified", and so are absent crops and a
    missing area. *)
Theorem X3_missing_profile_fields_show_Not_specified :
  forall (farmProfile : JsValue) (language question prompt : JsString),
    buildAgriculturalPrompt farmProfile language question = Ok prompt ->
    exists c : FarmContext,
      prompt = renderPrompt (languageNameOf language) c question /\
      let location := Js.prop farmProfile (js "location") in
      (Js.truthy (Js.prop location (js "village")) = false ->
       ctx_village c = js "Not specified") /\
      (Js.truthy (Js.prop location (js "district")) = false ->
       ctx_district c = js "Not specified") /\
      (Js.truthy (Js.prop location (js "state")) = false ->
       ctx_state c = js "Not specified") /\
      (Js.truthy (Js.prop farmProfile (js "soilType")) = false ->
       ctx_soilType c = js "Not specified") /\
      (Js.truthy (Js.prop farmProfile (js "irrigationType")) = false ->
       ctx_irrigationType c = js "Not specified") /\
      (Js.truthy (Js.prop farmProfile (js "season")) = false ->
       ctx_season c = js "Not specified") /\
      (Js.prop farmProfile (js "crops") = VUndefined \/
       Js.prop farmProfile (js "crops") = VNull ->
       ctx_crops c = js "Not specified") /\
      (Js.truthy (Js.prop farmProfile (js "area")) = false ->
       ctx_area c = js "Not specified").
Proof.
  intros farmProfile language question prompt H.
  destruct (buildAgriculturalPrompt_fields _ _ _ _ H)
    as (c & Hp & Hcrops & Harea & Hv & Hd & Hs & Hsoil & Hirr & Hsea).
  exists c. split; [exact Hp|]. cbv zeta.
  repeat split; intros Hf.
  - rewrite (orNotSpecified_falsy _ Hf) in Hv. injection Hv as <-. reflexivity.
  - rewrite (orNotSpecified_falsy _ Hf) in Hd. injection Hd as <-. reflexivity.
  - rewrite (orNotSpecified_falsy _ Hf) in Hs. injection Hs as <-. reflexivity.
  - rewrite (orNotSpecified_falsy _ Hf) in Hsoil. injection Hsoil as <-. reflexivity.
  - rewrite (orNotSpecified_falsy _ Hf) in Hirr. injection Hirr as <-. reflexivity.
  - rewrite (orNotSpecified_falsy _ Hf) in Hsea. injection Hsea as <-. reflexivity.
  - rewrite (cropsOf_absent _ Hf) in Hcrops. injection Hcrops as <-. reflexivity.
  - rewrite (areaOf_falsy _ Hf) in Harea. injection Harea as <-. reflexivity.
Qed.

(** X4: when the validated path does not contain "audio/<uid>/" at all,
    transcribeAudio fails with the "Unauthorized" message (as an internal
    error) and makes no call: the blob store is not touched. *)
Theorem X4_unowned_path_is_rejected_before_any_call :
  forall (world : World) (env : Env) (data : JsValue) (context : CallableContext)
         (u path language : JsString) (rawPath rawLanguage : JsValue),
    validateAuth context = Ok u ->
    validateRequiredFields data [js "audioPath"; js "language"] = Ok tt ->
    Js.get data (js "audioPath") = Ok rawPath ->
    validateAudioPath rawPath = Ok path ->
    Js.get data (js "language") = Ok rawLanguage ->
    validateLanguage rawLanguage = Ok language ->
    Str.includes path (js "audio/" ++ u ++ js "/") = false ->
    run world (transcribeAudio env data context) =
    (inl (mkHttpsError (js "internal")
            (js "Failed to transcribe audio: Unauthorized: Cannot access audio file")),
     []).
Proof.
  intros world env data context u path language rawPath rawLanguage
         Hu Hr Hp Hv Hl Hlang Hinc.
  rewrite run_transcribeAudio.
  unfold transcribeAudioOutcome, transcribeAudioChecks.
  rewrite Hu. simpl. rewrite Hr. simpl. rewrite Hp. simpl. rewrite Hv. simpl.
  rewrite Hl. simpl. rewrite Hlang. simpl.
  simpl in Hinc. rewrite Hinc. reflexivity.
Qed.

(** X5: a parsed reply whose answer is truthy, whose confidence is one of
    the three levels and whose sources and suggestions are arrays comes
    out of the normalization unchanged. *)
Theorem X5_conforming_reply_is_kept_unchanged :
  forall props : list (JsString * JsValue),
    Js.truthy (Js.prop (VObj props) (js "answer")) = true ->
    Js.strIncludes validConfidenceLevels (Js.prop (VObj props) (js "confidence")) = true ->
    Js.isArray (Js.prop (VObj props) (js "sources")) = true ->
    Js.isArray (Js.prop (VObj props) (js "suggestions")) = true ->
    normalizeResponse (VObj props) = Ok (VObj props).
Proof.
  intros props Ha Hc Hs Hg. unfold normalizeResponse.
  simpl in *. rewrite Ha. simpl. rewrite Hc. simpl. rewrite Hs. simpl.
  rewrite Hg. reflexivity.
Qed.

Lemma askGeminiChecks_needs_key env data context checked :
  askGeminiChecks env data context = Ok checked -> apiKeyMissing env = false.
Proof.
  unfold askGeminiChecks. simpl.
  destruct (validateAuth context) as [u0|e]; simpl; [|discriminate].
  destruct (validateRequiredFields data _) as [[]|e]; simpl; [|discriminate].
  destruct (Js.get data (js "question")) as [rawQuestion|e]; simpl; [|discriminate].
  destruct (validateTextLength rawQuestion 1000) as [q|e]; simpl; [|discriminate].
  destruct (Js.get data (js "language")) as [rawLanguage|e]; simpl; [|discriminate].
  destruct (validateLanguage rawLanguage) as [l|e]; simpl; [|discriminate].
  destruct (Js.get data (js "farmProfile")) as [fp|e]; simpl; [|discriminate].
  destruct (negb (Js.truthy fp) || negb (Js.typeofObject fp)); simpl; [discriminate|].
  destruct (apiKeyMissing env); simpl; [discriminate | reflexivity].
Qed.

(** X6: when the Gemini API key is not configured (absent, empty or the
    placeholder), askGemini fails without making any call. *)
Theorem X6_no_call_without_api_key :
  forall (world : World) (env : Env) (data : JsValue) (context : CallableContext),
    apiKeyMissing env = true ->
    exists err : HttpsError,
      run world (askGemini env data context) = (inl err, []).
Proof.
  intros world env data context Hkey.
  rewrite run_askGemini. unfold askGeminiOutcome.
  destruct (askGeminiChecks env data context) as [checked|e] eqn:Ec.
  - apply askGeminiChecks_needs_key in Ec. congruence.
  - eauto.
Qed.

(** X7: when synthesizeSpeech succeeds, the storage path it returns is
    where it saved the audio, and lies under "audio/<uid>/" for the uid of
    the caller. *)
Theorem X7_synthesized_audio_is_stored_under_the_caller :
  forall (world : World) (env : Env) (data : JsValue) (context : CallableContext)
         (res : SynthesisResult),
    fst (run world (synthesizeSpeech env data context)) = inr res ->
    exists u content metadata,
      validateAuth context = Ok u /\
      Str.startsWith (storagePath res) (js "audio/" ++ u ++ js "/") = true /\
      In (FileSave (storagePath res) content metadata)
         (snd (run world (synthesizeSpeech env data context))) /\
      fm_userId metadata = u.
Proof.
  intros world env data context res H.
  rewrite run_synthesizeSpeech in *. unfold synthesizeSpeechOutcome in *.
  destruct (synthesizeSpeechChecks data context) as [[[u text] l]|e] eqn:Ec;
    [|discriminate].
  assert (Hu : validateAuth context = Ok u).
  { unfold synthesizeSpeechChecks in Ec. simpl in Ec.
    destruct (validateAuth context) as [u0|e0]; simpl in Ec; [|discriminate].
    repeat match type of Ec with
           | match ?x with _ => _ end = _ => destruct x; simpl in Ec; try discriminate
           end.
    injection Ec as -> _ _. reflexivity. }
  destruct (world [] (SynthesizeSpeech _)) as [response|e]; [|discriminate].
  destruct (audioContent response) as [content|]; [|discriminate].
  destruct (world _ DateNow) as [timestamp|e]; [|discriminate].
  destruct (world _ NowISOString) as [generatedAt|e]; [|discriminate].
  destruct (world _ (FileSave _ _ _)) as [[]|e]; [|discriminate].
  destruct (world _ DateNow) as [now|e]; [|discriminate].
  destruct (world _ (GetSignedUrl _ _ _)) as [url|e]; [|discriminate].
  injection H as <-. simpl storagePath.
  exists u, content, (mkFileMetadata (js "audio/mpeg") u l generatedAt).
  split; [exact Hu|]. split.
  - apply startsWith_prefix.
    exists (js "response-" ++ timestampString timestamp ++ js ".mp3").
    rewrite <- !app_assoc. reflexivity.
  - split; [|reflexivity]. simpl. auto.
Qed.

(* ===================================================================== *)
(** * Strings: trimming twice, searching *)
(* ===================================================================== *)

Lemma trimStart_id (s : JsString) :
  (forall c rest, s = c :: rest -> Str.isWhiteSpace c = false) -> Str.trimStart s = s.
Proof.
  destruct s as [|c s]; [reflexivity|].
  intros H. simpl. rewrite (H c s eq_refl). reflexivity.
Qed.

Lemma trimEnd_id (s : JsString) :
  (forall init c, s = init ++ [c] -> Str.isWhiteSpace c = false) -> Str.trimEnd s = s.
Proof.
  intros H. unfold Str.trimEnd. rewrite trimStart_id; [apply rev_involutive|].
  intros c rest E. apply (H (rev rest) c).
  rewrite <- (rev_involutive s), E. reflexivity.
Qed.

Lemma trim_id (s : JsString) : isTrimmed s -> Str.trim s = s.
Proof.
  intros [Hs He]. unfold Str.trim.
  rewrite (trimStart_id s Hs). apply trimEnd_id. exact He.
Qed.

Lemma trim_In (s : JsString) (c : N) : In c (Str.trim s) -> In c s.
Proof.
  intros H. unfold Str.trim in H.
  destruct (trimStart_suffix s) as [pre Hpre].
  destruct (trimEnd_prefix (Str.trimStart s)) as [post Hpost].
  rewrite Hpre, Hpost. apply in_or_app. right. apply in_or_app. left. exact H.
Qed.

Lemma filter_all {A} (f : A -> bool) (l : list A) :
  (forall x, In x l -> f x = true) -> filter f l = l.
Proof.
  induction l as [|x l IH]; [reflexivity|].
  intros H. simpl. rewrite (H x (or_introl eq_refl)).
  f_equal. apply IH. intros y Hy. apply H. right. exact Hy.
Qed.

Lemma includes_infix (a p b : JsString) : Str.includes (a ++ p ++ b) p = true.
Proof.
  induction a as [|c a IH].
  - simpl app. destruct (p ++ b) eqn:E; simpl.
    + destruct p; [reflexivity|discriminate].
    + rewrite <- E, startsWith_app. reflexivity.
  - simpl. rewrite IH. apply orb_true_r.
Qed.

Lemma includes_spec (s p : JsString) :
  Str.includes s p = true <-> exists a b, s = a ++ p ++ b.
Proof.
  split.
  - induction s as [|c s IH]; simpl; intros H.
    + apply orb_true_iff in H. destruct H as [H|H]; [|discriminate].
      apply startsWith_prefix in H. destruct H as [rest ->]. exists [], rest. reflexivity.
    + apply orb_true_iff in H. destruct H as [H|H].
      * apply startsWith_prefix in H. destruct H as [rest ->]. exists [], rest. reflexivity.
      * destruct (IH H) as (a & b & ->). exists (c :: a), b. reflexivity.
  - intros (a & b & ->). apply includes_infix.
Qed.

Lemma startsWith_includes (s p : JsString) :
  Str.startsWith s p = true -> Str.includes s p = true.
Proof.
  intros H. apply startsWith_prefix in H. destruct H as [rest ->].
  apply (includes_infix [] p rest).
Qed.

(** X10: on a string, sanitizeInput returns a string made of characters
    of the input only, none of them [<] or [>], without white space at
    either end and no longer than the input; sanitizing the result again
    changes nothing. A value that is not a string is returned as it is. *)
Theorem X10_sanitizeInput_strips_angle_brackets_and_trims :
  forall input : JsValue,
    match input with
    | VStr s =>
        exists t,
          sanitizeInput input = VStr t /\
          (forall c, In c t -> In c s /\ c <> 60%N /\ c <> 62%N) /\
          isTrimmed t /\
          (List.length t <= List.length s)%nat /\
          sanitizeInput (VStr t) = VStr t
    | _ => sanitizeInput input = input
    end.
Proof.
  intros [| | | |s| |]; try reflexivity.
  set (keep := fun c : N => negb ((c =? 60) || (c =? 62))%N).
  exists (Str.trim (filter keep s)).
  assert (Hin : forall c, In c (Str.trim (filter keep s)) ->
                          In c s /\ c <> 60%N /\ c <> 62%N).
  { intros c Hc. apply trim_In in Hc. apply filter_In in Hc. destruct Hc as [Hc Hk].
    split; [exact Hc|]. unfold keep in Hk.
    apply negb_true_iff, orb_false_iff in Hk. destruct Hk as [H1 H2].
    split; apply N.eqb_neq; assumption. }
  split; [reflexivity|]. split; [exact Hin|]. split; [apply trim_isTrimmed|]. split.
  - etransitivity; [apply trim_length|]. apply filter_length_le.
  - unfold sanitizeInput. fold keep. f_equal.
    rewrite filter_all.
    + apply trim_id, trim_isTrimmed.
    + intros c Hc. destruct (Hin c Hc) as (_ & H1 & H2). unfold keep.
      apply N.eqb_neq in H1, H2. rewrite H1, H2. reflexivity.
Qed.

(** X11: whatever the request and the outside world, a failure of
    askGemini is either the failed-precondition error with the fixed text
    about the API key, or an internal error whose message is "Failed to
    get AI response: " followed by a message that does not mention "API
    key"; a failure of transcribeAudio or synthesizeSpeech is always an
    internal error with the handler's own prefix. No handler reports any
    other error code. *)
Theorem X11_handler_failures_are_internal_or_failed_precondition :
  forall (world : World) (env : Env) (data : JsValue) (context : CallableContext),
    match fst (run world (askGemini env data context)) with
    | inl err =>
        err = mkHttpsError (js "failed-precondition")
                (js "Gemini API key not configured. Please contact support.") \/
        exists msg,
          Str.includes msg (js "API key") = false /\
          err = mkHttpsError (js "internal") (js "Failed to get AI response: " ++ msg)
    | inr _ => True
    end /\
    match fst (run world (transcribeAudio env data context)) with
    | inl err =>
        exists msg,
          err = mkHttpsError (js "internal") (js "Failed to transcribe audio: " ++ msg)
    | inr _ => True
    end /\
    match fst (run world (synthesizeSpeech env data context)) with
    | inl err =>
        exists msg,
          err = mkHttpsError (js "internal") (js "Failed to synthesize speech: " ++ msg)
    | inr _ => True
    end.
Proof.
  intros world env data context.
  assert (Hask : forall e,
             askGeminiError e = mkHttpsError (js "failed-precondition")
                (js "Gemini API key not configured. Please contact support.") \/
             exists msg,
               Str.includes msg (js "API key") = false /\
               askGeminiError e =
               mkHttpsError (js "internal") (js "Failed to get AI response: " ++ msg)).
  { intros e. unfold askGeminiError.
    destruct (Str.includes (message e) (js "API key")) eqn:E; [left; reflexivity|].
    right. exists (message e). split; [exact E | reflexivity]. }
  split; [|split].
  - rewrite run_askGemini. unfold askGeminiOutcome.
    destruct (askGeminiChecks env data context) as [[[[[u q] l] fp] p]|e]; [|apply Hask].
    destruct (world [] _) as [text|e]; [|apply Hask].
    destruct (parseAIResponse text) as [ai|e]; [|apply Hask].
    destruct (world [_] _) as [chatId|e]; [|apply Hask].
    destruct (world [_; _] _) as [[]|e]; [exact I|apply Hask].
  - rewrite run_transcribeAudio. unfold transcribeAudioOutcome.
    destruct (transcribeAudioChecks data context) as [[[u p] l]|e];
      [|eexists; reflexivity].
    destruct (world [] _) as [[|]|e]; try (eexists; reflexivity).
    destruct (world [_] _) as [now|e]; [|eexists; reflexivity].
    destruct (world [_; _] _) as [url|e]; [|eexists; reflexivity].
    destruct (world [_; _; _] _) as [response|e]; [exact I|eexists; reflexivity].
  - rewrite run_synthesizeSpeech. unfold synthesizeSpeechOutcome.
    destruct (synthesizeSpeechChecks data context) as [[[u t] l]|e];
      [|eexists; reflexivity].
    destruct (world [] _) as [response|e]; [|eexists; reflexivity].
    destruct (audioContent response) as [content|]; [|eexists; reflexivity].
    destruct (world [_] _) as [ts|e]; [|eexists; reflexivity].
    destruct (world [_; _] _) as [iso|e]; [|eexists; reflexivity].
    destruct (world [_; _; _] _) as [[]|e]; [|eexists; reflexivity].
    destruct (world [_; _; _; _] _) as [now|e]; [|eexists; reflexivity].
    destruct (world [_; _; _; _; _] _) as [url|e]; [exact I|eexists; reflexivity].
Qed.

(* ===================================================================== *)
(** * The calls of the handlers *)
(* ===================================================================== *)

(** X12: transcribeAudio makes no call when a check fails, and otherwise
    only reads: it asks whether the validated path exists, reads the
    clock, asks for a signed read URL of that path that expires five
    minutes (300000 ms) after the clock reading, and calls the recognizer
    on gs://<bucket>/<path>, in this order, stopping at the first step
    that fails: after the existence check unless the file exists, after
    the clock or the signing when that one throws. It never writes. *)
Theorem X12_transcribeAudio_only_reads_in_a_fixed_order :
  forall (world : World) (env : Env) (data : JsValue) (context : CallableContext),
    snd (run world (transcribeAudio env data context)) =
    match transcribeAudioChecks data context with
    | Throw _ => []
    | Ok (u, path, language) =>
        let exist := FileExists path in
        match world [] exist with
        | Ok true =>
            match world [exist] DateNow with
            | Ok now =>
                let sign := GetSignedUrl path (js "read") (now + 300000)%Z in
                match world [exist; DateNow] sign with
                | Ok _ =>
                    [exist; DateNow; sign; Recognize (recognizeRequestOf env path language)]
                | Throw _ => [exist; DateNow; sign]
                end
            | Throw _ => [exist; DateNow]
            end
        | Ok false | Throw _ => [exist]
        end
    end.
Proof.
  intros world env data context.
  rewrite run_transcribeAudio. unfold transcribeAudioOutcome.
  destruct (transcribeAudioChecks data context) as [[[u p] l]|e]; [|reflexivity].
  cbv zeta.
  destruct (world [] _) as [[|]|e]; try reflexivity.
  destruct (world [_] _) as [now|e]; [|reflexivity].
  change (now + 5 * 60 * 1000)%Z with (now + 300000)%Z.
  destruct (world [_; _] _) as [url|e]; [|reflexivity].
  destruct (world [_; _; _] _) as [response|e]; reflexivity.
Qed.

(** X13: when the checks pass and the blob store answers that the file
    does not exist, transcribeAudio fails with "Audio file not found" (as
    an internal error) after that single call: no URL is signed and the
    recognizer is not called. *)
Theorem X13_missing_audio_file_is_not_transcribed :
  forall (world : World) (env : Env) (data : JsValue) (context : CallableContext)
         (u path language : JsString),
    transcribeAudioChecks data context = Ok (u, path, language) ->
    world [] (FileExists path) = Ok false ->
    run world (transcribeAudio env data context) =
    (inl (mkHttpsError (js "internal")
            (js "Failed to transcribe audio: Audio file not found")),
     [FileExists path]).
Proof.
  intros world env data context u path language Hc He.
  rewrite run_transcribeAudio. unfold transcribeAudioOutcome.
  rewrite Hc, He. reflexivity.
Qed.

(** X14: when the provider returns no audio content, synthesizeSpeech
    fails with "No audio content generated" (as an internal error),
    having made the synthesis call only: nothing is saved. *)
Theorem X14_no_audio_content_stores_nothing :
  forall (world : World) (env : Env) (data : JsValue) (context : CallableContext)
         (u text language : JsString) (response : SynthesisResponse),
    synthesizeSpeechChecks data context = Ok (u, text, language) ->
    world [] (SynthesizeSpeech (synthesisRequestOf text language)) = Ok response ->
    audioContent response = None ->
    run world (synthesizeSpeech env data context) =
    (inl (mkHttpsError (js "internal")
            (js "Failed to synthesize speech: No audio content generated")),
     [SynthesizeSpeech (synthesisRequestOf text language)]).
Proof.
  intros world env data context u text language response Hc Hw Ha.
  rewrite run_synthesizeSpeech. unfold synthesizeSpeechOutcome.
  rewrite Hc, Hw, Ha. reflexivity.
Qed.

Lemma synthesizeSpeechChecks_text data context u text language :
  synthesizeSpeechChecks data context = Ok (u, text, language) ->
  validateAuth context = Ok u /\
  exists rawText,
    Js.get data (js "text") = Ok rawText /\
    validateTextLength rawText 5000 = Ok text.
Proof.
  unfold synthesizeSpeechChecks. simpl.
  destruct (validateAuth context) as [u0|e]; simpl; [|discriminate].
  destruct (validateRequiredFields data _) as [[]|e]; simpl; [|discriminate].
  destruct (Js.get data (js "text")) as [rawText|e]; simpl; [|discriminate].
  destruct (validateTextLength rawText 5000) as [t|e] eqn:Et; simpl; [|discriminate].
  destruct (Js.get data (js "language")) as [rawLanguage|e]; simpl; [|discriminate].
  destruct (validateLanguage rawLanguage) as [l|e]; simpl; [|discriminate].
  intros H. injection H as -> -> ->. split; [reflexivity|]. exists rawText. auto.
Qed.

(** What a successful run of synthesizeSpeech has done. *)
Lemma synthesizeSpeech_success world env data context res calls :
  run world (synthesizeSpeech env data context) = (inr res, calls) ->
  exists u text language content timestamp generatedAt now,
    synthesizeSpeechChecks data context = Ok (u, text, language) /\
    let synth := SynthesizeSpeech (synthesisRequestOf text language) in
    let fileName := js "audio/" ++ u ++ js "/response-" ++ timestampString timestamp
                    ++ js ".mp3" in
    let save := FileSave fileName content
                  (mkFileMetadata (js "audio/mpeg") u language generatedAt) in
    let sign := GetSignedUrl fileName (js "read") (now + 604800000)%Z in
    calls = [synth; DateNow; NowISOString; save; DateNow; sign] /\
    world [] synth = Ok (mkSynthesisResponse (Some content)) /\
    world [synth] DateNow = Ok timestamp /\
    storagePath res = fileName /\
    world [synth; DateNow; NowISOString; save] DateNow = Ok now /\
    world [synth; DateNow; NowISOString; save; DateNow] sign = Ok (audioUrl res).
Proof.
  rewrite run_synthesizeSpeech. unfold synthesizeSpeechOutcome.
  destruct (synthesizeSpeechChecks data context) as [[[u text] l]|e] eqn:Ec;
    [|discriminate].
  destruct (world [] (SynthesizeSpeech _)) as [[content]|e] eqn:E1; [|discriminate].
  cbn [audioContent].
  destruct content as [content|]; [|discriminate].
  destruct (world [_] DateNow) as [timestamp|e] eqn:E2; [|discriminate].
  destruct (world [_; _] NowISOString) as [generatedAt|e]; [|discriminate].
  destruct (world [_; _; _] (FileSave _ _ _)) as [[]|e]; [|discriminate].
  destruct (world [_; _; _; _] DateNow) as [now|e] eqn:E3; [|discriminate].
  destruct (world [_; _; _; _; _] (GetSignedUrl _ _ _)) as [url|e] eqn:E4;
    [|discriminate].
  intros H. injection H as <- <-. cbn [storagePath audioUrl].
  exists u, text, l, content, timestamp, generatedAt, now.
  split; [reflexivity|]. split; [reflexivity|]. split; [exact E1|]. split; [exact E2|].
  split; [reflexivity|]. split; [exact E3 | exact E4].
Qed.

(** X15: a successful synthesizeSpeech was given a text of 1 to 5000
    code units, sent its trimmed form to the provider, saved exactly the
    audio content the provider returned, as audio/mpeg with the caller
    and the language in the metadata, under
    audio/<uid>/response-<clock reading>.mp3, and returns the URL signed
    for that file with an expiry seven days (604800000 ms) after a second
    clock reading. These six calls are all it makes. *)
Theorem X15_synthesizeSpeech_saves_what_the_provider_returned :
  forall (world : World) (env : Env) (data : JsValue) (context : CallableContext)
         (res : SynthesisResult),
    fst (run world (synthesizeSpeech env data context)) = inr res ->
    exists u s language content timestamp generatedAt now,
      validateAuth context = Ok u /\
      Js.get data (js "text") = Ok (VStr s) /\
      (0 < List.length s <= 5000)%nat /\
      let synth := SynthesizeSpeech (synthesisRequestOf (Str.trim s) language) in
      let save := FileSave (storagePath res) content
                    (mkFileMetadata (js "audio/mpeg") u language generatedAt) in
      let sign := GetSignedUrl (storagePath res) (js "read") (now + 604800000)%Z in
      snd (run world (synthesizeSpeech env data context)) =
        [synth; DateNow; NowISOString; save; DateNow; sign] /\
      world [] synth = Ok (mkSynthesisResponse (Some content)) /\
      world [synth] DateNow = Ok timestamp /\
      storagePath res =
        js "audio/" ++ u ++ js "/response-" ++ timestampString timestamp ++ js ".mp3" /\
      world [synth; DateNow; NowISOString; save] DateNow = Ok now /\
      world [synth; DateNow; NowISOString; save; DateNow] sign = Ok (audioUrl res).
Proof.
  intros world env data context res H.
  destruct (run world (synthesizeSpeech env data context)) as [out calls] eqn:Er.
  cbn [fst] in H. subst out.
  destruct (synthesizeSpeech_success _ _ _ _ _ _ Er)
    as (u & text & l & content & ts & iso & now & Ec & Hrest).
  cbv zeta in Hrest. destruct Hrest as (Hcalls & H1 & H2 & Hp & H3 & H4).
  destruct (synthesizeSpeechChecks_text _ _ _ _ _ Ec) as (Hu & rawText & Hget & Hlen).
  apply validateTextLength_Ok in Hlen. destruct Hlen as (s & -> & Hne & Hle & ->).
  exists u, s, l, content, ts, iso, now.
  split; [exact Hu|]. split; [exact Hget|]. split.
  - split; [destruct s; [congruence | simpl; lia] | lia].
  - cbv zeta. cbn [snd]. rewrite Hp.
    split; [exact Hcalls|]. split; [exact H1|]. split; [exact H2|].
    split; [reflexivity|]. split; [exact H3 | exact H4].
Qed.

(** X16: askGemini calls out at most three times, in this order: the
    model "gemini-1.5-flash" once, then the reference of a new chat
    document, then the write. The reference is only asked for after the
    model has replied and the reply has been parsed, it lies under the
    authenticated caller, and the write goes to the id that was
    generated. *)
Theorem X16_askGemini_calls_the_model_once_and_writes_after_parsing :
  forall (world : World) (env : Env) (data : JsValue) (context : CallableContext),
    match snd (run world (askGemini env data context)) with
    | [] => True
    | [GenerateContent model prompt] => model = js "gemini-1.5-flash"
    | GenerateContent model prompt :: NewChatRef u :: rest =>
        model = js "gemini-1.5-flash" /\
        validateAuth context = Ok u /\
        (exists responseText aiResponse,
            world [] (GenerateContent model prompt) = Ok responseText /\
            parseAIResponse responseText = Ok aiResponse) /\
        match rest with
        | [] => True
        | [ChatSet u' chatId _] =>
            u' = u /\
            world [GenerateContent model prompt] (NewChatRef u) = Ok chatId
        | _ => False
        end
    | _ => False
    end.
Proof.
  intros world env data context.
  rewrite run_askGemini. unfold askGeminiOutcome.
  destruct (askGeminiChecks env data context) as [[[[[u q] l] fp] p]|e] eqn:Ec;
    [|exact I].
  assert (Hu : validateAuth context = Ok u).
  { unfold askGeminiChecks in Ec. simpl in Ec.
    destruct (validateAuth context) as [u0|e0]; simpl in Ec; [|discriminate].
    repeat match type of Ec with
           | match ?x with _ => _ end = _ => destruct x; simpl in Ec; try discriminate
           | (if ?x then _ else _) = _ => destruct x; simpl in Ec; try discriminate
           end.
    injection Ec as -> _ _ _ _. reflexivity. }
  destruct (world [] _) as [text|e] eqn:E1; [|reflexivity].
  destruct (parseAIResponse text) as [ai|e] eqn:E2; [|reflexivity].
  destruct (world [_] _) as [chatId|e] eqn:E3.
  - destruct (world [_; _] _) as [[]|e]; simpl;
      (split; [reflexivity|]; split; [exact Hu|]; split; [eauto|]; split;
       [reflexivity | exact E3]).
  - simpl. split; [reflexivity|]. split; [exact Hu|]. split; [eauto | exact I].
Qed.

(** X17: the storage path that a successful synthesizeSpeech returns
    passes every check of transcribeAudio for the same caller (required
    fields, path format, language, ownership), for each supported
    language. *)
Theorem X17_synthesized_path_passes_the_transcription_checks :
  forall (world : World) (env : Env) (data : JsValue) (context : CallableContext)
         (res : SynthesisResult) (language : JsString),
    fst (run world (synthesizeSpeech env data context)) = inr res ->
    In language supportedLanguages ->
    exists u,
      validateAuth context = Ok u /\
      transcribeAudioChecks
        (VObj [(js "audioPath", VStr (storagePath res)); (js "language", VStr language)])
        context
      = Ok (u, storagePath res, language).
Proof.
  intros world env data context res language H Hl.
  destruct (run world (synthesizeSpeech env data context)) as [out calls] eqn:Er.
  cbn [fst] in H. subst out.
  destruct (synthesizeSpeech_success _ _ _ _ _ _ Er)
    as (u & text & l & content & ts & iso & now & Ec & Hrest).
  cbv zeta in Hrest. destruct Hrest as (_ & _ & _ & Hp & _).
  destruct (synthesizeSpeechChecks_text _ _ _ _ _ Ec) as (Hu & _).
  exists u. split; [exact Hu|].
  assert (Hinc : Str.includes (storagePath res) (js "audio/" ++ u ++ js "/") = true).
  { apply startsWith_includes, startsWith_prefix.
    exists (js "response-" ++ timestampString ts ++ js ".mp3").
    rewrite Hp, <- !app_assoc. reflexivity. }
  unfold transcribeAudioChecks. rewrite Hu.
  destruct (storagePath res) as [|c path] eqn:Epath; [discriminate|].
  injection Hp as -> Hp. subst path.
  simpl in Hl. destruct Hl as [<-|[<-|[<-|[<-|[]]]]];
    simpl in Hinc |- *; rewrite Hinc; reflexivity.
Qed.

(* ===================================================================== *)
(** * What reaches the prompt, and what is reported as a configuration error *)
(* ===================================================================== *)

(** X18: the prompt that buildAgriculturalPrompt returns ends with
    "FARMER'S QUESTION: ", the question and the closing reminder; it
    contains the question exactly as given (nothing is escaped or
    removed), and its instruction 3 names the language by the name the
    table gives for the code. *)
Theorem X18_prompt_carries_the_question_and_the_language_name :
  forall (farmProfile : JsValue) (language question prompt : JsString),
    buildAgriculturalPrompt farmProfile language question = Ok prompt ->
    (exists before,
        prompt = before ++ js "FARMER'S QUESTION: " ++ question ++ newline ++ newline
                 ++ js "Remember: Respond ONLY with valid JSON. No additional text before or after the JSON object.") /\
    Str.includes prompt question = true /\
    (forall name,
        In (language, name) languageNames ->
        Str.includes prompt
          (js "3. Answer in " ++ name ++ js " - the farmer's preferred language.") = true).
Proof.
  intros farmProfile language question prompt H.
  destruct (buildAgriculturalPrompt_fields _ _ _ _ H) as (c & -> & _).
  split; [|split].
  - exists (promptHeader ++ promptContext c
            ++ promptInstructions (languageNameOf language) (ctx_state c)
            ++ promptFormat (languageNameOf language) ++ promptGuidelines).
    unfold renderPrompt, promptQuestion. rewrite <- !app_assoc. reflexivity.
  - apply includes_spec.
    exists (promptHeader ++ promptContext c
            ++ promptInstructions (languageNameOf language) (ctx_state c)
            ++ promptFormat (languageNameOf language) ++ promptGuidelines
            ++ js "FARMER'S QUESTION: "),
           (newline ++ newline
            ++ js "Remember: Respond ONLY with valid JSON. No additional text before or after the JSON object.").
    unfold renderPrompt, promptQuestion. rewrite <- !app_assoc. reflexivity.
  - intros name Hin.
    assert (Hname : languageNameOf language = name).
    { simpl in Hin.
      destruct Hin as [E|[E|[E|[E|[]]]]]; injection E as <- <-; reflexivity. }
    rewrite <- Hname. apply includes_spec.
    exists (promptHeader ++ promptContext c
            ++ js "INSTRUCTIONS:" ++ newline
            ++ js "1. Answer the farmer's question accurately and practically, considering their specific farm context." ++ newline
            ++ js "2. Provide actionable advice that the farmer can implement immediately." ++ newline),
           (newline
            ++ js "4. Keep answers concise but comprehensive (2-4 paragraphs maximum)." ++ newline
            ++ js "5. Include specific product names, dosages, or techniques when relevant (with local market names)." ++ newline
            ++ js "6. Mention if the farmer should consult a local agricultural officer, Krishi Vigyan Kendra (KVK), or veterinarian for serious issues." ++ newline
            ++ js "7. Consider regional practices common to " ++ ctx_state c ++ js "." ++ newline
            ++ js "8. If the question is about government schemes, mention eligibility and application process." ++ newline
            ++ js "9. Always prioritize safe, sustainable, and cost-effective solutions." ++ newline
            ++ newline
            ++ promptFormat (languageNameOf language) ++ promptGuidelines
            ++ promptQuestion question).
    unfold renderPrompt, promptInstructions. rewrite <- !app_assoc. reflexivity.
Qed.

(** X19: a farm profile whose crops field is present but is not an array
    (a string, say) makes askGemini fail with an internal error after all
    the validations have passed and before the model is called. *)
Theorem X19_crops_that_are_no_array_fail_the_request_before_the_model_call :
  forall (world : World) (env : Env) (data : JsValue) (context : CallableContext)
         (u question language : JsString) (rawQuestion rawLanguage : JsValue)
         (props : list (JsString * JsValue)),
    validateAuth context = Ok u ->
    validateRequiredFields data [js "question"; js "farmProfile"; js "language"] = Ok tt ->
    Js.get data (js "question") = Ok rawQuestion ->
    validateTextLength rawQuestion 1000 = Ok question ->
    Js.get data (js "language") = Ok rawLanguage ->
    validateLanguage rawLanguage = Ok language ->
    Js.get data (js "farmProfile") = Ok (VObj props) ->
    apiKeyMissing env = false ->
    Js.prop (VObj props) (js "crops") <> VUndefined ->
    Js.prop (VObj props) (js "crops") <> VNull ->
    Js.isArray (Js.prop (VObj props) (js "crops")) = false ->
    exists msg,
      run world (askGemini env data context) =
      (inl (mkHttpsError (js "internal") (js "Failed to get AI response: " ++ msg)), []).
Proof.
  intros world env data context u question language rawQuestion rawLanguage props
         Hu Hr Hq Hv Hl Hlang Hfp Hkey Hnu Hnn Harr.
  exists (js "farmProfile.crops?.join is not a function").
  rewrite run_askGemini. unfold askGeminiOutcome, askGeminiChecks.
  rewrite Hu. simpl bind. rewrite Hr. simpl bind. rewrite Hq. simpl bind.
  rewrite Hv. simpl bind. rewrite Hl. simpl bind. rewrite Hlang. simpl bind.
  rewrite Hfp. simpl bind. cbn [Js.truthy Js.typeofObject negb orb].
  rewrite Hkey.
  unfold buildAgriculturalPrompt. cbv zeta. cbn [Js.get]. simpl bind.
  unfold cropsOf.
  destruct (Js.prop (VObj props) (js "crops")); try congruence; try discriminate;
    reflexivity.
Qed.

(** X20: an unsupported language code whose text contains "API key"
    makes askGemini report the failed-precondition error "Gemini API key
    not configured. Please contact support.", whether or not the key is
    configured, without any call. *)
Theorem X20_language_mentioning_API_key_is_reported_as_missing_key :
  forall (world : World) (env : Env) (data : JsValue) (context : CallableContext)
         (u question language : JsString) (rawQuestion : JsValue),
    validateAuth context = Ok u ->
    validateRequiredFields data [js "question"; js "farmProfile"; js "language"] = Ok tt ->
    Js.get data (js "question") = Ok rawQuestion ->
    validateTextLength rawQuestion 1000 = Ok question ->
    Js.get data (js "language") = Ok (VStr language) ->
    Str.includes language (js "API key") = true ->
    run world (askGemini env data context) =
    (inl (mkHttpsError (js "failed-precondition")
            (js "Gemini API key not configured. Please contact support.")), []).
Proof.
  intros world env data context u question language rawQuestion
         Hu Hr Hq Hv Hl Hinc.
  assert (Hns : Js.strIncludes supportedLanguages (VStr language) = false).
  { destruct (Js.strIncludes supportedLanguages (VStr language)) eqn:E; [|reflexivity].
    apply strIncludes_In in E. destruct E as (s & Es & Hin). injection Es as <-.
    simpl in Hin. destruct Hin as [<-|[<-|[<-|[<-|[]]]]]; vm_compute in Hinc; discriminate. }
  rewrite run_askGemini. unfold askGeminiOutcome, askGeminiChecks.
  rewrite Hu. simpl bind. rewrite Hr. simpl bind. rewrite Hq. simpl bind.
  rewrite Hv. simpl bind. rewrite Hl. simpl bind.
  unfold validateLanguage. rewrite Hns, orb_true_r.
  unfold unsupportedLanguage, throwError. unfold askGeminiError. cbn [message].
  replace (Str.includes _ (js "API key")) with true; [reflexivity|].
  symmetry. apply includes_spec in Hinc. destruct Hinc as (a & b & ->).
  apply includes_spec.
  exists (js "Unsupported language: " ++ a),
         (b ++ js ". Supported: " ++ Str.join (js ", ") supportedLanguages).
  rewrite <- !app_assoc. reflexivity.
Qed.

(* ===================================================================== *)
(** * The chat service of the web client *)
(* ===================================================================== *)

Lemma messageOr_nonempty (error : ClientError) (fallback : JsString) :
  fallback <> [] -> messageOr error fallback <> [].
Proof.
  unfold messageOr. destruct (err_message error); [auto | discriminate].
Qed.

Lemma askQuestionError_nonempty (error : ClientError) :
  message (askQuestionError error) <> [].
Proof.
  unfold askQuestionError.
  repeat match goal with
         | |- context [if ?b then _ else _] => destruct b; [discriminate|]
         end.
  apply messageOr_nonempty. discriminate.
Qed.

(** X21: askQuestion either sends nothing and fails with "Question is
    required and must be a non-empty string" (then the question is not a
    string with anything but white space in it), or sends exactly one
    request, which carries the trimmed question, the farm profile (null
    by default) and the language ("en" by default). The message of an
    error it throws is never empty. *)
Theorem X21_askQuestion_sends_one_trimmed_question_or_nothing :
  forall (callable : Callable) (question farmProfile language : JsValue),
    match snd (askQuestion callable question farmProfile language) with
    | [] =>
        fst (askQuestion callable question farmProfile language)
          = inl (mkError questionRequired) /\
        (forall s, question = VStr s -> Str.trim s = [])
    | [request] =>
        exists s,
          question = VStr s /\ Str.trim s <> [] /\
          request = VObj [ (js "language", orDefault language (VStr (js "en")));
                           (js "farmProfile", orDefault farmProfile VNull);
                           (js "question", VStr (Str.trim s)) ]
    | _ => False
    end /\
    (forall e, fst (askQuestion callable question farmProfile language) = inl e ->
               message e <> []).
Proof.
  intros callable question farmProfile language.
  unfold askQuestion, askQuestionBody.
  destruct question as [| | | |[|c s]| |];
    try (split; [split; [reflexivity | intros s0 E; discriminate E]
                | intros e E; injection E as <-; discriminate]).
  - split; [split; [reflexivity | intros s0 E; injection E as <-; reflexivity]
           | intros e E; injection E as <-; discriminate].
  - destruct (Str.trim (c :: s)) as [|t0 t] eqn:Et.
    + split; [split; [reflexivity | intros s0 E; injection E as <-; exact Et]
             | intros e E; injection E as <-; discriminate].
    + unfold askQuestionRequest. rewrite Et.
      set (request := VObj _).
      destruct (callable request) as [error|data].
      * split.
        -- exists (c :: s). rewrite Et. repeat split. discriminate.
        -- intros e E. injection E as <-. apply askQuestionError_nonempty.
      * destruct (Js.truthy data); cbn [negb]; split;
          try (exists (c :: s); rewrite Et; repeat split; discriminate).
        -- intros e E. discriminate E.
        -- intros e E. injection E as <-. discriminate.
Qed.

(** X22: given the object that askGemini returns, askQuestion returns
    its answer and its chatId with success: true; the timestamp and the
    language of the result are undefined, since askGemini returns
    neither, and confidence, sources and suggestions are not passed
    on. *)
Theorem X22_askQuestion_keeps_only_answer_and_chatId :
  forall (callable : Callable) (s : JsString) (farmProfile language : JsValue)
         (r : AskGeminiResult),
    Str.trim s <> [] ->
    callable (askQuestionRequest s (orDefault farmProfile VNull)
                                 (orDefault language (VStr (js "en"))))
      = inr (responseData r) ->
    fst (askQuestion callable (VStr s) farmProfile language) =
    inr (mkAskQuestionResult true (res_answer r) (VStr (res_chatId r))
                             VUndefined VUndefined).
Proof.
  intros callable s farmProfile language r Ht Hc.
  unfold askQuestion, askQuestionBody.
  destruct s as [|c s]; [exfalso; apply Ht; reflexivity|].
  destruct (Str.trim (c :: s)) as [|t0 t] eqn:Et; [congruence|].
  rewrite Hc. reflexivity.
Qed.

Lemma askQuestion_sent (callable : Callable) (question farmProfile language request : JsValue) :
  In request (snd (askQuestion callable question farmProfile language)) ->
  exists s,
    question = VStr s /\ Str.trim s <> [] /\
    request = askQuestionRequest s (orDefault farmProfile VNull)
                                 (orDefault language (VStr (js "en"))).
Proof.
  unfold askQuestion, askQuestionBody.
  destruct question as [| | | |[|c s]| |]; try (intros []).
  destruct (Str.trim (c :: s)) as [|t0 t] eqn:Et; [intros []|].
  set (req := askQuestionRequest _ _ _).
  assert (Hs : exists s0, VStr (c :: s) = VStr s0 /\ Str.trim s0 <> [] /\
                          req = askQuestionRequest s0 (orDefault farmProfile VNull)
                                  (orDefault language (VStr (js "en")))).
  { exists (c :: s). rewrite Et. repeat split. discriminate. }
  destruct (callable req) as [error|data].
  - intros [<-|[]]. exact Hs.
  - destruct (Js.truthy data); intros [<-|[]]; exact Hs.
Qed.

(** X23: the question in a request sent by askQuestion is a non-empty
    string; on the server it does not count as a missing field, and
    validateTextLength either rejects it as too long or returns it
    unchanged. A request that comes from askQuestion never leads to an
    empty question. *)
Theorem X23_question_sent_by_the_client_is_never_empty_on_the_server :
  forall (callable : Callable) (question farmProfile language request : JsValue),
    In request (snd (askQuestion callable question farmProfile language)) ->
    exists q,
      Js.get request (js "question") = Ok (VStr q) /\
      q <> [] /\
      isMissing (VStr q) = false /\
      validateTextLength (VStr q) 1000 =
        (if (1000 <? N.of_nat (List.length q))%N
         then throwError (js "Text too long. Maximum length: 1000 characters")
         else Ok q).
Proof.
  intros callable question farmProfile language request Hin.
  destruct (askQuestion_sent _ _ _ _ _ Hin) as (s & _ & Ht & ->).
  exists (Str.trim s). split; [reflexivity|]. split; [exact Ht|].
  pose proof (trim_id _ (trim_isTrimmed s)) as Hid.
  destruct (Str.trim s) as [|t0 t] eqn:Et; [congruence|].
  split; [reflexivity|].
  unfold validateTextLength.
  destruct (1000 <? N.of_nat (List.length (t0 :: t)))%N; [reflexivity|].
  rewrite Hid. reflexivity.
Qed.

(** X24: when the callable rejects with the code functions/internal or
    functions/failed-precondition (the two codes of the errors that
    askGemini raises), askQuestion rethrows the error's own message, or
    the generic one if that is empty: neither is one of the four codes
    the client translates. *)
Theorem X24_handler_error_codes_keep_their_message_on_the_client :
  forall (callable : Callable) (s : JsString) (farmProfile language : JsValue)
         (error : ClientError) (handlerCode : JsString),
    Str.trim s <> [] ->
    callable (askQuestionRequest s (orDefault farmProfile VNull)
                                 (orDefault language (VStr (js "en"))))
      = inl error ->
    err_code error = Some (js "functions/" ++ handlerCode) ->
    In handlerCode [js "internal"; js "failed-precondition"] ->
    fst (askQuestion callable (VStr s) farmProfile language) =
    inl (mkError (messageOr error (js "Failed to get answer from AI assistant"))).
Proof.
  intros callable s farmProfile language error handlerCode Ht Hc Hcode Hin.
  unfold askQuestion, askQuestionBody.
  destruct s as [|c s]; [exfalso; apply Ht; reflexivity|].
  destruct (Str.trim (c :: s)) as [|t0 t] eqn:Et; [congruence|].
  rewrite Hc. cbn [fst]. unfold askQuestionError, hasCode. rewrite Hcode.
  destruct Hin as [<-|[<-|[]]]; reflexivity.
Qed.

(** X25: the document that askGemini writes has no userId field, so
    getChatById, reading it back for any user and any chat id, fails with
    "You do not have permission to access this chat". *)
Theorem X25_getChatById_refuses_the_chats_that_askGemini_writes :
  forall (getDoc : GetDoc) (userId chatId id : JsString) (record : ChatRecord)
         (written : Z),
    userId <> [] ->
    chatId <> [] ->
    getDoc userId chatId = inr (mkSnapshot id (Some (chatDocument record written))) ->
    fieldOf (chatDocument record written) (js "userId") = None /\
    getChatById getDoc userId chatId =
    (inl (mkError (js "You do not have permission to access this chat")),
     [(userId, chatId)]).
Proof.
  intros getDoc userId chatId id record written Hu Hc Hdoc.
  split; [reflexivity|].
  unfold getChatById, getChatByIdBody.
  destruct userId as [|u0 userId]; [congruence|].
  destruct chatId as [|c0 chatId]; [congruence|].
  rewrite Hdoc. reflexivity.
Qed.

(** X26: getChatById returns a chat only if the stored document has a
    userId field that is the caller's id; it has then read exactly one
    document, and the chat consists of the document id under "id", the
    fields of the document over it, and over these a "timestamp" that is
    the Date of the stored Timestamp, or undefined if there is none. *)
Theorem X26_getChatById_returns_only_documents_that_name_the_caller :
  forall (getDoc : GetDoc) (userId chatId : JsString) (result : ChatByIdResult),
    fst (getChatById getDoc userId chatId) = inr result ->
    exists chatSnap chatData timestamp,
      snd (getChatById getDoc userId chatId) = [(userId, chatId)] /\
      getDoc userId chatId = inr chatSnap /\
      snap_data chatSnap = Some chatData /\
      fieldOf chatData (js "userId") = Some (CPlain (VStr userId)) /\
      result = mkChatByIdResult true
                 ((js "timestamp", timestamp) :: chatData
                  ++ [(js "id", CPlain (VStr (snap_id chatSnap)))]) /\
      (timestamp = CPlain VUndefined \/
       exists millis,
         fieldOf chatData (js "timestamp") = Some (CTimestamp millis) /\
         timestamp = CDate millis).
Proof.
  intros getDoc userId chatId result.
  unfold getChatById, getChatByIdBody.
  destruct userId as [|u0 userId]; [discriminate|].
  destruct chatId as [|c0 chatId]; [discriminate|].
  destruct (getDoc _ _) as [error|chatSnap]; [discriminate|].
  destruct (snap_data chatSnap) as [chatData|] eqn:Es; [|discriminate].
  unfold isOtherUser, toDateOf.
  destruct (fieldOf chatData (js "userId")) as [[[| | | |owner| |]| |]|] eqn:Eu;
    try discriminate.
  destruct (Str.eqb owner (u0 :: userId)) eqn:Eo; [|discriminate].
  apply Str_eqb_eq in Eo. subst owner. cbn [negb].
  assert (Hshape : forall timestamp,
    (timestamp = CPlain VUndefined \/
     exists millis,
       fieldOf chatData (js "timestamp") = Some (CTimestamp millis) /\
       timestamp = CDate millis) ->
    exists chatSnap0 chatData0 timestamp0,
      [(u0 :: userId, c0 :: chatId)] = [(u0 :: userId, c0 :: chatId)] /\
      @inr ClientError _ chatSnap = inr chatSnap0 /\
      snap_data chatSnap0 = Some chatData0 /\
      fieldOf chatData0 (js "userId") = Some (CPlain (VStr (u0 :: userId))) /\
      mkChatByIdResult true
        ((js "timestamp", timestamp) :: chatData
         ++ [(js "id", CPlain (VStr (snap_id chatSnap)))]) =
      mkChatByIdResult true
        ((js "timestamp", timestamp0) :: chatData0
         ++ [(js "id", CPlain (VStr (snap_id chatSnap0)))]) /\
      (timestamp0 = CPlain VUndefined \/
       exists millis,
         fieldOf chatData0 (js "timestamp") = Some (CTimestamp millis) /\
         timestamp0 = CDate millis)).
  { intros timestamp Ht. exists chatSnap, chatData, timestamp. auto 7. }
  destruct (fieldOf chatData (js "timestamp")) as [[v|millis|millis]|] eqn:Et.
  - destruct v; try discriminate; cbn [fst snd]; intros H; injection H as <-;
      apply Hshape; left; reflexivity.
  - cbn [fst snd]. intros H. injection H as <-.
    apply Hshape. right. exists millis. split; reflexivity.
  - discriminate.
  - cbn [fst snd]. intros H. injection H as <-. apply Hshape. left. reflexivity.
Qed.

(* ===================================================================== *)
(** * Helpers of the web client *)
(* ===================================================================== *)

(** X27: truncateText returns the text unchanged when it is empty or at
    most maxLength long; otherwise it returns its first maxLength code
    units followed by three dots, maxLength + 3 code units in all. The
    result is never more than two code units longer than the text. *)
Theorem X27_truncateText_adds_three_dots_to_the_cut :
  forall (text : JsString) (maxLength : Z),
    (text = [] \/ (Z.of_nat (List.length text) <= maxLength)%Z ->
     truncateText text maxLength = text) /\
    (text <> [] /\ (maxLength < Z.of_nat (List.length text))%Z ->
     truncateText text maxLength = firstn (Z.to_nat maxLength) text ++ js "..." /\
     List.length (truncateText text maxLength) = (Z.to_nat maxLength + 3)%nat) /\
    (List.length (truncateText text maxLength) <= List.length text + 2)%nat.
Proof.
  intros text maxLength. unfold truncateText.
  destruct text as [|c text].
  { split; [auto|]. split; [intros [H _]; congruence | simpl; lia]. }
  destruct (Z.leb_spec (Z.of_nat (List.length (c :: text))) maxLength) as [Hle|Hgt].
  - split; [auto|]. split; [intros [_ H]; lia | lia].
  - assert (Hlen : List.length (firstn (Z.to_nat maxLength) (c :: text) ++ js "...")
                   = (Z.to_nat maxLength + 3)%nat).
    { rewrite length_app, firstn_length_le; [reflexivity|]. lia. }
    split; [intros [H|H]; [discriminate | lia]|].
    split; [intros _; split; [reflexivity | exact Hlen]|]. rewrite Hlen.
    cbn [List.length] in *. lia.
Qed.

Lemma digitsOf_digits (s : JsString) : forallb isDigit (digitsOf s) = true.
Proof.
  apply forallb_forall. intros c Hc. apply filter_In in Hc. apply Hc.
Qed.

Lemma digitsOf_id (s : JsString) : forallb isDigit s = true -> digitsOf s = s.
Proof.
  intros H. apply filter_all. apply forallb_forall. exact H.
Qed.

(** A number already in display form is valid and is left as it is. *)
Lemma formatted_phone_fixed (a b : JsString) :
  List.length a = 5%nat -> List.length b = 5%nat ->
  forallb isDigit (a ++ b) = true ->
  let formatted := js "+91-" ++ a ++ js "-" ++ b in
  isValidPhoneNumber formatted = true /\
  formatPhoneNumber formatted = formatted.
Proof.
  intros Ha Hb Hd formatted.
  rewrite forallb_app in Hd. apply andb_true_iff in Hd. destruct Hd as [Hda Hdb].
  assert (Hclean : digitsOf formatted = js "91" ++ a ++ b).
  { unfold formatted, digitsOf. rewrite !filter_app.
    fold (digitsOf a). fold (digitsOf b).
    rewrite (digitsOf_id a Hda), (digitsOf_id b Hdb). reflexivity. }
  assert (Hlen : List.length (js "91" ++ a ++ b) = 12%nat).
  { rewrite !length_app, Ha, Hb. reflexivity. }
  assert (Hne : exists c rest, formatted = c :: rest) by (eexists; eexists; reflexivity).
  destruct Hne as (c & rest & Hne).
  unfold isValidPhoneNumber, formatPhoneNumber. rewrite Hne, <- Hne. cbv zeta.
  rewrite Hclean, Hlen. cbn [Nat.eqb orb andb].
  rewrite startsWith_app. split; [reflexivity|].
  unfold slice, formatted.
  change (skipn 2 (js "91" ++ a ++ b)) with (a ++ b).
  change (skipn 7 (js "91" ++ a ++ b)) with (skipn 5 (a ++ b)).
  rewrite firstn_app, skipn_app. change (7 - 2)%nat with 5%nat.
  rewrite (firstn_all2 (n := 5) a), (skipn_all2 (n := 5) a) by lia.
  rewrite Ha. cbn [Nat.sub firstn skipn app]. rewrite app_nil_r. reflexivity.
Qed.

(** X28: formatPhoneNumber and isValidPhoneNumber agree. A number that
    is valid (ten digits, or twelve starting with 91, other characters
    ignored) is displayed as +91-ddddd-ddddd with its last ten digits;
    the result is valid again and formatting it again changes nothing. A
    number that is not valid is returned as it is. *)
Theorem X28_formatPhoneNumber_agrees_with_isValidPhoneNumber :
  forall phoneNumber : JsString,
    if isValidPhoneNumber phoneNumber then
      exists a b,
        List.length a = 5%nat /\ List.length b = 5%nat /\
        forallb isDigit (a ++ b) = true /\
        (digitsOf phoneNumber = a ++ b \/ digitsOf phoneNumber = js "91" ++ a ++ b) /\
        formatPhoneNumber phoneNumber = js "+91-" ++ a ++ js "-" ++ b /\
        isValidPhoneNumber (formatPhoneNumber phoneNumber) = true /\
        formatPhoneNumber (formatPhoneNumber phoneNumber) = formatPhoneNumber phoneNumber
    else formatPhoneNumber phoneNumber = phoneNumber.
Proof.
  intros phoneNumber.
  destruct phoneNumber as [|c0 p]; [reflexivity|].
  unfold isValidPhoneNumber, formatPhoneNumber. cbv zeta.
  set (cleaned := digitsOf (c0 :: p)).
  pose proof (digitsOf_digits (c0 :: p)) as Hd. fold cleaned in Hd.
  destruct ((List.length cleaned =? 12)%nat && Str.startsWith cleaned (js "91")) eqn:E12.
  - apply andb_true_iff in E12. destruct E12 as [Hlen Hst].
    apply Nat.eqb_eq in Hlen. rewrite Hlen. cbn [Nat.eqb orb].
    apply startsWith_prefix in Hst. destruct Hst as [rest Hrest].
    assert (Hl : List.length rest = 10%nat).
    { rewrite Hrest in Hlen. simpl in Hlen. lia. }
    exists (firstn 5 rest), (skipn 5 rest).
    assert (Ha : List.length (firstn 5 rest) = 5%nat) by (rewrite firstn_length_le; lia).
    assert (Hb : List.length (skipn 5 rest) = 5%nat) by (rewrite length_skipn; lia).
    assert (Hdig : forallb isDigit (firstn 5 rest ++ skipn 5 rest) = true).
    { rewrite firstn_skipn. rewrite Hrest in Hd. simpl in Hd. exact Hd. }
    split; [exact Ha|]. split; [exact Hb|]. split; [exact Hdig|].
    split; [right; rewrite firstn_skipn; exact Hrest|].
    assert (Hf : js "+91-" ++ slice cleaned 2 7 ++ js "-" ++ skipn 7 cleaned
                 = js "+91-" ++ firstn 5 rest ++ js "-" ++ skipn 5 rest).
    { rewrite Hrest. reflexivity. }
    rewrite Hf. split; [reflexivity|].
    apply (formatted_phone_fixed _ _ Ha Hb Hdig).
  - destruct (List.length cleaned =? 10)%nat eqn:E10; cbn [orb]; [|reflexivity].
    apply Nat.eqb_eq in E10.
    exists (firstn 5 cleaned), (skipn 5 cleaned).
    assert (Ha : List.length (firstn 5 cleaned) = 5%nat) by (rewrite firstn_length_le; lia).
    assert (Hb : List.length (skipn 5 cleaned) = 5%nat) by (rewrite length_skipn; lia).
    assert (Hdig : forallb isDigit (firstn 5 cleaned ++ skipn 5 cleaned) = true).
    { rewrite firstn_skipn. exact Hd. }
    split; [exact Ha|]. split; [exact Hb|]. split; [exact Hdig|].
    split; [left; rewrite firstn_skipn; reflexivity|].
    split; [reflexivity|].
    apply (formatted_phone_fixed _ _ Ha Hb Hdig).
Qed.

(** X29: a path made of STORAGE_PATHS.AUDIO(uid), a slash and a file
    name passes all the checks of transcribeAudio for the caller uid. *)
Theorem X29_paths_under_STORAGE_PATHS_AUDIO_pass_the_transcription_checks :
  forall (context : CallableContext) (u fileName language : JsString),
    validateAuth context = Ok u ->
    In language supportedLanguages ->
    let audioPath := STORAGE_PATHS_AUDIO u ++ js "/" ++ fileName in
    transcribeAudioChecks
      (VObj [(js "audioPath", VStr audioPath); (js "language", VStr language)]) context
    = Ok (u, audioPath, language).
Proof.
  intros context u fileName language Hu Hl audioPath.
  assert (Hinc : Str.includes audioPath (js "audio/" ++ u ++ js "/") = true).
  { replace audioPath with ([] ++ (js "audio/" ++ u ++ js "/") ++ fileName);
      [apply includes_infix|].
    unfold audioPath, STORAGE_PATHS_AUDIO. rewrite <- !app_assoc. reflexivity. }
  unfold transcribeAudioChecks. rewrite Hu.
  unfold audioPath, STORAGE_PATHS_AUDIO in *.
  simpl in Hl. destruct Hl as [<-|[<-|[<-|[<-|[]]]]];
    simpl in Hinc |- *; rewrite Hinc; reflexivity.
Qed.

(* ===================================================================== *)
(** * The seed script of the schemes collection *)
(* ===================================================================== *)

Lemma isIdChar_replaced (c : N) : isIdChar (if isIdChar c then c else 45%N) = true.
Proof. destruct (isIdChar c) eqn:E; [exact E | reflexivity]. Qed.

Lemma docIdOf_chars {cs : Casing} (name : JsString) :
  forallb isIdChar (docIdOf name) = true.
Proof.
  unfold docIdOf. induction (String_toLowerCase name) as [|c s IH]; [reflexivity|].
  simpl. rewrite isIdChar_replaced. exact IH.
Qed.

Lemma docIdOf_ascii {cs : Casing} (name : JsString) :
  isAscii name = true -> docIdOf name = @docIdOf asciiCasing name.
Proof. intros H. unfold docIdOf. rewrite (toLowerCase_ascii name H). reflexivity. Qed.

Lemma seedLoop_spec {cs : Casing} (store : SchemeStore) (todo : list Scheme) :
  forall successCount errorCount attempted,
    exists added errors,
      seedLoop store todo successCount errorCount attempted =
        (added, errors, attempted ++ List.map attemptOf todo) /\
      (added + errors = successCount + errorCount + List.length todo)%nat /\
      ((forall done docId document, store done docId document = Ok tt) ->
       errors = errorCount) /\
      ((forall done docId document, exists e, store done docId document = Throw e) ->
       added = successCount).
Proof.
  induction todo as [|scheme rest IH]; intros successCount errorCount attempted.
  - exists successCount, errorCount. simpl. rewrite app_nil_r.
    repeat split; auto; lia.
  - simpl seedLoop.
    destruct (store attempted _ _) as [[]|e] eqn:Es.
    + destruct (IH (S successCount) errorCount
                   (attempted ++ [(docIdOf (scheme_name scheme),
                                   mkSchemeDocument scheme serverTimestamp serverTimestamp)]))
        as (added & errors & Hrun & Hsum & Hok & Hfail).
      exists added, errors. rewrite Hrun, <- app_assoc. simpl.
      split; [reflexivity|]. split; [lia|]. split; [exact Hok|].
      intros Hall. destruct (Hall attempted (docIdOf (scheme_name scheme))
                               (mkSchemeDocument scheme serverTimestamp serverTimestamp))
        as [e He]. congruence.
    + destruct (IH successCount (S errorCount)
                   (attempted ++ [(docIdOf (scheme_name scheme),
                                   mkSchemeDocument scheme serverTimestamp serverTimestamp)]))
        as (added & errors & Hrun & Hsum & Hok & Hfail).
      exists added, errors. rewrite Hrun, <- app_assoc. simpl.
      split; [reflexivity|]. split; [lia|]. split; [|exact Hfail].
      intros Hall. rewrite Hall in Es. discriminate.
Qed.

(** X30: seedSchemes, once it has the database handle, attempts to
    write each of the twelve schemes exactly once, in the order of the
    table, under twelve distinct document ids, whatever writes fail; it
    returns success: true with added + errors = 12. If every write is
    accepted the counts are 12 and 0, if every write is rejected they are
    0 and 12. A document id, whatever the name it is made from, consists
    of lower-case letters, digits and hyphens only. *)
Theorem X30_seedSchemes_attempts_every_scheme_once_and_counts_failures :
  forall (cs : Casing) (store : SchemeStore),
    exists added errors attempted,
      seedSchemes (Ok tt) store = (Ok (mkSeedResult true added errors), attempted) /\
      (added + errors = 12)%nat /\
      List.map (fun w => doc_scheme (snd w)) attempted = schemes /\
      List.map fst attempted =
        [ js "pm-kisan";
          js "pm-fasal-bima-yojana";
          js "kisan-credit-card--kcc-";
          js "soil-health-card-scheme";
          js "pradhan-mantri-krishi-sinchai-yojana--pmksy-";
          js "paramparagat-krishi-vikas-yojana--pkvy-";
          js "national-agriculture-market--e-nam-";
          js "rashtriya-krishi-vikas-yojana--rkvy-";
          js "kisan-call-centre--kcc-";
          js "national-mission-on-sustainable-agriculture--nmsa-";
          js "sub-mission-on-agricultural-mechanization--smam-";
          js "national-horticulture-mission" ] /\
      NoDup (List.map fst attempted) /\
      ((forall done docId document, store done docId document = Ok tt) ->
       added = 12%nat /\ errors = 0%nat) /\
      ((forall done docId document, exists e, store done docId document = Throw e) ->
       added = 0%nat /\ errors = 12%nat) /\
      (forall name : JsString, forallb isIdChar (docIdOf name) = true).
Proof.
  intros cs store. unfold seedSchemes.
  destruct (seedLoop_spec store schemes 0 0 []) as (added & errors & Hrun & Hsum & Hok & Hfail).
  exists added, errors, (List.map attemptOf schemes).
  rewrite Hrun. cbn [app].
  assert (Hlen : List.length schemes = 12%nat) by reflexivity.
  assert (Hids : List.map fst (List.map attemptOf schemes) =
                 List.map (@docIdOf asciiCasing) (List.map scheme_name schemes)).
  { rewrite !map_map. apply map_ext_in. intros scheme Hin. cbn [attemptOf fst].
    apply docIdOf_ascii.
    revert scheme Hin. apply Forall_forall.
    repeat (constructor; [vm_compute; reflexivity|]). constructor. }
  split; [reflexivity|]. split; [lia|]. split.
  { rewrite map_map. cbn [attemptOf snd doc_scheme]. apply map_id. }
  split; [rewrite Hids; vm_compute; reflexivity|].
  split.
  { rewrite Hids.
    assert (Hdec : forall l : list JsString,
               (fix nodup (l : list JsString) : bool :=
                  match l with
                  | [] => true
                  | x :: rest => negb (existsb (Str.eqb x) rest) && nodup rest
                  end) l = true -> NoDup l).
    { induction l as [|x rest IH]; [constructor|].
      intros H. apply andb_true_iff in H. destruct H as [Hx Hr].
      constructor; [|apply IH; exact Hr].
      intros Hin. apply negb_true_iff in Hx.
      assert (existsb (Str.eqb x) rest = true); [|congruence].
      apply existsb_exists. exists x. split; [exact Hin | apply Str_eqb_refl]. }
    apply Hdec. vm_compute. reflexivity. }
  split; [intros Hall; specialize (Hok Hall); lia|].
  split; [intros Hall; specialize (Hfail Hall); lia|].
  apply docIdOf_chars.
Qed.

End Proofs.

(* ===================================================================== *)
(** * Concrete runs *)
(* ===================================================================== *)

(** X1, at a request without farm profile and with an empty question. *)
Lemma X1_witness :
  validateRequiredFields
    (VObj [(js "language", VStr (js "en")); (js "question", VStr [])])
    [js "question"; js "farmProfile"; js "language"]
  = throwError (js "Missing required fields: question, farmProfile").
Proof.
  refine (X1_validateRequiredFields_lists_every_missing_field
            [(js "language", VStr (js "en")); (js "question", VStr [])]
            [js "question"; js "farmProfile"; js "language"] _).
  intros f [<- | [<- | [<- | []]]]; simpl; tauto.
Defined.

(** C1, at the reply [{"answer":"ok","confidence":"VeryHigh"}]. *)
Lemma C1_witness :
  run (workingWorld replyVeryHigh noSpeech)
      (@askGemini sampleRuntime sampleEnv (askData sampleQuestion) sampleContext)
  = (inr (mkAskGeminiResult (VStr (js "ok")) (VStr (js "Medium"))
                            (VArr [VStr (js "Gemini AI")]) (VArr []) (js "chat-1")),
     [ sampleGenerate; NewChatRef (js "u123");
       ChatSet (js "u123") (js "chat-1")
               (sampleRecord (mkAIResponse (VStr (js "ok")) (VStr (js "Medium"))
                                           (VArr [VStr (js "Gemini AI")]) (VArr []))) ])
  /\
  exists prompt responseText,
    workingWorld replyVeryHigh noSpeech [] (GenerateContent (js "gemini-1.5-flash") prompt)
      = Ok responseText /\
    confidence (fieldsOf (extractResponse responseText)) = VStr (js "VeryHigh") /\
    In (VStr (js "Medium")) [VStr (js "High"); VStr (js "Medium"); VStr (js "Low")].
Proof.
  assert (Hrun :
    run (workingWorld replyVeryHigh noSpeech)
        (@askGemini sampleRuntime sampleEnv (askData sampleQuestion) sampleContext)
    = (inr (mkAskGeminiResult (VStr (js "ok")) (VStr (js "Medium"))
                              (VArr [VStr (js "Gemini AI")]) (VArr []) (js "chat-1")),
       [ sampleGenerate; NewChatRef (js "u123");
         ChatSet (js "u123") (js "chat-1")
                 (sampleRecord (mkAIResponse (VStr (js "ok")) (VStr (js "Medium"))
                                             (VArr [VStr (js "Gemini AI")]) (VArr []))) ]))
    by (vm_compute; reflexivity).
  split; [exact Hrun|].
  destruct (proj1 (@C1_fields_are_normalized_but_a_number_answer_is_returned
                     sampleRuntime) _ _ _ _ _ _ Hrun)
    as (prompt & responseText & Hw & _ & _ & _ & Hin & _).
  exists prompt, responseText. split; [exact Hw|].
  split; [|exact Hin].
  simpl in Hw. injection Hw as <-. vm_compute. reflexivity.
Defined.

(** C2, at a call without [context.auth] in a world where every service
    is down. *)
Lemma C2_witness :
  validateAuth anonymousContext
    = Throw (mkError (js "Unauthenticated: No auth token provided")) /\
  run offlineWorld
      (@askGemini sampleRuntime sampleEnv (askData sampleQuestion) anonymousContext)
    = (inl (mkHttpsError (js "internal")
              (js "Failed to get AI response: Unauthenticated: No auth token provided")),
       []).
Proof.
  split; [reflexivity|].
  exact (proj1 (proj2 (@C2_unauthenticated_fails_first_as_internal
                         sampleRuntime offlineWorld sampleEnv
                         (askData sampleQuestion) anonymousContext
                         (mkError (js "Unauthenticated: No auth token provided"))
                         eq_refl))).
Defined.

(** C2 as stated fails: the unauthenticated call is answered with the
    error kind [internal], the kind that a failure of the model provider
    gets as well. *)
Lemma C2_counterexample :
  validateAuth anonymousContext
    = Throw (mkError (js "Unauthenticated: No auth token provided")) /\
  (forall (rt : Runtime) world env data,
      option_map code
        (match fst (run world (@askGemini rt env data anonymousContext)) with
         | inl err => Some err
         | inr _ => None
         end) = Some (js "internal")) /\
  (forall rt : Runtime,
      option_map code
        (match fst (run offlineWorld
                        (@askGemini rt sampleEnv (askData sampleQuestion)
                                   sampleContext)) with
         | inl err => Some err
         | inr _ => None
         end) = Some (js "internal")).
Proof.
  split; [reflexivity|]. split.
  - intros rt world env data.
    rewrite run_askGemini. reflexivity.
  - intros rt. vm_compute. reflexivity.
Qed.

(** C4, at the reply of the specification's example. *)
Lemma C4_witness :
  jsonMatch (js "I recommend crop rotation.") = None /\
  parseAIResponse (js "I recommend crop rotation.")
    = Ok (fallbackResponse (js "I recommend crop rotation.")).
Proof.
  split; [reflexivity|].
  exact (proj2 (proj2 (C4_fallback_returned_unless_reply_empty
                         (js "I recommend crop rotation.") (or_introl eq_refl)))).
Defined.

(** C4 as stated fails at the empty reply: no brace-delimited part, and
    the parser raises. *)
Lemma C4_counterexample :
  jsonMatch [] = None /\
  parseAIResponse [] = Throw (mkError (js "Invalid AI response: missing answer field")).
Proof. split; reflexivity. Qed.

(** C5, at the reply [{"confidence":"High"}]. *)
Lemma C5_witness :
  jsonMatch replyNoAnswer = Some replyNoAnswer /\
  Json.parse replyNoAnswer = Some (VObj [(js "confidence", VStr (js "High"))]) /\
  parseAIResponse replyNoAnswer = Throw (mkError invalidAIResponse).
Proof.
  split; [reflexivity|]. split; [reflexivity|].
  exact (proj1 C5_parser_fails_on_falsy_answer_and_passes_a_number_answer
               replyNoAnswer replyNoAnswer
               (VObj [(js "confidence", VStr (js "High"))]) eq_refl eq_refl).
Defined.

(** C6, at a store that rejects the write with "quota exceeded". *)
Lemma C6_witness :
  snd (run (failingWriteWorld replyVeryHigh (js "quota exceeded"))
           (@askGemini sampleRuntime sampleEnv (askData sampleQuestion)
                      sampleContext))
  = [sampleGenerate; NewChatRef (js "u123")]
    ++ [ChatSet (js "u123") (js "chat-1")
                (sampleRecord (mkAIResponse (VStr (js "ok")) (VStr (js "Medium"))
                                            (VArr [VStr (js "Gemini AI")]) (VArr [])))]
  /\
  fst (run (failingWriteWorld replyVeryHigh (js "quota exceeded"))
           (@askGemini sampleRuntime sampleEnv (askData sampleQuestion)
                      sampleContext))
  = inl (askGeminiError (mkError (js "quota exceeded")))
  /\
  askGeminiError (mkError (js "quota exceeded"))
  = mkHttpsError (js "internal") (js "Failed to get AI response: quota exceeded").
Proof.
  assert (Hcalls :
    snd (run (failingWriteWorld replyVeryHigh (js "quota exceeded"))
             (@askGemini sampleRuntime sampleEnv (askData sampleQuestion)
                        sampleContext))
    = [sampleGenerate; NewChatRef (js "u123")]
      ++ [ChatSet (js "u123") (js "chat-1")
                  (sampleRecord (mkAIResponse (VStr (js "ok")) (VStr (js "Medium"))
                                              (VArr [VStr (js "Gemini AI")]) (VArr [])))])
    by (vm_compute; reflexivity).
  split; [exact Hcalls|].
  split; [|reflexivity].
  exact (proj1 (proj1 (@C6_write_failure_fails_request_and_success_wrote_once
                         sampleRuntime
                         (failingWriteWorld replyVeryHigh (js "quota exceeded"))
                         sampleEnv (askData sampleQuestion) sampleContext)
                      _ _ _ _ (mkError (js "quota exceeded")) Hcalls eq_refl)).
Defined.

(** C6 as stated fails at a store that rejects the write with "API key
    expired": the request fails, but the error that reaches the caller
    does not carry that message. *)
Lemma C6_counterexample :
  exists err : HttpsError,
    (forall rt : Runtime,
        run (failingWriteWorld replyVeryHigh (js "API key expired"))
            (@askGemini rt sampleEnv (askData sampleQuestion) sampleContext)
        = (inl err,
           [ GenerateContent (js "gemini-1.5-flash")
               match @buildAgriculturalPrompt rt sampleFarmProfile (js "en")
                                             sampleQuestionTrimmed with
               | Ok prompt => prompt
               | Throw _ => []
               end;
             NewChatRef (js "u123");
             ChatSet (js "u123") (js "chat-1")
                     (sampleRecord (mkAIResponse (VStr (js "ok")) (VStr (js "Medium"))
                                                 (VArr [VStr (js "Gemini AI")])
                                                 (VArr []))) ])) /\
    err = mkHttpsError (js "failed-precondition")
                       (js "Gemini API key not configured. Please contact support.") /\
    Str.includes (errorMessage err) (js "API key expired") = false.
Proof.
  eexists. split; [intros rt; vm_compute; reflexivity|].
  split; reflexivity.
Qed.

(** C7, at the sample question. *)
Lemma C7_witness :
  validateTextLength (VStr sampleQuestion) 1000 = Ok sampleQuestionTrimmed /\
  exists s,
    VStr sampleQuestion = VStr s /\ s <> [] /\ (List.length s <= 1000)%nat /\
    sampleQuestionTrimmed = Str.trim s /\
    isTrimmed sampleQuestionTrimmed /\
    (List.length sampleQuestionTrimmed <= 1000)%nat /\
    (sampleQuestionTrimmed = [] <-> forallb Str.isWhiteSpace s = true).
Proof.
  split; [reflexivity|].
  exact (proj1 (@C7_question_is_trimmed_and_capped_but_may_be_blank sampleRuntime)
               (VStr sampleQuestion) sampleQuestionTrimmed eq_refl).
Defined.



(** C10, at the language "ta". *)
Lemma C10_witness :
  @validateLanguage sampleRuntime (VStr (js "ta")) = Ok (js "ta") /\
  tableGet voiceConfig (js "ta") = Some (voiceOf (js "ta")) /\
  languageCode (voiceOf (js "ta")) = js "ta-IN" /\
  localeOf (js "ta") = js "ta-IN".
Proof.
  split; [reflexivity|].
  destruct (@C10_provider_tables_total_on_validated_languages
              sampleRuntime (VStr (js "ta")) (js "ta") eq_refl)
    as (_ & _ & Hv & Hc & _ & Hl & _).
  split; [exact Hv|]. split; [exact Hc | exact Hl].
Defined.

(** X3, at the sample farm profile, which has a soil type only. *)
Lemma X3_witness :
  buildAgriculturalPrompt (rt := sampleRuntime) sampleFarmProfile (js "en")
                          sampleQuestionTrimmed = Ok samplePrompt /\
  exists c : FarmContext,
    samplePrompt = renderPrompt (js "English") c sampleQuestionTrimmed /\
    ctx_village c = js "Not specified" /\
    ctx_season c = js "Not specified" /\
    ctx_crops c = js "Not specified" /\
    ctx_area c = js "Not specified".
Proof.
  split; [reflexivity|].
  destruct (@X3_missing_profile_fields_show_Not_specified sampleRuntime
              sampleFarmProfile (js "en") sampleQuestionTrimmed samplePrompt eq_refl)
    as (c & Hp & Hv & _ & _ & _ & _ & Hsea & Hcrops & Harea).
  exists c. split; [exact Hp|].
  split; [exact (Hv eq_refl)|]. split; [exact (Hsea eq_refl)|].
  split; [exact (Hcrops (or_introl eq_refl)) | exact (Harea eq_refl)].
Defined.

(** X4, at the specification's example: the caller "u123" asks for
    "audio/otherUser/rec.webm". *)
Lemma X4_witness :
  Str.includes (js "audio/otherUser/rec.webm") (js "audio/" ++ js "u123" ++ js "/") = false /\
  run offlineWorld
      (transcribeAudio (rt := sampleRuntime) sampleEnv
                       (transcribeData (js "audio/otherUser/rec.webm")) sampleContext)
  = (inl (mkHttpsError (js "internal")
            (js "Failed to transcribe audio: Unauthorized: Cannot access audio file")),
     []).
Proof.
  split; [reflexivity|].
  exact (@X4_unowned_path_is_rejected_before_any_call sampleRuntime
           offlineWorld sampleEnv (transcribeData (js "audio/otherUser/rec.webm"))
           sampleContext (js "u123") (js "audio/otherUser/rec.webm") (js "en")
           (VStr (js "audio/otherUser/rec.webm")) (VStr (js "en"))
           eq_refl eq_refl eq_refl eq_refl eq_refl eq_refl eq_refl).
Defined.

(** X5, at the specification's example reply. *)
Lemma X5_witness :
  extractResponse replyConforming = VObj conformingProps /\
  normalizeResponse (VObj conformingProps) = Ok (VObj conformingProps).
Proof.
  split; [reflexivity|].
  exact (X5_conforming_reply_is_kept_unchanged conformingProps
           eq_refl eq_refl eq_refl eq_refl).
Defined.

(** X6, at a deployment without the key. *)
Lemma X6_witness :
  apiKeyMissing envWithoutKey = true /\
  exists err : HttpsError,
    run (workingWorld replyConforming noSpeech)
        (askGemini (rt := sampleRuntime) envWithoutKey (askData sampleQuestion)
                   sampleContext)
    = (inl err, []).
Proof.
  split; [reflexivity|].
  exact (@X6_no_call_without_api_key sampleRuntime
           (workingWorld replyConforming noSpeech) envWithoutKey
           (askData sampleQuestion) sampleContext eq_refl).
Defined.

(** X7, at a request for Hindi speech in a world where everything works. *)
Lemma X7_witness :
  fst (run (workingWorld replyConforming noSpeech)
           (synthesizeSpeech (rt := sampleRuntime) sampleEnv synthData sampleContext))
    = inr sampleSynthesis /\
  exists u content metadata,
    validateAuth sampleContext = Ok u /\
    Str.startsWith (storagePath sampleSynthesis) (js "audio/" ++ u ++ js "/") = true /\
    In (FileSave (storagePath sampleSynthesis) content metadata)
       (snd (run (workingWorld replyConforming noSpeech)
                 (synthesizeSpeech (rt := sampleRuntime) sampleEnv synthData
                                   sampleContext))) /\
    fm_userId metadata = u.
Proof.
  split; [reflexivity|].
  exact (@X7_synthesized_audio_is_stored_under_the_caller sampleRuntime
           (workingWorld replyConforming noSpeech) sampleEnv synthData sampleContext
           sampleSynthesis eq_refl).
Defined.

(** X9, at the empty reply. *)
Lemma X9_witness :
  parseAIResponse [] = Throw (mkError invalidAIResponse) /\
  mkError invalidAIResponse = mkError (js "Invalid AI response: missing answer field").
Proof.
  split; [reflexivity|].
  exact (X9_response_parser_raises_one_error_only [] (mkError invalidAIResponse) eq_refl).
Defined.

(** X13, at a request for a recording of the caller's that is not in the
    bucket. *)
Lemma X13_witness :
  @transcribeAudioChecks sampleRuntime (transcribeData ownPath) sampleContext
    = Ok (js "u123", ownPath, js "en") /\
  emptyBucketWorld [] (FileExists ownPath) = Ok false /\
  run emptyBucketWorld
      (transcribeAudio (rt := sampleRuntime) sampleEnv (transcribeData ownPath)
                       sampleContext)
  = (inl (mkHttpsError (js "internal")
            (js "Failed to transcribe audio: Audio file not found")),
     [FileExists ownPath]).
Proof.
  split; [reflexivity|]. split; [reflexivity|].
  exact (@X13_missing_audio_file_is_not_transcribed sampleRuntime
           emptyBucketWorld sampleEnv (transcribeData ownPath) sampleContext
           (js "u123") ownPath (js "en") eq_refl eq_refl).
Defined.

(** X14, at a request for Hindi speech when the provider returns no
    audio. *)
Lemma X14_witness :
  @synthesizeSpeechChecks sampleRuntime synthData sampleContext
    = Ok (js "u123", js "Namaste", js "hi") /\
  silentWorld [] (SynthesizeSpeech (synthesisRequestOf (js "Namaste") (js "hi")))
    = Ok (mkSynthesisResponse None) /\
  run silentWorld (synthesizeSpeech (rt := sampleRuntime) sampleEnv synthData sampleContext)
  = (inl (mkHttpsError (js "internal")
            (js "Failed to synthesize speech: No audio content generated")),
     [SynthesizeSpeech (synthesisRequestOf (js "Namaste") (js "hi"))]).
Proof.
  split; [reflexivity|]. split; [reflexivity|].
  exact (@X14_no_audio_content_stores_nothing sampleRuntime
           silentWorld sampleEnv synthData sampleContext
           (js "u123") (js "Namaste") (js "hi") (mkSynthesisResponse None)
           eq_refl eq_refl eq_refl).
Defined.

(** X15, at a request for Hindi speech in a world where everything
    works. *)
Lemma X15_witness :
  fst (run (workingWorld replyConforming noSpeech)
           (synthesizeSpeech (rt := sampleRuntime) sampleEnv synthData sampleContext))
    = inr sampleSynthesis /\
  exists s timestamp,
    Js.get synthData (js "text") = Ok (VStr s) /\
    (0 < List.length s <= 5000)%nat /\
    storagePath sampleSynthesis =
      js "audio/" ++ js "u123" ++ js "/response-" ++ timestampString timestamp
      ++ js ".mp3".
Proof.
  split; [reflexivity|].
  destruct (@X15_synthesizeSpeech_saves_what_the_provider_returned sampleRuntime
              (workingWorld replyConforming noSpeech) sampleEnv synthData sampleContext
              sampleSynthesis eq_refl)
    as (u & s & language & content & timestamp & generatedAt & now
        & Hu & Hget & Hlen & _ & _ & _ & Hpath & _).
  injection Hu as <-.
  exists s, timestamp.
  split; [exact Hget|]. split; [exact Hlen | exact Hpath].
Defined.

(** X17, at the path returned for the sample synthesis, offered for
    transcription in Tamil. *)
Lemma X17_witness :
  fst (run (workingWorld replyConforming noSpeech)
           (synthesizeSpeech (rt := sampleRuntime) sampleEnv synthData sampleContext))
    = inr sampleSynthesis /\
  In (js "ta") supportedLanguages /\
  exists u,
    validateAuth sampleContext = Ok u /\
    @transcribeAudioChecks sampleRuntime
      (VObj [(js "audioPath", VStr (storagePath sampleSynthesis));
             (js "language", VStr (js "ta"))])
      sampleContext
    = Ok (u, storagePath sampleSynthesis, js "ta").
Proof.
  split; [reflexivity|].
  split; [right; right; left; reflexivity|].
  exact (@X17_synthesized_path_passes_the_transcription_checks sampleRuntime
           (workingWorld replyConforming noSpeech) sampleEnv synthData sampleContext
           sampleSynthesis (js "ta") eq_refl (or_intror (or_intror (or_introl eq_refl)))).
Defined.

(** X18, at the sample prompt. *)
Lemma X18_witness :
  buildAgriculturalPrompt (rt := sampleRuntime) sampleFarmProfile (js "en")
                          sampleQuestionTrimmed = Ok samplePrompt /\
  Str.includes samplePrompt sampleQuestionTrimmed = true /\
  Str.includes samplePrompt
    (js "3. Answer in " ++ js "English" ++ js " - the farmer's preferred language.")
    = true.
Proof.
  split; [reflexivity|].
  destruct (@X18_prompt_carries_the_question_and_the_language_name sampleRuntime
              sampleFarmProfile (js "en") sampleQuestionTrimmed samplePrompt eq_refl)
    as (_ & Hq & Hl).
  split; [exact Hq | exact (Hl (js "English") (or_introl eq_refl))].
Defined.

(** X19, at a farm profile that gives the crops as the string "rice". *)
Lemma X19_witness :
  Js.prop (VObj [(js "crops", VStr (js "rice"))]) (js "crops") = VStr (js "rice") /\
  apiKeyMissing sampleEnv = false /\
  exists msg,
    run offlineWorld
        (askGemini (rt := sampleRuntime) sampleEnv askDataCropsAsString sampleContext)
    = (inl (mkHttpsError (js "internal") (js "Failed to get AI response: " ++ msg)), []).
Proof.
  split; [reflexivity|]. split; [reflexivity|].
  refine (@X19_crops_that_are_no_array_fail_the_request_before_the_model_call
            sampleRuntime offlineWorld sampleEnv askDataCropsAsString sampleContext
            (js "u123") sampleQuestionTrimmed (js "en") (VStr sampleQuestion)
            (VStr (js "en")) [(js "crops", VStr (js "rice"))]
            eq_refl eq_refl eq_refl eq_refl eq_refl eq_refl eq_refl eq_refl _ _ eq_refl);
    intros H; vm_compute in H; discriminate H.
Defined.

(** X20, at the language "no API key", with the key configured. *)
Lemma X20_witness :
  apiKeyMissing sampleEnv = false /\
  Str.includes (js "no API key") (js "API key") = true /\
  run offlineWorld
      (askGemini (rt := sampleRuntime) sampleEnv askDataOddLanguage sampleContext)
  = (inl (mkHttpsError (js "failed-precondition")
            (js "Gemini API key not configured. Please contact support.")), []).
Proof.
  split; [reflexivity|]. split; [reflexivity|].
  exact (@X20_language_mentioning_API_key_is_reported_as_missing_key sampleRuntime
           offlineWorld sampleEnv askDataOddLanguage sampleContext
           (js "u123") sampleQuestionTrimmed (js "no API key") (VStr sampleQuestion)
           eq_refl eq_refl eq_refl eq_refl eq_refl eq_refl).
Defined.

(** X22, at the sample question and a callable that answers as askGemini
    does. *)
Lemma X22_witness :
  Str.trim sampleQuestion = sampleQuestionTrimmed /\
  fst (askQuestion answeringCallable (VStr sampleQuestion) VUndefined VUndefined) =
  inr (mkAskQuestionResult true (VStr (js "Use neem oil.")) (VStr (js "chat-1"))
                           VUndefined VUndefined).
Proof.
  split; [reflexivity|].
  refine (X22_askQuestion_keeps_only_answer_and_chatId
            answeringCallable sampleQuestion VUndefined VUndefined sampleResult
            _ eq_refl).
  intros H. vm_compute in H. discriminate H.
Defined.

(** X23, at the request that the sample question leads to. *)
Lemma X23_witness :
  In (askQuestionRequest sampleQuestion VNull (VStr (js "en")))
     (snd (askQuestion answeringCallable (VStr sampleQuestion) VUndefined VUndefined)) /\
  exists q,
    Js.get (askQuestionRequest sampleQuestion VNull (VStr (js "en"))) (js "question")
      = Ok (VStr q) /\
    isMissing (VStr q) = false.
Proof.
  assert (Hin : In (askQuestionRequest sampleQuestion VNull (VStr (js "en")))
                   (snd (askQuestion answeringCallable (VStr sampleQuestion)
                                     VUndefined VUndefined))).
  { left. reflexivity. }
  split; [exact Hin|].
  destruct (X23_question_sent_by_the_client_is_never_empty_on_the_server
              answeringCallable (VStr sampleQuestion) VUndefined VUndefined
              (askQuestionRequest sampleQuestion VNull (VStr (js "en"))) Hin)
    as (q & Hget & _ & Hmiss & _).
  exists q. split; [exact Hget | exact Hmiss].
Defined.

(** X24, at the rejection a client receives for an unauthenticated
    call. *)
Lemma X24_witness :
  err_code unauthenticatedRejection = Some (js "functions/" ++ js "internal") /\
  fst (askQuestion rejectingCallable (VStr sampleQuestion) VUndefined VUndefined) =
  inl (mkError
         (js "Failed to get AI response: Unauthenticated: No auth token provided")).
Proof.
  split; [reflexivity|].
  refine (X24_handler_error_codes_keep_their_message_on_the_client
            rejectingCallable sampleQuestion VUndefined VUndefined
            unauthenticatedRejection (js "internal") _ eq_refl eq_refl
            (or_introl eq_refl)).
  intros H. vm_compute in H. discriminate H.
Defined.

(** X25, at the caller "u123" reading back the chat "chat-1". *)
Lemma X25_witness :
  writtenByAskGemini (js "u123") (js "chat-1") =
    inr (mkSnapshot (js "chat-1") (Some (chatDocument sampleChatRecord 1700000000000))) /\
  getChatById writtenByAskGemini (js "u123") (js "chat-1") =
  (inl (mkError (js "You do not have permission to access this chat")),
   [(js "u123", js "chat-1")]).
Proof.
  split; [reflexivity|].
  refine (proj2 (X25_getChatById_refuses_the_chats_that_askGemini_writes
                   writtenByAskGemini (js "u123") (js "chat-1") (js "chat-1")
                   sampleChatRecord 1700000000000 _ _ eq_refl));
    intros H; discriminate H.
Defined.

(** X26, at a document that names "u123" as its owner. *)
Lemma X26_witness :
  fst (getChatById withOwner (js "u123") (js "chat-1")) =
    inr (mkChatByIdResult true
           ((js "timestamp", CDate 1700000000000) :: ownedDocument
            ++ [(js "id", CPlain (VStr (js "chat-1")))])) /\
  exists chatData,
    fieldOf chatData (js "userId") = Some (CPlain (VStr (js "u123"))) /\
    snd (getChatById withOwner (js "u123") (js "chat-1")) = [(js "u123", js "chat-1")].
Proof.
  split; [reflexivity|].
  destruct (X26_getChatById_returns_only_documents_that_name_the_caller
              withOwner (js "u123") (js "chat-1") _ eq_refl)
    as (chatSnap & chatData & timestamp & Hreads & _ & _ & Howner & _).
  exists chatData. split; [exact Howner | exact Hreads].
Defined.

(** X29, at the caller "u123" and the file "rec.webm". *)
Lemma X29_witness :
  validateAuth sampleContext = Ok (js "u123") /\
  In (js "hi") supportedLanguages /\
  @transcribeAudioChecks sampleRuntime
    (VObj [(js "audioPath", VStr (STORAGE_PATHS_AUDIO (js "u123") ++ js "/" ++ js "rec.webm"));
           (js "language", VStr (js "hi"))])
    sampleContext
  = Ok (js "u123", STORAGE_PATHS_AUDIO (js "u123") ++ js "/" ++ js "rec.webm", js "hi").
Proof.
  split; [reflexivity|]. split; [right; left; reflexivity|].
  exact (@X29_paths_under_STORAGE_PATHS_AUDIO_pass_the_transcription_checks sampleRuntime
           sampleContext (js "u123") (js "rec.webm") (js "hi") eq_refl
           (or_intror (or_introl eq_refl))).
Defined.
